(** * College assistant front end: chat orchestration and attendance views

    A shallow embedding of the client-side logic of the React front end:
    the chat component ([ChatInterface.jsx]: [sendMessage], [fetchAttendance],
    [handlePromptClick], [handleSubmit], [formatMessage] and the controls
    it renders), the attendance and fee computations of the dashboard,
    profile, attendance and fee pages, the loading of the dashboard data,
    the login and appointment pages, the routes of [App], the request
    interceptor of [services/api.js] and the logout handler of the
    layout.

    Conventions of the embedding.
    - A JavaScript number is the rational value ([Q]) of a binary64
      float; every addition, multiplication and division rounds its exact
      result to binary64 ([JS.fl]: round to nearest, ties to even).
      [Infinity], [NaN] and the sign of zero are not part of the model.
      The class counts of a record are whole numbers ([Z]).
    - A JavaScript string is a [string] of bytes; text outside ASCII is
      carried as its UTF-8 bytes.
    - An [async] handler is split at its [await]: the synchronous part
      returns the new component state and the request it issues, the
      continuation takes the outcome of the request.
    - A handler closes over the state of the render that created it; the
      model runs every handler on the committed state. *)

From Stdlib Require Import ZArith QArith Qround Qpower Qfield Lqa.
From Stdlib Require Import SpecFloat Bool List Lia.
From Stdlib Require Import Permutation.
From Stdlib Require Import Ascii String DecimalString DecimalZ DecimalN.
Import ListNotations.

Local Open Scope Z_scope.

(** ** JavaScript primitives used by the components *)

Module JS.

(** A value that is either a number or a string, the two shapes
    [overallPercentage] takes. *)
Inductive value : Type :=
| VNum (q : Q)
| VStr (s : string).

(** [x < y] on numbers; [Qle_bool] is [x <= y]. *)
Definition Qltb (x y : Q) : bool :=
  Qnum x * QDen y <? Qnum y * QDen x.

(** [a.length > 0], [x > 0] on integers. *)
Definition gt0 (z : Z) : bool := 0 <? z.

(** *** Numbers

    [2^k] *)
Definition pow2 (k : Z) : Q := Qpower 2 k.

(** The exponent [e] of a positive number: [2^e <= q < 2^(e+1)]. *)
Definition ilog2 (q : Q) : Z :=
  let e0 := Z.log2 (Qnum q) - Z.log2 (Zpos (Qden q)) in
  if Qle_bool (pow2 e0) q then e0 else e0 - 1.

(** The nearest integer, the even one of two. *)
Definition rne (y : Q) : Z :=
  let f := Qfloor y in
  match Qcompare (y - inject_Z f) (1 # 2) with
  | Lt => f
  | Gt => f + 1
  | Eq => if Z.even f then f else f + 1
  end.

(** The exponent of the last place of a positive number: 52 below its
    own exponent, and no less than -1074 (the subnormal numbers share the
    spacing [2^-1074]). *)
Definition ulp_exponent (q : Q) : Z := Z.max (ilog2 q - 52) (-1074).

(** A positive number rounded to a multiple of its last place. *)
Definition fl_pos (q : Q) : Q :=
  let E := ulp_exponent q in
  (inject_Z (rne (q * pow2 (- E))) * pow2 E)%Q.

(** The binary64 value of an exact result: round to nearest, ties to
    even, 53 significant bits, gradual underflow.  A result of magnitude
    [2^1024] or more ([Infinity] in JavaScript) is outside the model. *)
Definition fl (q : Q) : Q :=
  match Qcompare q 0 with
  | Eq => 0%Q
  | Gt => fl_pos q
  | Lt => (- fl_pos (- q))%Q
  end.

(** [x + y], [x * y] and [x / y] on numbers.  No division of the
    components has a zero divisor: each is guarded by a [> 0] test. *)
Definition add64 (x y : Q) : Q := fl (x + y).
Definition mul64 (x y : Q) : Q := fl (x * y).
Definition div64 (x y : Q) : Q := fl (x / y).

(** The unit roundoff of binary64. *)
Definition u : Q := pow2 (-53).

(** *** Strings

    [String.prototype.trim] strips the white space and the line
    terminators of ECMAScript: TAB, LF, VT, FF, CR, SP, U+00A0, U+1680,
    U+2000 to U+200A, U+2028, U+2029, U+202F, U+205F, U+3000 and U+FEFF.
    In the UTF-8 bytes of the text these are one, two or three bytes
    long. *)
Definition is_whitespace1 (c : ascii) : bool :=
  let n := N_of_ascii c in
  ((9 <=? n) && (n <=? 13) || (n =? 32))%N.

(** U+00A0 *)
Definition is_whitespace2 (c1 c2 : ascii) : bool :=
  ((N_of_ascii c1 =? 194) && (N_of_ascii c2 =? 160))%N.

Definition is_whitespace3 (c1 c2 c3 : ascii) : bool :=
  let a := N_of_ascii c1 in
  let b := N_of_ascii c2 in
  let c := N_of_ascii c3 in
  ((a =? 225) && (b =? 154) && (c =? 128)                  (* U+1680 *)
   || (a =? 226) && (b =? 128)
      && ((128 <=? c) && (c <=? 138)                        (* U+2000..U+200A *)
          || (c =? 168) || (c =? 169)                       (* U+2028, U+2029 *)
          || (c =? 175))                                    (* U+202F *)
   || (a =? 226) && (b =? 129) && (c =? 159)               (* U+205F *)
   || (a =? 227) && (b =? 128) && (c =? 128)               (* U+3000 *)
   || (a =? 239) && (b =? 187) && (c =? 191))%N.           (* U+FEFF *)

(** The text after its first character when that is white space. *)
Definition after_whitespace (s : string) : option string :=
  match s with
  | EmptyString => None
  | String c1 s1 =>
      if is_whitespace1 c1 then Some s1
      else match s1 with
           | EmptyString => None
           | String c2 s2 =>
               if is_whitespace2 c1 c2 then Some s2
               else match s2 with
                    | EmptyString => None
                    | String c3 s3 =>
                        if is_whitespace3 c1 c2 c3 then Some s3 else None
                    end
           end
  end.

Fixpoint trimStart (s : string) : string :=
  match s with
  | EmptyString => EmptyString
  | String c1 s1 =>
      if is_whitespace1 c1 then trimStart s1
      else match s1 with
           | EmptyString => s
           | String c2 s2 =>
               if is_whitespace2 c1 c2 then trimStart s2
               else match s2 with
                    | EmptyString => s
                    | String c3 s3 =>
                        if is_whitespace3 c1 c2 c3 then trimStart s3 else s
                    end
           end
  end.

(** The text is cut where only white space follows. *)
Fixpoint trimEnd (s : string) : string :=
  match s with
  | EmptyString => EmptyString
  | String c s' =>
      if String.eqb (trimStart s) EmptyString
      then EmptyString
      else String c (trimEnd s')
  end.

Definition trim (s : string) : string := trimEnd (trimStart s).

(** The white space characters of ECMAScript, each as a text. *)
Definition white_space : list string :=
  [ String "009" EmptyString; String "010" EmptyString;
    String "011" EmptyString; String "012" EmptyString;
    String "013" EmptyString; String "032" EmptyString;
    String "194" (String "160" EmptyString);
    String "225" (String "154" (String "128" EmptyString));
    String "226" (String "128" (String "128" EmptyString));
    String "226" (String "128" (String "129" EmptyString));
    String "226" (String "128" (String "130" EmptyString));
    String "226" (String "128" (String "131" EmptyString));
    String "226" (String "128" (String "132" EmptyString));
    String "226" (String "128" (String "133" EmptyString));
    String "226" (String "128" (String "134" EmptyString));
    String "226" (String "128" (String "135" EmptyString));
    String "226" (String "128" (String "136" EmptyString));
    String "226" (String "128" (String "137" EmptyString));
    String "226" (String "128" (String "138" EmptyString));
    String "226" (String "128" (String "168" EmptyString));
    String "226" (String "128" (String "169" EmptyString));
    String "226" (String "128" (String "175" EmptyString));
    String "226" (String "129" (String "159" EmptyString));
    String "227" (String "128" (String "128" EmptyString));
    String "239" (String "187" (String "191" EmptyString)) ]%char.

(** The texts one after the other. *)
Definition join (ws : list string) : string := fold_right append EmptyString ws.

(** A text made of white space characters only. *)
Definition blank (s : string) : Prop :=
  exists ws, Forall (fun w => In w white_space) ws /\ s = join ws.

(** Truthiness of a string: the empty string is falsy. *)
Definition truthy (s : string) : bool := negb (String.eqb s EmptyString).

(** [x || d] on an optional string ([undefined] and [""] are falsy). *)
Definition or_else_string (x : option string) (d : string) : string :=
  match x with
  | Some s => if truthy s then s else d
  | None => d
  end.

(** [x || d] on an optional array (an array, even empty, is truthy). *)
Definition or_else_array {A : Type} (x : option (list A)) (d : list A) : list A :=
  match x with
  | Some l => l
  | None => d
  end.

(** Decimal digits of a natural number, as [Number::toString] prints an
    integer. *)
Definition digits (n : N) : string := NilZero.string_of_uint (N.to_uint n).

(** Template interpolation of an integer. *)
Definition string_of_integer (z : Z) : string :=
  if z <? 0 then String "-" (digits (Z.to_N (- z))) else digits (Z.to_N z).

(** [Number.prototype.toFixed(1)] on a non-negative number: the integer
    [n] for which [n / 10 - x] is as close to zero as possible, the larger
    one when there are two. *)
Definition toFixed1_n (x : Q) : Z := Qfloor (x * 10 + (1 # 2))%Q.

(** The digits of [n] with one digit after the point. *)
Definition fixed1_string (n : Z) : string :=
  (digits (Z.to_N (n / 10)) ++ "." ++ digits (Z.to_N (n mod 10)))%string.

(** [x.toFixed(1)], for [|x| < 10^21] (above, JavaScript switches to the
    exponent form, which no percentage reaches). *)
Definition toFixed1 (x : Q) : string :=
  if Qltb x 0
  then String "-" (fixed1_string (toFixed1_n (- x)%Q))
  else fixed1_string (toFixed1_n x).

(** [Number(s)] on the output format of [toFixed]: the text is cut at its
    first point, the integer part and the fraction are read as decimal
    digits. *)
Fixpoint split_point (s : string) : option (string * string) :=
  match s with
  | EmptyString => None
  | String c s' =>
      if Ascii.eqb c "." then Some (EmptyString, s')
      else match split_point s' with
           | Some (a, b) => Some (String c a, b)
           | None => None
           end
  end.

Definition number_of_unsigned (s : string) : option Q :=
  match split_point s with
  | Some (a, b) =>
      match NilZero.uint_of_string a, NilEmpty.uint_of_string b with
      | Some ua, Some ub =>
          Some (inject_Z (Z.of_N (N.of_uint ua))
                + inject_Z (Z.of_N (N.of_uint ub))
                  / inject_Z (10 ^ Z.of_nat (String.length b)))%Q
      | _, _ => None
      end
  | None => None
  end.

Definition number_of_string (s : string) : option Q :=
  match s with
  | String "-" s' => option_map Qopp (number_of_unsigned s')
  | _ => number_of_unsigned s
  end.

(** The number a value denotes ([Number(v)]). *)
Definition toNumber (v : value) : option Q :=
  match v with
  | VNum q => Some q
  | VStr s => number_of_string s
  end.

Definition nl : string := String "010" EmptyString.

End JS.

(** ** HTTP outcomes as the components observe them *)

Module Http.

(** The body of a response, as [response.json()] and the property reads
    that follow see it. *)
Inductive body (A : Type) : Type :=
| BodyInvalid                (* not JSON: [response.json()] rejects *)
| BodyNull                   (* JSON [null]: reading a property throws *)
| BodyObject (d : A).

Arguments BodyInvalid {A}.
Arguments BodyNull {A}.
Arguments BodyObject {A} d.

(** What [await fetch(...)] gives: a rejection (no response: transport
    failure), or a response of any status; [fetch] resolves on 4xx and 5xx
    too. *)
Inductive outcome (A : Type) : Type :=
| Rejected
| Responded (status : Z) (b : body A).

Arguments Rejected {A}.
Arguments Responded {A} status b.

(** axios settles on the status: it resolves on 2xx only (the default
    [validateStatus]) and rejects on every other status and on a transport
    failure. *)
Definition axios_resolves {A : Type} (o : outcome A) : option (body A) :=
  match o with
  | Rejected => None
  | Responded status b =>
      if (200 <=? status) && (status <? 300) then Some b else None
  end.

(** A failed request in the words of the specification: no response
    (network error) or a response outside 2xx (API error). *)
Definition is_failure {A : Type} (o : outcome A) : bool :=
  match o with
  | Rejected => true
  | Responded status _ => negb ((200 <=? status) && (status <? 300))
  end.

(** The outcomes on which the [try] block of [sendMessage] throws:
    [fetch] rejects or [response.json()] rejects.  The block reads no
    property of the body. *)
Definition throws {A : Type} (o : outcome A) : bool :=
  match o with
  | Rejected | Responded _ BodyInvalid => true
  | Responded _ BodyNull | Responded _ (BodyObject _) => false
  end.

(** A response whose body is JSON [null]. *)
Definition null_body {A : Type} (o : outcome A) : bool :=
  match o with
  | Responded _ BodyNull => true
  | Rejected | Responded _ BodyInvalid | Responded _ (BodyObject _) => false
  end.

End Http.

(** ** Attendance records and the aggregate of the chat component *)

Module Attendance.

Import JS.
Local Open Scope string_scope.

Record AttendanceRecord : Type := {
  course_id : string;
  course_name : string;
  attended : Z;
  total_classes : Z;
  percentage : Q
}.

(** The decoded body of [GET /student/attendance]; the [attendance] field
    may be missing (an error body carries [detail] instead). *)
Record AttendanceData : Type := {
  attendance : option (list AttendanceRecord)
}.

(** [data.attendance.reduce((sum, r) => sum + r.total_classes, 0)], as
    the whole number the counts add up to. *)
Definition totalClasses (l : list AttendanceRecord) : Z :=
  fold_left (fun sum r => sum + total_classes r) l 0.

(** [data.attendance.reduce((sum, r) => sum + r.attended, 0)] *)
Definition totalAttended (l : list AttendanceRecord) : Z :=
  fold_left (fun sum r => sum + attended r) l 0.

(** The same reduce as the engine runs it, every addition rounded to
    binary64.  On counts that are not negative it gives the whole-number
    sum as long as that does not exceed [2^53]
    ([AttendanceProps.reduce64_exact]); the whole-number totals stand for
    it in what follows. *)
Definition reduce64 (f : AttendanceRecord -> Z) (l : list AttendanceRecord) : Q :=
  fold_left (fun sum r => add64 sum (inject_Z (f r))) l 0%Q.

(** [(totalAttended / totalClasses) * 100] *)
Definition ratio (totalAttended totalClasses : Z) : Q :=
  mul64 (div64 (inject_Z totalAttended) (inject_Z totalClasses)) 100.

(** [totalClasses > 0 ? ((totalAttended / totalClasses) * 100).toFixed(1) : 0] *)
Definition overallPercentage (l : list AttendanceRecord) : value :=
  if gt0 (totalClasses l)
  then VStr (toFixed1 (ratio (totalAttended l) (totalClasses l)))
  else VNum 0.

(** [record.percentage >= 75] *)
Definition at_least_75 (r : AttendanceRecord) : bool :=
  Qle_bool 75 (percentage r).

(** [record.percentage < 75] *)
Definition below_75 (r : AttendanceRecord) : bool :=
  Qltb (percentage r) 75.

(** [data.attendance.filter((r) => r.percentage < 75)] *)
Definition lowAttendance (l : list AttendanceRecord) : list AttendanceRecord :=
  filter below_75 l.

(** The mark in front of a course in the report. *)
Definition status (r : AttendanceRecord) : string :=
  if at_least_75 r then "✅" else "⚠️".

(** Interpolation of [overallPercentage]: the text of [toFixed], or [0]. *)
Definition show_overall (l : list AttendanceRecord) : string :=
  match overallPercentage l with
  | VStr s => s
  | VNum _ => "0"
  end.

(** The lines one record adds in the [forEach]; [idx] is its index. *)
Definition record_lines (idx : nat) (r : AttendanceRecord) : string :=
  string_of_integer (Z.of_nat idx + 1) ++ ". **" ++ course_name r ++ "** ("
    ++ course_id r ++ ")" ++ nl
  ++ "   " ++ status r ++ " " ++ toFixed1 (percentage r) ++ "% | "
    ++ string_of_integer (attended r) ++ "/"
    ++ string_of_integer (total_classes r) ++ " classes" ++ nl
  ++ (if below_75 r then "   ⚠️ Below 75% - Needs improvement!" ++ nl else "")
  ++ nl.

Fixpoint breakdown (idx : nat) (l : list AttendanceRecord) : string :=
  match l with
  | [] => ""
  | r :: l' => record_lines idx r ++ breakdown (S idx) l'
  end.

Definition rule : string := "━━━━━━━━━━━━━━━━━━━━━━━━━━━━━━".

(** The closing line of the report. *)
Definition summary (l : list AttendanceRecord) : string :=
  let low := lowAttendance l in
  if gt0 (Z.of_nat (List.length low))
  then nl ++ "⚠️ **Alert:** " ++ string_of_integer (Z.of_nat (List.length low))
       ++ " subject(s) below 75% attendance threshold."
  else nl ++ "✅ **Great job!** All subjects have attendance above 75%.".

(** [formattedContent] of [fetchAttendance]. *)
Definition formattedContent (l : list AttendanceRecord) : string :=
  "📊 **Your Attendance Report**" ++ nl ++ nl
  ++ rule ++ nl
  ++ "📈 **Overall Attendance: " ++ show_overall l ++ "%**" ++ nl
  ++ "   Total Classes: " ++ string_of_integer (totalClasses l)
    ++ " | Attended: " ++ string_of_integer (totalAttended l) ++ nl
  ++ rule ++ nl ++ nl
  ++ "📚 **Subject-wise Breakdown:**" ++ nl ++ nl
  ++ breakdown 0 l
  ++ summary l.

(** The status cell of the attendance page and of the profile page:
    [record.percentage >= 75 ? Good : Low]. *)
Inductive Standing : Type := Good | Low.

Definition page_status (r : AttendanceRecord) : Standing :=
  if at_least_75 r then Good else Low.


(** Counts that are not negative. *)
Definition counts_ok (r : AttendanceRecord) : Prop :=
  0 <= attended r /\ 0 <= total_classes r.

(** The records the report is modelled for: counts that are not
    negative, with totals of at most [2^53] (the additions of the two
    reduces are then exact), and percentages below [10^21] in magnitude
    ([toFixed] prints those in positional notation). *)
Definition in_range (l : list AttendanceRecord) : Prop :=
  Forall counts_ok l
  /\ totalAttended l <= 2 ^ 53 /\ totalClasses l <= 2 ^ 53
  /\ Forall (fun r => (- inject_Z (10 ^ 21) < percentage r)%Q
                      /\ (percentage r < inject_Z (10 ^ 21))%Q) l.

(** The scenario of the specification. *)
Definition scenario_C1 : AttendanceRecord :=
  {| course_id := "C1"; course_name := "C1"; attended := 30;
     total_classes := 40; percentage := 75 |}.

Definition scenario_C2 : AttendanceRecord :=
  {| course_id := "C2"; course_name := "C2"; attended := 10;
     total_classes := 20; percentage := 50 |}.

Definition scenario : list AttendanceRecord := [scenario_C1; scenario_C2].

(** A course with no class held yet. *)
Definition not_started : AttendanceRecord :=
  {| course_id := "C3"; course_name := "C3"; attended := 0;
     total_classes := 0; percentage := 0 |}.

(** Counts on which the rounding of the quotient shows in the first
    decimal place. *)
Definition tight : AttendanceRecord :=
  {| course_id := "C7"; course_name := "C7"; attended := 11269107890290;
     total_classes := 15749976087058; percentage := fl (7155 # 100) |}.

(** Two courses of 40 classes. *)
Definition halves : list AttendanceRecord :=
  [ {| course_id := "C8"; course_name := "C8"; attended := 21;
       total_classes := 40; percentage := fl (525 # 10) |};
    {| course_id := "C9"; course_name := "C9"; attended := 20;
       total_classes := 40; percentage := 50 |} ].

(** The low courses in the words of the specification: the records, in
    order, whose percentage is strictly less than 75. *)
Definition strictly_below_75 (l : list AttendanceRecord)
  : list AttendanceRecord :=
  filter (fun r => if Qlt_le_dec (percentage r) 75 then true else false) l.

(** The sum of a sequence of integers. *)
Definition Zsum (l : list Z) : Z := fold_right Z.add 0 l.

End Attendance.

(** ** The chat component ([ChatInterface.jsx]) *)

Module Chat.

Import JS Http.
Local Open Scope string_scope.

Inductive Role : Type := user | assistant.

(** A message of the transcript; a field the object literal does not set
    is [None]. *)
Record Message : Type := {
  role : Role;
  content : string;
  sources : option (list string);
  actions : option (list string);
  attendanceData : option (list Attendance.AttendanceRecord)
}.

(** [{ role, content }] *)
Definition plain (r : Role) (c : string) : Message :=
  {| role := r; content := c; sources := None; actions := None;
     attendanceData := None |}.

(** The decoded body of [POST /chat]; each field may be missing. *)
Record ChatData : Type := {
  reply : option string;
  data_sources : option (list string);
  data_actions : option (list string)
}.

(** The [useState] cells of the component. *)
Record State : Type := {
  messages : list Message;
  input : string;
  loading : bool
}.

Definition init : State :=
  {| messages := []; input := ""; loading := false |}.

Definition setMessages (f : list Message -> list Message) (st : State) : State :=
  {| messages := f (messages st); input := input st; loading := loading st |}.

Definition setInput (s : string) (st : State) : State :=
  {| messages := messages st; input := s; loading := loading st |}.

Definition setLoading (b : bool) (st : State) : State :=
  {| messages := messages st; input := input st; loading := b |}.

(** [(prev) => [...prev, m]] *)
Definition push (m : Message) (st : State) : State :=
  setMessages (fun prev => (prev ++ [m])%list) st.

Record Prompt : Type := {
  icon : string;
  text : string;
  color : string;
  action : string
}.

Definition suggestedPrompts : list Prompt :=
  [ {| icon := "📊"; text := "Show my attendance";
       color := "from-indigo-500 to-violet-600"; action := "attendance" |};
    {| icon := "📅"; text := "Today's schedule";
       color := "from-teal-500 to-emerald-600"; action := "chat" |};
    {| icon := "📝"; text := "Upcoming exams";
       color := "from-orange-500 to-amber-600"; action := "chat" |};
    {| icon := "🤝"; text := "Book faculty meeting";
       color := "from-fuchsia-500 to-purple-600"; action := "chat" |};
    {| icon := "💳"; text := "Check fee status";
       color := "from-rose-500 to-pink-600"; action := "chat" |};
    {| icon := "👨‍🏫"; text := "Faculty contacts";
       color := "from-sky-500 to-blue-600"; action := "chat" |} ].

(** A request handed to [fetch], with its bearer token. *)
Inductive Request : Type :=
| GetAttendance (bearer : string)
| PostChat (bearer : string) (body : list Message).

Definition placeholder : string := "Sorry, I could not process your request.".
Definition chat_error : string := "Error: Could not connect to the server.".
Definition attendance_error : string := "Error: Could not fetch attendance data.".
Definition no_records : string := "No attendance records found for your courses.".

Section Component.

(** The [token] property of the component. *)
Variable token : string.

(** [fetchAttendance], up to its [await fetch]. *)
Definition fetchAttendance_start (st : State) : State * Request :=
  let userMessage := plain user "Show my attendance" in
  (setLoading true (push userMessage st), GetAttendance token).

(** [fetchAttendance], from the outcome of the request on: the [try]
    body after the [await], the [catch] and the [finally]. *)
Definition fetchAttendance_settle
    (o : outcome Attendance.AttendanceData) (st : State) : State :=
  let st' :=
    match o with
    | Responded _ (BodyObject data) =>
        match Attendance.attendance data with
        | Some l =>
            if gt0 (Z.of_nat (List.length l))
            then push {| role := assistant;
                         content := Attendance.formattedContent l;
                         sources := None; actions := None;
                         attendanceData := Some l |} st
            else push (plain assistant no_records) st
        | None => push (plain assistant no_records) st
        end
    | Responded _ BodyNull | Responded _ BodyInvalid | Rejected =>
        push (plain assistant attendance_error) st
    end in
  setLoading false st'.

(** [sendMessage], up to its [await fetch]; [None] when it returns
    without a request. *)
Definition sendMessage_start (txt : string) (st : State)
  : State * option Request :=
  if negb (truthy (trim txt)) then (st, None)
  else
    let userMessage := plain user txt in
    (setLoading true (setInput "" (push userMessage st)),
     Some (PostChat token (messages st ++ [userMessage])%list)).

(** [sendMessage], from the outcome of the request on.  The message of
    a response is built inside the updater handed to [setMessages], which
    React runs when it renders: the properties of [data] are read there,
    outside the [try].  On a [null] body that read throws during the
    render, nothing catches it and React unmounts the component: there is
    no state of the component afterwards ([None]). *)
Definition sendMessage_settle (o : outcome ChatData) (st : State)
  : option State :=
  match o with
  | Responded _ (BodyObject data) =>
      Some (setLoading false
              (push {| role := assistant;
                       content := or_else_string (reply data) placeholder;
                       sources := Some (or_else_array (data_sources data) []);
                       actions := Some (or_else_array (data_actions data) []);
                       attendanceData := None |} st))
  | Responded _ BodyNull => None
  | Responded _ BodyInvalid | Rejected =>
      Some (setLoading false (push (plain assistant chat_error) st))
  end.

Definition handlePromptClick (p : Prompt) (st : State)
  : State * option Request :=
  if String.eqb (action p) "attendance"
  then let (st', r) := fetchAttendance_start st in (st', Some r)
  else sendMessage_start (text p) st.

Definition handleSubmit (st : State) : State * option Request :=
  sendMessage_start (input st) st.

(** *** The controls the component renders *)

(** [disabled={loading || !input.trim()}] on the Send button. *)
Definition submit_disabled (st : State) : bool :=
  loading st || negb (truthy (trim (input st))).

(** [disabled={loading}] on the text field. *)
Definition input_disabled (st : State) : bool := loading st.

(** The prompt buttons are rendered in the [messages.length === 0]
    branch only. *)
Definition prompts_rendered (st : State) : bool :=
  Nat.eqb (List.length (messages st)) 0.

(** What the user can do with the rendered controls. *)
Inductive Event : Type :=
| Submit                      (* the form is submitted *)
| ClickPrompt (idx : nat)     (* the prompt button of index [idx] *)
| Change (s : string).        (* the text field changes to [s] *)

(** A control that is disabled or not rendered delivers no event: the
    form is not submitted while its submit button is disabled. *)
Definition dispatch (e : Event) (st : State) : State * option Request :=
  match e with
  | Submit => if submit_disabled st then (st, None) else handleSubmit st
  | ClickPrompt idx =>
      if prompts_rendered st
      then match nth_error suggestedPrompts idx with
           | Some p => handlePromptClick p st
           | None => (st, None)
           end
      else (st, None)
  | Change s => if input_disabled st then (st, None) else (setInput s st, None)
  end.

(** A submission: a message or a suggested prompt. *)
Definition is_submission (e : Event) : bool :=
  match e with
  | Submit | ClickPrompt _ => true
  | Change _ => false
  end.

(** *** The conversation with its requests in flight *)

Record Config : Type := {
  ui : State;
  inflight : list Request
}.

Definition start : Config := {| ui := init; inflight := [] |}.

Definition issued (r : option Request) : list Request :=
  match r with
  | Some q => [q]
  | None => []
  end.

(** A step of the mounted component: an event of its controls, or the
    completion of a request in flight.  A chat request that completes with
    a [null] body ends the conversation (the component is unmounted) and
    has no successor. *)
Inductive step : Config -> Config -> Prop :=
| step_event (c : Config) (e : Event) :
    step c {| ui := fst (dispatch e (ui c));
              inflight := (inflight c ++ issued (snd (dispatch e (ui c))))%list |}
| step_chat (c : Config) (before after : list Request)
    (bearer : string) (body : list Message) (o : outcome ChatData)
    (st' : State) :
    inflight c = (before ++ PostChat bearer body :: after)%list ->
    sendMessage_settle o (ui c) = Some st' ->
    step c {| ui := st'; inflight := (before ++ after)%list |}
| step_attendance (c : Config) (before after : list Request)
    (bearer : string) (o : outcome Attendance.AttendanceData) :
    inflight c = (before ++ GetAttendance bearer :: after)%list ->
    step c {| ui := fetchAttendance_settle o (ui c);
              inflight := (before ++ after)%list |}.

Inductive reachable : Config -> Prop :=
| reach_start : reachable start
| reach_step (c c' : Config) : reachable c -> step c c' -> reachable c'.

(** Sending: a request is in flight. *)
Definition sending (c : Config) : Prop := inflight c <> [].

End Component.

(** What holds between the busy flag and the requests in flight. *)
Definition consistent (c : Config) : Prop :=
  (loading (ui c) = true /\ List.length (inflight c) = 1%nat
   /\ messages (ui c) <> [])
  \/ (loading (ui c) = false /\ inflight c = []).

(** The conversation after a click on the first prompt. *)
Definition after_prompt (token : string) : Config :=
  {| ui := fst (dispatch token (ClickPrompt 0) (ui start));
     inflight := (inflight start
                  ++ issued (snd (dispatch token (ClickPrompt 0) (ui start))))%list |}.



Definition error_body : ChatData :=
  {| reply := None; data_sources := None; data_actions := None |}.

Definition error_with_reply : ChatData :=
  {| reply := Some "Internal Server Error"; data_sources := None;
     data_actions := None |}.

(** Two no-break spaces (U+00A0). *)
Definition no_break_spaces : string :=
  String "194" (String "160" (String "194" (String "160" ""))).

(** An ideographic space (U+3000), a byte order mark (U+FEFF) and a
    TAB. *)
Definition wide_blank : string :=
  String "227" (String "128" (String "128"
    (String "239" (String "187" (String "191" (String "009" "")))))).

End Chat.

(** ** Session: the token of [App], the interceptor and the logout *)

Module Session.

Import JS Http.
Local Open Scope string_scope.

(** The token cell of [App] ([null] is [None]), the ["token"] entry of
    [localStorage] and the current route. *)
Record App : Type := {
  token : option string;
  stored : option string;
  route : string
}.

Definition truthy_token (t : option string) : bool :=
  match t with
  | Some s => truthy s
  | None => false
  end.

(** The effect of [App] on [token]: store a truthy token, remove the
    entry otherwise. *)
Definition sync (a : App) : App :=
  {| token := token a;
     stored := if truthy_token (token a) then token a else None;
     route := route a |}.

(** [handleLogout] of the layout. *)
Definition handleLogout (a : App) : App :=
  {| token := None; stored := None; route := "/login" |}.

(** The request interceptor of [services/api.js]: the [Authorization]
    header it sets, from the stored token. *)
Definition interceptor (stored_token : option string) : option string :=
  match stored_token with
  | Some t => if truthy t then Some ("Bearer " ++ t) else None
  | None => None
  end.




(** The [useState] cells of the attendance page. *)
Record AttendancePage : Type := {
  page_session : App;
  page_attendance : option Attendance.AttendanceData;
  page_loading : bool
}.

(** [fetchData] of the attendance page from the outcome of
    [apiService.getAttendance()] on: a resolved call stores the body, a
    rejected one is logged; [finally] clears [loading].  A body that is
    not JSON is stored as text, which has no [attendance] property. *)
Definition fetchData_settle
    (o : outcome Attendance.AttendanceData) (p : AttendancePage)
  : AttendancePage :=
  {| page_session := page_session p;
     page_attendance :=
       match axios_resolves o with
       | Some (BodyObject d) => Some d
       | Some BodyNull => None
       | Some BodyInvalid => Some {| Attendance.attendance := None |}
       | None => page_attendance p
       end;
     page_loading := false |}.

Definition logged_in : App :=
  {| token := Some "abc"; stored := Some "abc"; route := "/chat" |}.



End Session.

(** ** Dashboard, profile and fee pages *)

Module Pages.

Import JS.
Local Open Scope string_scope.

(** [attendance.attendance.reduce((sum, r) => sum + r.percentage, 0)] *)
Definition sum_percentage (l : list Attendance.AttendanceRecord) : Q :=
  fold_left (fun sum r => add64 sum (Attendance.percentage r)) l 0%Q.

(** [attendance?.attendance?.length > 0], with the list it holds for. *)
Definition records_of (a : option Attendance.AttendanceData)
  : option (list Attendance.AttendanceRecord) :=
  match a with
  | Some d =>
      match Attendance.attendance d with
      | Some l => if gt0 (Z.of_nat (List.length l)) then Some l else None
      | None => None
      end
  | None => None
  end.

Record FeeStatus : Type := {
  total : Q;
  paid : Q;
  due : Q;
  status : string
}.

(** [fees?.due === 0] *)
Definition due_is_zero (fees : option FeeStatus) : bool :=
  match fees with
  | Some f => Qeq_bool (due f) 0
  | None => false
  end.

(** [fees?.due || 0] *)
Definition due_or_zero (fees : option FeeStatus) : Q :=
  match fees with
  | Some f => if Qeq_bool (due f) 0 then 0%Q else due f
  | None => 0%Q
  end.

(** The two banners of the fee section. *)
Inductive Banner : Type :=
| PaidInFull
| Outstanding (balance : Q).

Module DashboardPage.

Definition avgAttendance (a : option Attendance.AttendanceData) : Q :=
  match records_of a with
  | Some l => div64 (sum_percentage l) (inject_Z (Z.of_nat (List.length l)))
  | None => 0%Q
  end.

(** The value of the "Average Attendance" card. *)
Definition average_card (a : option Attendance.AttendanceData) : string :=
  toFixed1 (avgAttendance a) ++ "%".

(** The subtitle of the fee card: [fees?.due ? `Due: $${fees.due}` :
    "Paid in Full"]. *)
Definition fee_card (fees : option FeeStatus) : Banner :=
  match fees with
  | Some f => if Qeq_bool (due f) 0 then PaidInFull else Outstanding (due f)
  | None => PaidInFull
  end.

End DashboardPage.

Module ProfilePage.

Definition avgAttendance (a : option Attendance.AttendanceData) : Q :=
  match records_of a with
  | Some l => div64 (sum_percentage l) (inject_Z (Z.of_nat (List.length l)))
  | None => 0%Q
  end.

Definition average_shown (a : option Attendance.AttendanceData) : string :=
  toFixed1 (avgAttendance a) ++ "%".

(** [fees?.due === 0 ? paid in full : Outstanding balance: fees?.due || 0] *)
Definition fee_banner (fees : option FeeStatus) : Banner :=
  if due_is_zero fees then PaidInFull else Outstanding (due_or_zero fees).

End ProfilePage.

Module FeesPage.

(** [fees?.due === 0 || fees?.status === "Paid"] *)
Definition isPaid (fees : option FeeStatus) : bool :=
  due_is_zero fees
  || match fees with
     | Some f => String.eqb (status f) "Paid"
     | None => false
     end.

Definition fee_banner (fees : option FeeStatus) : Banner :=
  if isPaid fees then PaidInFull else Outstanding (due_or_zero fees).

End FeesPage.

(** The two fee scenarios of the specification, under any status label. *)
Definition fees_settled (label : string) : FeeStatus :=
  {| total := 1000; paid := 1000; due := 0; status := label |}.

Definition fees_owing (label : string) : FeeStatus :=
  {| total := 1000; paid := 600; due := 400; status := label |}.

(** The sum of a sequence of numbers. *)
Definition Qsum (l : list Q) : Q := fold_right Qplus 0%Q l.

(** Three courses at 60.3 percent. *)
Definition sixty : list Attendance.AttendanceRecord :=
  [ {| Attendance.course_id := "M1"; Attendance.course_name := "M1";
       Attendance.attended := 603; Attendance.total_classes := 1000;
       Attendance.percentage := fl (603 # 10) |};
    {| Attendance.course_id := "M2"; Attendance.course_name := "M2";
       Attendance.attended := 603; Attendance.total_classes := 1000;
       Attendance.percentage := fl (603 # 10) |};
    {| Attendance.course_id := "M3"; Attendance.course_name := "M3";
       Attendance.attended := 603; Attendance.total_classes := 1000;
       Attendance.percentage := fl (603 # 10) |} ].

(** A percentage that is zero or of ordinary magnitude: the sum of fewer
    than [2^32] such numbers (the bound on the length of an array) and
    its quotient by their count are zero or normal binary64 numbers. *)
Definition ordinary (p : Q) : Prop :=
  (p == 0 \/ (pow2 (-990) <= p /\ p <= pow2 990))%Q.

End Pages.

(** ** The overall percentage on [SpecFloat]

    [SpecFloat] is the Standard Library's definition of IEEE-754
    arithmetic.  The overall percentage of a pair of totals is computed
    here on its binary64 floats and printed by [toFixed] from the exact
    value of the float, to compare with the rounding of [JS.fl]. *)

Module Binary64.

Definition prec : Z := 53.
Definition emax : Z := 1024.

Definition of_Z (z : Z) : spec_float := binary_normalize prec emax z 0 false.

(** The exact value of a finite float. *)
Definition to_Q (f : spec_float) : option Q :=
  match f with
  | S754_zero _ => Some 0%Q
  | S754_finite s m e =>
      let v := if 0 <=? e then inject_Z (Z.pos m * 2 ^ e)
               else (Z.pos m # Z.to_pos (2 ^ (- e)))%Q in
      Some (if s then Qopp v else v)
  | S754_infinity _ | S754_nan => None
  end.

(** [(totalAttended / totalClasses) * 100] *)
Definition percent (totalAttended totalClasses : Z) : spec_float :=
  SFmul prec emax
    (SFdiv prec emax (of_Z totalAttended) (of_Z totalClasses)) (of_Z 100).

(** [((totalAttended / totalClasses) * 100).toFixed(1)] *)
Definition overall_text (totalAttended totalClasses : Z) : option string :=
  option_map JS.toFixed1 (to_Q (percent totalAttended totalClasses)).

(** The float of the decimal [n / 10]. *)
Definition tenths (n : Z) : spec_float := SFdiv prec emax (of_Z n) (of_Z 10).

(** [l.reduce((sum, x) => sum + x, 0) / l.length] *)
Definition average (l : list spec_float) : spec_float :=
  SFdiv prec emax (fold_left (SFadd prec emax) l (of_Z 0))
    (of_Z (Z.of_nat (List.length l))).

End Binary64.

(** ** Message formatting of the chat component ([formatMessage]) *)

Module Markup.

Import JS.
Local Open Scope string_scope.

(** [content.split("\n")] *)
Fixpoint split_lines (s : string) : list string :=
  match s with
  | EmptyString => [EmptyString]
  | String c s' =>
      if Ascii.eqb c "010" then EmptyString :: split_lines s'
      else match split_lines s' with
           | l :: ls => String c l :: ls
           | [] => [String c EmptyString]
           end
  end.

(** Whether a line terminator starts the text: LF, CR, or the UTF-8 bytes
    of U+2028 or U+2029.  The [.] of a regular expression matches any
    character but these. *)
Definition at_line_terminator (s : string) : bool :=
  match s with
  | String c rest =>
      Ascii.eqb c "010" || Ascii.eqb c "013"
      || (Ascii.eqb c "226"
          && match rest with
             | String c1 (String c2 _) =>
                 Ascii.eqb c1 "128"
                 && (Ascii.eqb c2 "168" || Ascii.eqb c2 "169")
             | _ => false
             end)
  | EmptyString => false
  end.

Definition is_star (c : ascii) : bool := Ascii.eqb c "*".

(** The text after a leading [**], if the text starts with one. *)
Definition after_stars (s : string) : option string :=
  match s with
  | String c1 (String c2 rest) =>
      if is_star c1 && is_star c2 then Some rest else None
  | _ => None
  end.

(** After an opening [**]: the shortest [(.*?)] that is followed by
    [**], with the text after that closing [**]; [None] when a line
    terminator or the end of the text comes first. *)
Fixpoint find_close (s : string) : option (string * string) :=
  match s with
  | EmptyString => None
  | String c s' =>
      match after_stars s with
      | Some rest => Some (EmptyString, rest)
      | None =>
          if at_line_terminator s then None
          else match find_close s' with
               | Some (g, r) => Some (String c g, r)
               | None => None
               end
      end
  end.

Definition quote : string := String "034" EmptyString.

(** The replacement text around [$1]. *)
Definition strong_open : string :=
  "<strong class=" ++ quote ++ "font-semibold" ++ quote ++ ">".

Definition strong_close : string := "</strong>".

(** [line.replace(/\*\*(.*?)\*\*/g, ...)]: the matches from left to
    right; where no match starts the character is kept and the scan moves
    on by one.  Every step consumes a character, so a [fuel] of the
    length of the text is never used up. *)
Fixpoint replace_bold_aux (fuel : nat) (s : string) : string :=
  match fuel with
  | O => s
  | S fuel' =>
      match s with
      | EmptyString => EmptyString
      | String c s' =>
          match after_stars s with
          | Some rest =>
              match find_close rest with
              | Some (g, r) =>
                  strong_open ++ g ++ strong_close ++ replace_bold_aux fuel' r
              | None => String c (replace_bold_aux fuel' s')
              end
          | None => String c (replace_bold_aux fuel' s')
          end
      end
  end.

Definition replace_bold (s : string) : string :=
  replace_bold_aux (String.length s) s.

(** [formatMessage]: the markup of the spans, one per line; nothing for
    an empty content. *)
Definition formatMessage (content : string) : list string :=
  if negb (truthy content) then []
  else map replace_bold (split_lines content).

(** The text has no asterisk. *)
Fixpoint star_free (s : string) : bool :=
  match s with
  | EmptyString => true
  | String c s' => negb (is_star c) && star_free s'
  end.

(** No line terminator starts anywhere in the text. *)
Fixpoint one_line (s : string) : bool :=
  match s with
  | EmptyString => true
  | String _ s' => negb (at_line_terminator s) && one_line s'
  end.

(** The number of line feeds of a text. *)
Fixpoint line_feeds (s : string) : nat :=
  match s with
  | EmptyString => O
  | String c s' => (if Ascii.eqb c "010" then 1 else 0) + line_feeds s'
  end.

End Markup.

(** ** Shape of the transcript *)

Module Transcript.

Import Chat.

Definition role_eqb (a b : Role) : bool :=
  match a, b with
  | user, user | assistant, assistant => true
  | _, _ => false
  end.

Definition other (r : Role) : Role :=
  match r with
  | user => assistant
  | assistant => user
  end.

(** The roles alternate, starting with [first]. *)
Fixpoint alternates (first : Role) (l : list Message) : bool :=
  match l with
  | [] => true
  | m :: l' => role_eqb (role m) first && alternates (other first) l'
  end.

(** What a message of the transcript carries, by role: a user message
    has the text only; an assistant message with attendance records has
    a non-empty list of them, no sources or actions, and as its content
    the report of that list (for the records the report is modelled
    for). *)
Definition shaped (m : Message) : Prop :=
  match role m with
  | user => sources m = None /\ actions m = None /\ attendanceData m = None
  | assistant =>
      match attendanceData m with
      | Some l =>
          l <> []
          /\ (Attendance.in_range l -> content m = Attendance.formattedContent l)
          /\ sources m = None /\ actions m = None
      | None => True
      end
  end.

(** The request in flight is the one the component issued: it carries
    the token, and a chat request carries the transcript. *)
Definition carries (token : string) (st : State) (r : Request) : Prop :=
  r = GetAttendance token \/ r = PostChat token (messages st).

(** Any number of steps. *)
Inductive steps (token : string) : Config -> Config -> Prop :=
| steps_refl (c : Config) : steps token c c
| steps_step (c c' c'' : Config) :
    steps token c c' -> step token c' c'' -> steps token c c''.

(** What the reachable conversations keep. *)
Definition well_formed (token : string) (c : Config) : Prop :=
  alternates user (messages (ui c)) = true
  /\ Nat.even (List.length (messages (ui c))) = negb (loading (ui c))
  /\ Forall shaped (messages (ui c))
  /\ Forall (carries token (ui c)) (inflight c).

(** The conversation after one event of the controls. *)
Definition after_event (token : string) (e : Event) (c : Config) : Config :=
  {| ui := fst (dispatch token e (ui c));
     inflight := (inflight c ++ issued (snd (dispatch token e (ui c))))%list |}.

(** The conversation after ["hi"] was typed and sent. *)
Definition after_hi (token : string) : Config :=
  after_event token Submit (after_event token (Change "hi") start).

(** The report the component appends for the records [l]. *)
Definition report (l : list Attendance.AttendanceRecord) : Message :=
  {| role := assistant; content := Attendance.formattedContent l;
     sources := None; actions := None; attendanceData := Some l |}.

(** The conversation after the attendance prompt was clicked and its
    request answered with the records [l]. *)
Definition after_report (token : string)
    (l : list Attendance.AttendanceRecord) : Config :=
  {| ui := fetchAttendance_settle
             (Http.Responded 200
                (Http.BodyObject {| Attendance.attendance := Some l |}))
             (ui (after_prompt token));
     inflight := [] |}.

End Transcript.

(** ** The routes of [App] *)

Module Router.

Import Session.
Local Open Scope string_scope.

(** The route a location matches; [Unmatched] is the [*] route. *)
Inductive Location : Type :=
| Root | Login | Dashboard | Profile | AttendanceRoute | Schedule | Fees
| Appointment | ChatRoute | Unmatched.

Inductive View : Type :=
| PortfolioView | LoginView | DashboardView | ProfileView | AttendanceView
| ScheduleView | FeesView | AppointmentView | ChatView.

Inductive Element : Type :=
| Render (v : View)
| Navigate (to : Location).

(** [token ? children : <Navigate to="/login" />] *)
Definition ProtectedRoute (token : option string) (children : View) : Element :=
  if truthy_token token then Render children else Navigate Login.

(** The [element] of each [Route]. *)
Definition element (token : option string) (l : Location) : Element :=
  match l with
  | Root => Render PortfolioView
  | Login => Render LoginView
  | Dashboard => ProtectedRoute token DashboardView
  | Profile => ProtectedRoute token ProfileView
  | AttendanceRoute => ProtectedRoute token AttendanceView
  | Schedule => ProtectedRoute token ScheduleView
  | Fees => ProtectedRoute token FeesView
  | Appointment => ProtectedRoute token AppointmentView
  | ChatRoute => ProtectedRoute token ChatView
  | Unmatched => Navigate Root
  end.

(** The route of a path written as in the [path] attributes; how the
    router matches other spellings of a path is not part of the model. *)
Definition of_path (path : string) : option Location :=
  if String.eqb path "/" then Some Root
  else if String.eqb path "/login" then Some Login
  else if String.eqb path "/dashboard" then Some Dashboard
  else if String.eqb path "/profile" then Some Profile
  else if String.eqb path "/attendance" then Some AttendanceRoute
  else if String.eqb path "/schedule" then Some Schedule
  else if String.eqb path "/fees" then Some Fees
  else if String.eqb path "/appointment" then Some Appointment
  else if String.eqb path "/chat" then Some ChatRoute
  else None.

(** Following [Navigate] elements, at most [redirects] of them. *)
Fixpoint settle (redirects : nat) (token : option string) (l : Location)
  : option (Location * View) :=
  match element token l with
  | Render v => Some (l, v)
  | Navigate to =>
      match redirects with
      | O => None
      | S n => settle n token to
      end
  end.


End Router.

(** ** The login page *)

Module Login.

Import JS Http Session.
Local Open Scope string_scope.

(** The body of the response to [POST /auth/login]: the token of a
    success, the [detail] text of an error; either may be missing. *)
Record LoginBody : Type := {
  body_token : option string;
  detail : option string
}.

(** The [useState] cells of the page. *)
Record Form : Type := {
  studentId : string;
  password : string;
  error : string;
  loading : bool;
  mounted : bool;
  focusedField : option string
}.

(** The page with what it writes: the session and the user of [App]. *)
Record World : Type := {
  app : App;
  user : option LoginBody;
  form : Form
}.

Definition fallback : string := "Login failed. Please check your credentials.".

Definition with_form (error' : string) (loading' : bool) (f : Form) : Form :=
  {| studentId := studentId f; password := password f; error := error';
     loading := loading'; mounted := mounted f;
     focusedField := focusedField f |}.

(** The request of [apiService.login]. *)
Record Credentials : Type := {
  student_id : string;
  credential : string
}.

(** [handleSubmit], up to its [await]. *)
Definition handleSubmit_start (w : World) : World * Credentials :=
  ({| app := app w; user := user w; form := with_form "" true (form w) |},
   {| student_id := studentId (form w); credential := password (form w) |}).

(** [err.response?.data?.detail] *)
Definition detail_of (o : outcome LoginBody) : option string :=
  match o with
  | Responded _ (BodyObject d) => detail d
  | _ => None
  end.

Definition signed_in (t : option string) (d : LoginBody) (w : World) : World :=
  {| app := {| token := t; stored := stored (app w); route := "/chat" |};
     user := Some d;
     form := with_form (error (form w)) false (form w) |}.

Definition refused (text : string) (w : World) : World :=
  {| app := app w; user := user w; form := with_form text false (form w) |}.

(** [handleSubmit], from the outcome of the request on.  A resolved call
    sets the token, the user and the route; a rejected one, and a
    resolved one whose body is [null] (reading [data.token] throws), sets
    the error text.  A body that is not JSON is a text, which has no
    [token]. *)
Definition handleSubmit_settle (o : outcome LoginBody) (w : World) : World :=
  match axios_resolves o with
  | Some (BodyObject d) => signed_in (body_token d) d w
  | Some BodyInvalid =>
      signed_in None {| body_token := None; detail := None |} w
  | Some BodyNull => refused fallback w
  | None => refused (or_else_string (detail_of o) fallback) w
  end.

(** The effect of [App] runs after the page has set the token. *)
Definition after_effect (w : World) : World :=
  {| app := sync (app w); user := user w; form := form w |}.

(** A page that was just opened, and the bodies of the examples. *)
Definition blank : Form :=
  {| studentId := "STU00001"; password := "password123"; error := "";
     loading := false; mounted := true; focusedField := None |}.

Definition logged_out : World :=
  {| app := {| token := None; stored := None; route := "/login" |};
     user := None; form := blank |}.

Definition granted : LoginBody :=
  {| body_token := Some "abc"; detail := None |}.

Definition denied : LoginBody :=
  {| body_token := None; detail := Some "Invalid credentials" |}.

Definition tokenless : LoginBody :=
  {| body_token := None; detail := None |}.

End Login.

(** ** The appointment page *)

Module Booking.

Import JS Http.
Local Open Scope string_scope.

Record FormData : Type := {
  faculty_id : string;
  date : string;
  time_slot : string;
  purpose : string
}.

(** The [name] of the four controls of the form. *)
Inductive Field : Type := FacultyId | Date | TimeSlot | Purpose.

Inductive Kind : Type := success | error | info.

Record Notice : Type := {
  type : Kind;
  text : string
}.

(** The [useState] cells of the page. *)
Record State : Type := {
  formData : FormData;
  showConfirm : bool;
  loading : bool;
  message : option Notice
}.

Definition empty_form : FormData :=
  {| faculty_id := ""; date := ""; time_slot := ""; purpose := "" |}.

Definition init : State :=
  {| formData := empty_form; showConfirm := false; loading := false;
     message := None |}.

(** [{ ...formData, [e.target.name]: e.target.value }] *)
Definition update (f : FormData) (name : Field) (value : string) : FormData :=
  match name with
  | FacultyId => {| faculty_id := value; date := date f;
                    time_slot := time_slot f; purpose := purpose f |}
  | Date => {| faculty_id := faculty_id f; date := value;
               time_slot := time_slot f; purpose := purpose f |}
  | TimeSlot => {| faculty_id := faculty_id f; date := date f;
                   time_slot := value; purpose := purpose f |}
  | Purpose => {| faculty_id := faculty_id f; date := date f;
                  time_slot := time_slot f; purpose := value |}
  end.

Definition handleChange (name : Field) (value : string) (st : State) : State :=
  {| formData := update (formData st) name value;
     showConfirm := showConfirm st; loading := loading st;
     message := message st |}.

Definition handlePreview (st : State) : State :=
  {| formData := formData st; showConfirm := true; loading := loading st;
     message := message st |}.

(** [handleConfirm], up to its [await]: the request carries [formData]. *)
Definition handleConfirm_start (st : State) : State * FormData :=
  ({| formData := formData st; showConfirm := showConfirm st;
      loading := true; message := None |},
   formData st).

(** The body of an error response. *)
Record ErrorBody : Type := {
  detail : option string
}.

(** [error.response?.data?.detail] *)
Definition detail_of (o : outcome ErrorBody) : option string :=
  match o with
  | Responded _ (BodyObject d) => detail d
  | _ => None
  end.

Definition booked : string := "Appointment booked successfully!".
Definition failed : string := "Failed to book appointment".
Definition cancelled : string := "Booking cancelled".

(** [handleConfirm], from the outcome of the request on; the body of a
    resolved call is not read. *)
Definition handleConfirm_settle (o : outcome ErrorBody) (st : State) : State :=
  match axios_resolves o with
  | Some _ =>
      {| formData := empty_form; showConfirm := false; loading := false;
         message := Some {| type := success; text := booked |} |}
  | None =>
      {| formData := formData st; showConfirm := showConfirm st;
         loading := false;
         message := Some {| type := error;
                            text := or_else_string (detail_of o) failed |} |}
  end.

Definition handleCancel (st : State) : State :=
  {| formData := formData st; showConfirm := false; loading := loading st;
     message := Some {| type := info; text := cancelled |} |}.

(** Every control of the form is [required]: the form is submitted only
    when none of the four values is empty. *)
Definition complete (f : FormData) : bool :=
  truthy (faculty_id f) && truthy (date f) && truthy (time_slot f)
  && truthy (purpose f).

(** What the user can do with the rendered controls: the form while
    [!showConfirm], the two buttons of the confirmation otherwise. *)
Inductive Event : Type :=
| Change (name : Field) (value : string)
| Preview
| Confirm
| Cancel.

(** The form is rendered in the [!showConfirm] branch and the buttons in
    the other; the Confirm button has [disabled={loading}], the Cancel
    button is never disabled. *)
Definition dispatch (e : Event) (st : State) : State * option FormData :=
  match e with
  | Change name value =>
      if showConfirm st then (st, None)
      else (handleChange name value st, None)
  | Preview =>
      if showConfirm st then (st, None)
      else if complete (formData st) then (handlePreview st, None)
      else (st, None)
  | Confirm =>
      if showConfirm st && negb (loading st)
      then let (st', r) := handleConfirm_start st in (st', Some r)
      else (st, None)
  | Cancel =>
      if showConfirm st then (handleCancel st, None) else (st, None)
  end.

Record Config : Type := {
  ui : State;
  inflight : list FormData
}.

Definition start : Config := {| ui := init; inflight := [] |}.

Definition issued (r : option FormData) : list FormData :=
  match r with
  | Some q => [q]
  | None => []
  end.

Inductive step : Config -> Config -> Prop :=
| step_event (c : Config) (e : Event) :
    step c {| ui := fst (dispatch e (ui c));
              inflight := (inflight c ++ issued (snd (dispatch e (ui c))))%list |}
| step_settle (c : Config) (before after : list FormData) (r : FormData)
    (o : outcome ErrorBody) :
    inflight c = (before ++ r :: after)%list ->
    step c {| ui := handleConfirm_settle o (ui c);
              inflight := (before ++ after)%list |}.

Inductive reachable : Config -> Prop :=
| reach_start : reachable start
| reach_step (c c' : Config) : reachable c -> step c c' -> reachable c'.

(** What the reachable pages keep. *)
Definition consistent (c : Config) : Prop :=
  (showConfirm (ui c) = true -> complete (formData (ui c)) = true)
  /\ Forall (fun r => complete r = true) (inflight c)
  /\ ((loading (ui c) = true /\ List.length (inflight c) = 1%nat)
      \/ (loading (ui c) = false /\ inflight c = [])).

Definition after_event (e : Event) (c : Config) : Config :=
  {| ui := fst (dispatch e (ui c));
     inflight := (inflight c ++ issued (snd (dispatch e (ui c))))%list |}.

(** A filled form, previewed and confirmed. *)
Definition filled : Config :=
  after_event (Change Purpose "Project review")
    (after_event (Change TimeSlot "09:00-10:00")
       (after_event (Change Date "2026-01-15")
          (after_event (Change FacultyId "FAC001") start))).

Definition confirming : Config :=
  after_event Confirm (after_event Preview filled).

End Booking.

(** ** The data of the dashboard and its cards *)

Module Board.

Import JS Http Attendance Pages.
Local Open Scope string_scope.

Record Profile : Type := {
  name : option string;
  student_id : option string;
  department : option string;
  year : option string;
  email : option string;
  phone : option string
}.

Record ScheduleEntry : Type := {
  entry_course_id : string;
  entry_course_name : string;
  meeting_times : option string;
  faculty_name : option string;
  entry_department : string
}.

Record ScheduleData : Type := {
  schedule_date : option string;
  count : Z;
  classes : list ScheduleEntry
}.

(** The [useState] cells of the dashboard. *)
Record State : Type := {
  profile : option Profile;
  attendance : option AttendanceData;
  schedule : option ScheduleData;
  fees : option FeeStatus;
  loading : bool
}.

Definition init : State :=
  {| profile := None; attendance := None; schedule := None; fees := None;
     loading := true |}.

(** The value a cell gets from the body of a resolved call.  [null] stays
    [null]; a text has none of the fields, which the [?.] reads of the
    page see as they see [null]. *)
Definition cell {A : Type} (b : body A) : option A :=
  match b with
  | BodyObject d => Some d
  | BodyNull | BodyInvalid => None
  end.

(** [fetchData] from the four outcomes on: [Promise.all] resolves when
    the four calls resolve, and then the four cells are set; it rejects
    when one of them rejects, and then none is. *)
Definition fetchData_settle
    (op : outcome Profile) (oa : outcome AttendanceData)
    (os : outcome ScheduleData) (ofe : outcome FeeStatus) (st : State) : State :=
  match axios_resolves op, axios_resolves oa, axios_resolves os,
        axios_resolves ofe with
  | Some bp, Some ba, Some bs, Some bf =>
      {| profile := cell bp; attendance := cell ba; schedule := cell bs;
         fees := cell bf; loading := false |}
  | _, _, _, _ =>
      {| profile := profile st; attendance := attendance st;
         schedule := schedule st; fees := fees st; loading := false |}
  end.

(** [Welcome back, {profile?.name || "Student"}] *)
Definition welcome (st : State) : string :=
  or_else_string (match profile st with Some p => name p | None => None end)
    "Student".

(** [avgAttendance >= 75 ? "green" : "red"] *)
Definition average_color (a : option AttendanceData) : string :=
  if Qle_bool 75 (DashboardPage.avgAttendance a) then "green" else "red".

Definition average_subtitle (a : option AttendanceData) : string :=
  if Qle_bool 75 (DashboardPage.avgAttendance a)
  then "✅ Above 75%" else "⚠️ Below 75%".

(** [fees?.status || "N/A"] *)
Definition fee_value (f : option FeeStatus) : string :=
  or_else_string (match f with Some x => Some (status x) | None => None end)
    "N/A".

(** [fees?.due > 0 ? "yellow" : "green"] *)
Definition fee_color (f : option FeeStatus) : string :=
  match f with
  | Some x => if Qltb 0 (due x) then "yellow" else "green"
  | None => "green"
  end.

(** [colorClasses] of the stat card, and [colorClasses[color]]. *)
Definition colorClasses : list (string * string) :=
  [ ("blue", "bg-blue-50 text-blue-600 border-blue-200");
    ("green", "bg-green-50 text-green-600 border-green-200");
    ("red", "bg-red-50 text-red-600 border-red-200");
    ("yellow", "bg-yellow-50 text-yellow-600 border-yellow-200") ].

Fixpoint lookup (key : string) (table : list (string * string))
  : option string :=
  match table with
  | [] => None
  | (k, v) :: rest => if String.eqb k key then Some v else lookup key rest
  end.

(** A failed profile call beside three successful ones. *)
Definition unreachable_profile : outcome Profile := Rejected.

Definition some_attendance : outcome AttendanceData :=
  Responded 200 (BodyObject {| Attendance.attendance := Some scenario |}).

Definition some_schedule : outcome ScheduleData :=
  Responded 200
    (BodyObject {| schedule_date := None; count := 0; classes := [] |}).

Definition some_fees : outcome FeeStatus :=
  Responded 200 (BodyObject (fees_owing "Pending")).

(** A fee status with a negative [due]. *)
Definition overpaid : FeeStatus :=
  {| total := 1000; paid := 1200; due := - (200); status := "Paid" |}.

End Board.

Module Figures.
Import JS Attendance.
Local Open Scope string_scope.

(** A course with the percentage [tenths / 10]. *)
Definition course (name : string) (tenths : Z) : AttendanceRecord :=
  {| course_id := name; course_name := name; attended := tenths;
     total_classes := 1000; percentage := fl (tenths # 10) |}.

(** Three courses at 64.6, 64.3 and 96.1 percent, in two orders. *)
Definition mixed : list AttendanceRecord :=
  [course "M4" 646; course "M5" 643; course "M6" 961].

Definition mixed_swapped : list AttendanceRecord :=
  [course "M4" 646; course "M6" 961; course "M5" 643].

(** A course at 74.975 percent. *)
Definition nearly : AttendanceRecord :=
  {| course_id := "C4"; course_name := "C4"; attended := 2999;
     total_classes := 4000; percentage := 2999 # 40 |}.

End Figures.

(** * Properties *)

(** ** JavaScript primitives *)

Module JSFacts.
Import JS.


Lemma Qltb_lt (x y : Q) : Qltb x y = true <-> (x < y)%Q.
Proof. unfold Qltb, Qlt. apply Z.ltb_lt. Qed.

(** On numbers, [>=] is the complement of [<]. *)
Lemma Qle_bool_not_Qltb (x y : Q) : Qle_bool y x = negb (Qltb x y).
Proof. unfold Qltb, Qle_bool. apply Z.leb_antisym. Qed.

(** [toFixed] picks a nearest tenth. *)
Lemma toFixed1_n_nearest (x : Q) :
  (inject_Z (toFixed1_n x) <= x * 10 + (1 # 2)
   /\ x * 10 - (1 # 2) < inject_Z (toFixed1_n x))%Q.
Proof.
  unfold toFixed1_n. split.
  - apply Qfloor_le.
  - pose proof (Qlt_floor (x * 10 + (1 # 2))) as H.
    rewrite inject_Z_plus in H.
    apply (Qplus_lt_l _ _ (1 # 1)).
    eapply Qle_lt_trans; [|exact H].
    ring_simplify. apply Qle_refl.
Qed.


Lemma split_point_digits (d : Decimal.uint) (s : string) :
  split_point (NilEmpty.string_of_uint d ++ String "." s)
  = Some (NilEmpty.string_of_uint d, s).
Proof.
  induction d; simpl; try rewrite IHd; reflexivity.
Qed.

Lemma to_uint_not_nil (n : N) : N.to_uint n <> Decimal.Nil.
Proof.
  destruct n as [|p]; [discriminate|].
  simpl. 
  pose proof (DecimalPos.Unsigned.to_uint_nonnil p) as H. exact H.
Qed.

Lemma digits_NilEmpty (n : N) :
  digits n = NilEmpty.string_of_uint (N.to_uint n).
Proof.
  unfold digits, NilZero.string_of_uint.
  pose proof (to_uint_not_nil n). destruct (N.to_uint n); congruence.
Qed.

Lemma split_point_fixed1 (a b : N) :
  split_point (digits a ++ "." ++ digits b) = Some (digits a, digits b).
Proof.
  rewrite (digits_NilEmpty a). apply split_point_digits.
Qed.

Lemma number_of_fixed1 (a b : N) :
  (b < 10)%N ->
  number_of_unsigned (digits a ++ "." ++ digits b)
  = Some (inject_Z (Z.of_N a) + inject_Z (Z.of_N b) / inject_Z 10)%Q.
Proof.
  intro Hb. unfold number_of_unsigned. rewrite split_point_fixed1.
  assert (Ha : NilZero.uint_of_string (digits a) = Some (N.to_uint a)).
  { apply NilZero.usu, to_uint_not_nil. }
  rewrite Ha.
  rewrite (digits_NilEmpty b), NilEmpty.usu.
  rewrite !DecimalN.Unsigned.of_to.
  assert (Hl : String.length (NilEmpty.string_of_uint (N.to_uint b)) = 1%nat).
  { destruct b as [|p]; [reflexivity|].
    do 4 (destruct p as [p|p|]; try reflexivity; try lia). }
  rewrite Hl. reflexivity.
Qed.


Lemma number_of_string_digits (a : N) (s : string) :
  number_of_string (digits a ++ s) = number_of_unsigned (digits a ++ s).
Proof.
  rewrite digits_NilEmpty.
  pose proof (to_uint_not_nil a) as H.
  destruct (N.to_uint a); try congruence; reflexivity.
Qed.

Lemma tenths_value (n : Z) :
  (inject_Z (n / 10) + inject_Z (n mod 10) / inject_Z 10 == inject_Z n / inject_Z 10)%Q.
Proof.
  pose proof (Z.div_mod n 10 ltac:(lia)) as H.
  unfold Qeq, Qdiv, Qplus, Qmult, Qinv, inject_Z. simpl. lia.
Qed.

(** The text of [toFixed(1)] reads back as [n / 10]. *)
Lemma toNumber_fixed1 (n : Z) :
  0 <= n ->
  exists q, toNumber (VStr (fixed1_string n)) = Some q
            /\ (q == inject_Z n / inject_Z 10)%Q.
Proof.
  intro Hn. unfold toNumber, fixed1_string.
  rewrite number_of_string_digits, number_of_fixed1.
  - eexists. split; [reflexivity|].
    rewrite !Z2N.id by (try apply Z.div_pos; try apply Z.mod_pos_bound; lia).
    apply tenths_value.
  - pose proof (Z.mod_pos_bound n 10 ltac:(lia)). lia.
Qed.


Lemma toFixed1_n_nonneg (x : Q) : (0 <= x)%Q -> 0 <= toFixed1_n x.
Proof.
  intro H0. unfold toFixed1_n.
  change 0 with (Qfloor 0). apply Qfloor_resp_le.
  apply Qle_trans with (0 * 10 + 0)%Q; [apply Qle_refl|].
  apply Qplus_le_compat; [apply Qmult_le_compat_r; [exact H0|discriminate]|discriminate].
Qed.

Lemma tenth_close (x : Q) (n : Z) :
  (inject_Z n <= x * 10 + (1 # 2))%Q -> (x * 10 - (1 # 2) < inject_Z n)%Q ->
  (x - (1 # 20) <= inject_Z n / inject_Z 10
   /\ inject_Z n / inject_Z 10 <= x + (1 # 20))%Q.
Proof.
  destruct x as [a b]. unfold Qle, Qlt, Qdiv, Qminus, Qplus, Qmult, Qinv, Qopp, inject_Z.
  cbn [Qnum Qden]. rewrite ?Pos2Z.inj_mul. intros H1 H2. split; nia.
Qed.

(** The number [x.toFixed(1)] denotes: a multiple of a tenth within half
    a tenth of [x]. *)
Lemma toFixed1_value (x : Q) :
  exists (n : Z) (v : Q),
    toNumber (VStr (toFixed1 x)) = Some v
    /\ (v == inject_Z n / inject_Z 10)%Q
    /\ (x - (1 # 20) <= v)%Q /\ (v <= x + (1 # 20))%Q.
Proof.
  unfold toFixed1. destruct (Qltb x 0) eqn:Hneg.
  - apply Qltb_lt in Hneg.
    assert (Hx : (0 <= - x)%Q).
    { apply Qlt_le_weak in Hneg. apply Qopp_le_compat in Hneg. exact Hneg. }
    destruct (toNumber_fixed1 _ (toFixed1_n_nonneg _ Hx)) as [q [Hq Hv]].
    destruct (toFixed1_n_nearest (- x)) as [H1 H2].
    destruct (tenth_close _ _ H1 H2) as [H3 H4].
    exists (- toFixed1_n (- x)), (- q)%Q.
    split; [|split; [|split]].
    + cbn [toNumber number_of_string]. cbn [toNumber] in Hq.
      unfold fixed1_string in *. rewrite number_of_string_digits in Hq.
      rewrite Hq. reflexivity.
    + rewrite Hv, inject_Z_opp. unfold Qdiv. ring.
    + rewrite Hv. apply Qopp_le_compat in H4.
      eapply Qle_trans; [|exact H4]. ring_simplify. apply Qle_refl.
    + rewrite Hv. apply Qopp_le_compat in H3.
      eapply Qle_trans; [exact H3|]. ring_simplify. apply Qle_refl.
  - assert (Hx : (0 <= x)%Q).
    { apply Qnot_lt_le. intro H. apply Qltb_lt in H. congruence. }
    destruct (toNumber_fixed1 _ (toFixed1_n_nonneg _ Hx)) as [q [Hq Hv]].
    destruct (toFixed1_n_nearest x) as [H1 H2].
    destruct (tenth_close _ _ H1 H2) as [H3 H4].
    exists (toFixed1_n x), q.
    split; [exact Hq|]. split; [exact Hv|].
    rewrite Hv. split; assumption.
Qed.

(** *** Rounding to binary64 *)

Lemma two_not_zero : ~ (2 == 0)%Q.
Proof. discriminate. Qed.

Lemma pow2_pos (k : Z) : (0 < pow2 k)%Q.
Proof. apply Qpower_0_lt. reflexivity. Qed.

Lemma pow2_add (a b : Z) : (pow2 (a + b) == pow2 a * pow2 b)%Q.
Proof. apply Qpower_plus, two_not_zero. Qed.

Lemma pow2_le (a b : Z) : a <= b -> (pow2 a <= pow2 b)%Q.
Proof. intro H. apply Qpower_le_compat_l; [exact H|discriminate]. Qed.

Lemma pow2_lt (a b : Z) : a < b -> (pow2 a < pow2 b)%Q.
Proof. intro H. apply Qpower_lt_compat_l; [exact H|reflexivity]. Qed.

Lemma pow2_Z (k : Z) : 0 <= k -> (pow2 k == inject_Z (2 ^ k))%Q.
Proof. intro H. unfold pow2. rewrite Zpower_Qpower by exact H. reflexivity. Qed.

Lemma pow2_cancel (a : Z) : (pow2 a * pow2 (- a) == 1)%Q.
Proof. rewrite <- pow2_add, Z.add_opp_diag_r. reflexivity. Qed.

(** The exponent found by [ilog2] is the one of the number. *)
Lemma ilog2_spec (q : Q) :
  (0 < q)%Q -> (pow2 (ilog2 q) <= q)%Q /\ (q < pow2 (ilog2 q + 1))%Q.
Proof.
  intro Hq. destruct q as [n d].
  assert (Hn : 0 < n) by (unfold Qlt in Hq; cbn in Hq; lia).
  pose proof (Z.log2_spec n Hn) as [Hn1 Hn2].
  pose proof (Z.log2_spec (Zpos d) (Pos2Z.is_pos d)) as [Hd1 Hd2].
  pose proof (Z.log2_nonneg n) as Hln.
  pose proof (Z.log2_nonneg (Zpos d)) as Hld.
  unfold ilog2. cbn [Qnum Qden].
  set (ln := Z.log2 n) in *. set (ld := Z.log2 (Zpos d)) in *.
  assert (Hup : (n # d < pow2 (ln - ld + 1))%Q).
  { apply (Qmult_lt_r _ _ (pow2 ld) (pow2_pos ld)).
    rewrite <- pow2_add. replace (ln - ld + 1 + ld) with (ln + 1) by lia.
    rewrite (pow2_Z ld Hld), (pow2_Z (ln + 1)) by lia.
    unfold Qlt, Qmult, inject_Z. cbn [Qnum Qden].
    rewrite Pos2Z.inj_mul. change (Z.succ ln) with (ln + 1) in Hn2. nia. }
  assert (Hlo : (pow2 (ln - ld - 1) < n # d)%Q).
  { apply (Qmult_lt_r _ _ (pow2 (ld + 1)) (pow2_pos (ld + 1))).
    rewrite <- pow2_add. replace (ln - ld - 1 + (ld + 1)) with ln by lia.
    rewrite (pow2_Z ln Hln), (pow2_Z (ld + 1)) by lia.
    unfold Qlt, Qmult, inject_Z. cbn [Qnum Qden].
    rewrite Pos2Z.inj_mul. change (Z.succ ld) with (ld + 1) in Hd2. nia. }
  destruct (Qle_bool (pow2 (ln - ld)) (n # d)) eqn:Ht.
  - apply Qle_bool_iff in Ht. split; [exact Ht|exact Hup].
  - split.
    + apply Qlt_le_weak. exact Hlo.
    + replace (ln - ld - 1 + 1) with (ln - ld) by lia.
      apply Qnot_le_lt. intro H. apply Qle_bool_iff in H. congruence.
Qed.

Lemma rne_floor (y : Q) : Qfloor y <= rne y <= Qfloor y + 1.
Proof.
  unfold rne. destruct (Qcompare (y - inject_Z (Qfloor y)) (1 # 2));
    [destruct (Z.even (Qfloor y))| |]; lia.
Qed.

(** Rounding to the nearest integer does not cross an integer. *)
Lemma rne_le_int (y : Q) (N : Z) : (y <= inject_Z N)%Q -> rne y <= N.
Proof.
  intro H. pose proof (Qfloor_resp_le _ _ H) as Hf. rewrite Qfloor_Z in Hf.
  destruct (Z.eq_dec (Qfloor y) N) as [He|Hne].
  - unfold rne.
    assert (Hy : (y - inject_Z (Qfloor y) <= 0)%Q).
    { rewrite He. apply (Qplus_le_l _ _ (inject_Z N)). ring_simplify. exact H. }
    destruct (Qcompare_spec (y - inject_Z (Qfloor y)) (1 # 2)) as [E|E|E].
    + exfalso. rewrite E in Hy. unfold Qle in Hy. cbn in Hy. lia.
    + lia.
    + exfalso. apply (Qlt_not_le _ _ E). eapply Qle_trans; [exact Hy|discriminate].
  - pose proof (rne_floor y). lia.
Qed.

Lemma rne_ge_int (y : Q) (N : Z) : (inject_Z N <= y)%Q -> N <= rne y.
Proof.
  intro H. pose proof (Qfloor_resp_le _ _ H) as Hf. rewrite Qfloor_Z in Hf.
  pose proof (rne_floor y). lia.
Qed.

(** ... and stays within a half. *)
Lemma rne_near (y : Q) :
  (y - (1 # 2) <= inject_Z (rne y))%Q /\ (inject_Z (rne y) <= y + (1 # 2))%Q.
Proof.
  pose proof (Qfloor_le y) as Hlo. pose proof (Qlt_floor y) as Hhi.
  rewrite inject_Z_plus in Hhi.
  unfold rne.
  destruct (Qcompare_spec (y - inject_Z (Qfloor y)) (1 # 2)) as [E|E|E];
    [destruct (Z.even (Qfloor y))| |]; rewrite ?inject_Z_plus;
    set (f := inject_Z (Qfloor y)) in *; change (inject_Z 1) with 1%Q in *;
    split; lra.
Qed.

(** The scaled significand of a positive normal number lies in
    [2^52, 2^53). *)
Lemma scaled_range (q : Q) :
  (0 < q)%Q ->
  (pow2 52 <= q * pow2 (- (ilog2 q - 52)))%Q.
Proof.
  intro Hq. destruct (ilog2_spec q Hq) as [H1 H2].
  set (e := ilog2 q) in *.
  setoid_replace (pow2 52) with (pow2 e * pow2 (- (e - 52)))%Q
    by (rewrite <- pow2_add; replace (e + - (e - 52)) with 52 by lia; reflexivity).
  apply Qmult_le_r; [apply pow2_pos|exact H1].
Qed.

Lemma scaled_back (q : Q) (E : Z) : (q * pow2 (- E) * pow2 E == q)%Q.
Proof.
  rewrite <- Qmult_assoc, <- pow2_add.
  replace (- E + E) with 0 by lia. change (pow2 0) with 1%Q. ring.
Qed.

Lemma dyadic_scaled (K j E : Z) :
  E <= j ->
  (inject_Z K * pow2 j * pow2 (- E) == inject_Z (K * 2 ^ (j - E)))%Q.
Proof.
  intro H. rewrite inject_Z_mult, <- (pow2_Z (j - E)) by lia.
  rewrite <- Qmult_assoc, <- pow2_add. reflexivity.
Qed.

Lemma dyadic_unscaled (K j E : Z) :
  E <= j ->
  (inject_Z K * pow2 j == inject_Z (K * 2 ^ (j - E)) * pow2 E)%Q.
Proof.
  intro H. rewrite <- dyadic_scaled by exact H.
  rewrite <- Qmult_assoc. rewrite (Qmult_comm (pow2 (- E))), pow2_cancel. ring.
Qed.

Lemma dyadic_pos (K j : Z) : 0 < K -> (0 < inject_Z K * pow2 j)%Q.
Proof.
  intro H. apply Qmult_lt_0_compat; [|apply pow2_pos].
  change 0%Q with (inject_Z 0). rewrite <- Zlt_Qlt. exact H.
Qed.

(** Rounding does not cross a binary64 value: a number [K * 2^j] with a
    53-bit [K] and [j] no less than the least exponent. *)
Lemma fl_pos_le_dyadic (q : Q) (K j : Z) :
  (0 < q)%Q -> 0 < K < 2 ^ 53 -> -1074 <= j ->
  (q <= inject_Z K * pow2 j)%Q -> (fl_pos q <= inject_Z K * pow2 j)%Q.
Proof.
  intros Hq HK Hj Hle. destruct (ilog2_spec q Hq) as [H1 H2].
  unfold fl_pos, ulp_exponent. set (e := ilog2 q) in *.
  assert (HE : e - 52 <= j).
  { destruct (Z_le_gt_dec (e - 52) j) as [|Hgt]; [assumption|exfalso].
    apply (Qlt_irrefl q). eapply Qle_lt_trans; [exact Hle|].
    eapply Qlt_le_trans; [|exact H1].
    setoid_replace (pow2 e) with (inject_Z (2 ^ 53) * pow2 (e - 53))%Q
      by (rewrite <- (pow2_Z 53) by lia; rewrite <- pow2_add;
          replace (53 + (e - 53)) with e by lia; reflexivity).
    apply Qlt_le_trans with (inject_Z (2 ^ 53) * pow2 j)%Q.
    - apply Qmult_lt_r; [apply pow2_pos|]. rewrite <- Zlt_Qlt. lia.
    - apply Qmult_le_l; [reflexivity|]. apply pow2_le. lia. }
  set (E := Z.max (e - 52) (-1074)).
  assert (HEj : E <= j) by (unfold E; lia).
  assert (Hy : (q * pow2 (- E) <= inject_Z (K * 2 ^ (j - E)))%Q).
  { rewrite <- dyadic_scaled by exact HEj.
    apply Qmult_le_r; [apply pow2_pos|exact Hle]. }
  apply rne_le_int in Hy.
  rewrite (dyadic_unscaled K j E HEj).
  apply Qmult_le_r; [apply pow2_pos|]. rewrite <- Zle_Qle. exact Hy.
Qed.

Lemma fl_pos_ge_dyadic (q : Q) (K j : Z) :
  (0 < q)%Q -> 0 < K < 2 ^ 53 -> -1074 <= j ->
  (inject_Z K * pow2 j <= q)%Q -> (inject_Z K * pow2 j <= fl_pos q)%Q.
Proof.
  intros Hq HK Hj Hle. pose proof (scaled_range q Hq) as H1.
  unfold fl_pos, ulp_exponent. set (e := ilog2 q) in *.
  set (E := Z.max (e - 52) (-1074)).
  destruct (Z_le_gt_dec E j) as [HE|HE].
  - assert (Hy : (inject_Z (K * 2 ^ (j - E)) <= q * pow2 (- E))%Q).
    { rewrite <- dyadic_scaled by exact HE.
      apply Qmult_le_r; [apply pow2_pos|exact Hle]. }
    apply rne_ge_int in Hy.
    rewrite (dyadic_unscaled K j E HE).
    apply Qmult_le_r; [apply pow2_pos|]. rewrite <- Zle_Qle. exact Hy.
  - assert (HEe : E = e - 52) by (unfold E in *; lia).
    rewrite HEe in *.
    rewrite (pow2_Z 52) in H1 by lia. apply rne_ge_int in H1.
    apply Qle_trans with (inject_Z (2 ^ 52) * pow2 (e - 52))%Q.
    + apply Qle_trans with (inject_Z (2 ^ 53) * pow2 j)%Q.
      * apply Qmult_le_r; [apply pow2_pos|]. rewrite <- Zle_Qle. lia.
      * rewrite <- !pow2_Z by lia. rewrite <- !pow2_add. apply pow2_le. lia.
    + apply Qmult_le_r; [apply pow2_pos|]. rewrite <- Zle_Qle. exact H1.
Qed.

(** The relative error of rounding a normal number is at most
    [u] = 2^-53. *)
Lemma fl_pos_error (q : Q) :
  (pow2 (-1022) <= q)%Q ->
  (q * (1 - u) <= fl_pos q)%Q /\ (fl_pos q <= q * (1 + u))%Q.
Proof.
  intro Hn.
  assert (Hq : (0 < q)%Q) by (eapply Qlt_le_trans; [apply (pow2_pos (-1022))|exact Hn]).
  pose proof (scaled_range q Hq) as H1.
  destruct (ilog2_spec q Hq) as [_ H2].
  unfold fl_pos, ulp_exponent. set (e := ilog2 q) in *.
  assert (He : -1022 <= e).
  { destruct (Z_le_gt_dec (-1022) e) as [|Hgt]; [assumption|exfalso].
    apply (Qlt_irrefl q). eapply Qlt_le_trans; [exact H2|].
    eapply Qle_trans; [|exact Hn]. apply pow2_le. lia. }
  replace (Z.max (e - 52) (-1074)) with (e - 52) by lia.
  pose proof (scaled_back q (e - 52)) as Hb.
  set (y := (q * pow2 (- (e - 52)))%Q) in *.
  destruct (rne_near y) as [Hlo Hhi].
  assert (Hu : ((1 # 2) <= y * u)%Q).
  { apply Qle_trans with (pow2 52 * u)%Q.
    - unfold u. rewrite <- pow2_add. apply Qle_refl.
    - apply Qmult_le_r; [apply pow2_pos|exact H1]. }
  pose proof (pow2_pos (e - 52)) as Hp.
  set (p := pow2 (e - 52)) in *. set (m := inject_Z (rne y)) in *.
  split.
  - rewrite <- Hb. 
    setoid_replace (y * p * (1 - u))%Q with ((y - y * u) * p)%Q by ring.
    apply Qmult_le_r; [exact Hp|]. lra.
  - rewrite <- Hb.
    setoid_replace (y * p * (1 + u))%Q with ((y + y * u) * p)%Q by ring.
    apply Qmult_le_r; [exact Hp|]. lra.
Qed.

Lemma fl_pos_nonneg (q : Q) : (0 <= q)%Q -> (0 <= fl_pos q)%Q.
Proof.
  intro Hq. unfold fl_pos.
  apply Qmult_le_0_compat; [|apply Qlt_le_weak, pow2_pos].
  change 0%Q with (inject_Z 0). rewrite <- Zle_Qle. apply rne_ge_int.
  apply Qmult_le_0_compat; [exact Hq|apply Qlt_le_weak, pow2_pos].
Qed.

Lemma fl_of_pos (q : Q) : (0 < q)%Q -> fl q = fl_pos q.
Proof.
  intro H. unfold fl. apply Qgt_alt in H. rewrite H. reflexivity.
Qed.

Lemma fl_nonneg (q : Q) : (0 <= q)%Q -> (0 <= fl q)%Q.
Proof.
  intro H. unfold fl. destruct (Qcompare_spec q 0) as [E|E|E].
  - apply Qle_refl.
  - exfalso. apply (Qlt_not_le _ _ E H).
  - apply fl_pos_nonneg, H.
Qed.

Lemma fl_le_dyadic (q : Q) (K j : Z) :
  (0 <= q)%Q -> 0 < K < 2 ^ 53 -> -1074 <= j ->
  (q <= inject_Z K * pow2 j)%Q -> (fl q <= inject_Z K * pow2 j)%Q.
Proof.
  intros H HK Hj Hle. unfold fl. destruct (Qcompare_spec q 0) as [E|E|E].
  - apply Qlt_le_weak, dyadic_pos. lia.
  - exfalso. apply (Qlt_not_le _ _ E H).
  - apply fl_pos_le_dyadic; assumption.
Qed.

Lemma fl_ge_dyadic (q : Q) (K j : Z) :
  0 < K < 2 ^ 53 -> -1074 <= j ->
  (inject_Z K * pow2 j <= q)%Q -> (inject_Z K * pow2 j <= fl q)%Q.
Proof.
  intros HK Hj Hle.
  assert (Hq : (0 < q)%Q).
  { eapply Qlt_le_trans; [|exact Hle]. apply dyadic_pos. lia. }
  rewrite (fl_of_pos q Hq). apply fl_pos_ge_dyadic; assumption.
Qed.

Lemma fl_error (q : Q) :
  (q == 0)%Q \/ (pow2 (-1022) <= q)%Q ->
  (q * (1 - u) <= fl q)%Q /\ (fl q <= q * (1 + u))%Q.
Proof.
  intro H. unfold fl. destruct (Qcompare_spec q 0) as [E|E|E].
  - rewrite E. split; lra.
  - exfalso. destruct H as [H|H].
    + rewrite H in E. exact (Qlt_irrefl _ E).
    + apply (Qlt_irrefl q). eapply Qlt_trans; [exact E|].
      eapply Qlt_le_trans; [apply (pow2_pos (-1022))|exact H].
  - destruct H as [H|H].
    + exfalso. rewrite H in E. exact (Qlt_irrefl _ E).
    + apply fl_pos_error, H.
Qed.

Lemma integer_dyadic (n : Z) :
  0 < n <= 2 ^ 53 ->
  exists K j, 0 < K < 2 ^ 53 /\ -1074 <= j /\ (inject_Z n == inject_Z K * pow2 j)%Q.
Proof.
  intro Hn. destruct (Z.eq_dec n (2 ^ 53)) as [->|Hm].
  - exists 1, 53. split; [lia|]. split; [lia|]. rewrite (pow2_Z 53) by lia. ring.
  - exists n, 0. split; [lia|]. split; [lia|]. change (pow2 0) with 1%Q. ring.
Qed.

Lemma fl_le_integer (q : Q) (n : Z) :
  (0 <= q)%Q -> 0 < n <= 2 ^ 53 -> (q <= inject_Z n)%Q -> (fl q <= inject_Z n)%Q.
Proof.
  intros Hq Hn Hle. destruct (integer_dyadic n Hn) as (K & j & HK & Hj & E).
  rewrite E in *. apply fl_le_dyadic; assumption.
Qed.

Lemma fl_ge_integer (q : Q) (n : Z) :
  0 < n <= 2 ^ 53 -> (inject_Z n <= q)%Q -> (inject_Z n <= fl q)%Q.
Proof.
  intros Hn Hle. destruct (integer_dyadic n Hn) as (K & j & HK & Hj & E).
  rewrite E in *. apply fl_ge_dyadic; assumption.
Qed.

(** Whole numbers up to 2^53 are binary64 values. *)
Lemma fl_integer (n : Z) : 0 <= n <= 2 ^ 53 -> (fl (inject_Z n) == inject_Z n)%Q.
Proof.
  intro Hn. destruct (Z.eq_dec n 0) as [->|Hz]; [reflexivity|].
  apply Qle_antisym.
  - apply fl_le_integer; [|lia|apply Qle_refl].
    change 0%Q with (inject_Z 0). rewrite <- Zle_Qle. lia.
  - apply fl_ge_integer; [lia|apply Qle_refl].
Qed.

Lemma fl_zero (q : Q) : (q == 0)%Q -> fl q = 0%Q.
Proof.
  intro H. unfold fl. apply Qeq_alt in H. rewrite H. reflexivity.
Qed.

Lemma fl_integer_eq (q : Q) (n : Z) :
  0 <= n <= 2 ^ 53 -> (q == inject_Z n)%Q -> (fl q == inject_Z n)%Q.
Proof.
  intros Hn E. destruct (Z.eq_dec n 0) as [->|Hz].
  - rewrite (fl_zero q E). reflexivity.
  - apply Qle_antisym.
    + apply fl_le_integer; [|lia|rewrite E; apply Qle_refl].
      rewrite E. change 0%Q with (inject_Z 0). rewrite <- Zle_Qle. lia.
    + apply fl_ge_integer; [lia|rewrite E; apply Qle_refl].
Qed.

Lemma u_range : (0 < u)%Q /\ (u < 1)%Q.
Proof. split; reflexivity. Qed.

End JSFacts.

(** ** Attendance aggregate *)

Module AttendanceProps.

Import JS JSFacts Attendance.

Lemma reduce_sum {A : Type} (f : A -> Z) (l : list A) (a : Z) :
  fold_left (fun sum r => sum + f r) l a = a + Zsum (map f l).
Proof.
  revert a. induction l as [|r l IH]; intro a; simpl.
  - lia.
  - rewrite IH. lia.
Qed.



Lemma below_75_lt (r : AttendanceRecord) :
  below_75 r = true <-> (percentage r < 75)%Q.
Proof. apply Qltb_lt. Qed.

Lemma at_least_75_le (r : AttendanceRecord) :
  at_least_75 r = true <-> (75 <= percentage r)%Q.
Proof. apply Qle_bool_iff. Qed.

Lemma at_least_75_not_below (r : AttendanceRecord) :
  at_least_75 r = negb (below_75 r).
Proof. apply Qle_bool_not_Qltb. Qed.

(** C3.  For every sequence of attendance records, the courses reported
    as low ([lowAttendance], the list behind the alert of the chat report)
    are exactly the records, in order, whose percentage is strictly less
    than 75; the mark of the report and the status cell of the attendance
    and profile pages are the low ones exactly below 75; a record at
    exactly 75 is not low and is shown as satisfactory. *)
Theorem low_attendance_is_strictly_below_75
    (l : list AttendanceRecord) (r : AttendanceRecord) :
  lowAttendance l = strictly_below_75 l
  /\ (In r (lowAttendance l) <-> In r l /\ (percentage r < 75)%Q)
  /\ (page_status r = Low <-> (percentage r < 75)%Q)
  /\ (status r = "⚠️"%string <-> (percentage r < 75)%Q)
  /\ ((percentage r == 75)%Q ->
      ~ In r (lowAttendance l) /\ page_status r = Good
      /\ status r = "✅"%string).
Proof.
  assert (Hlow : below_75 r = true <-> (percentage r < 75)%Q) by apply below_75_lt.
  pose proof (at_least_75_not_below r) as Hpart.
  split; [|split; [|split; [|split]]].
  - unfold lowAttendance, strictly_below_75. apply filter_ext. intro a.
    destruct (Qlt_le_dec (percentage a) 75) as [H|H].
    + apply below_75_lt; exact H.
    + apply not_true_is_false. intro Hb. apply below_75_lt in Hb.
      exact (Qlt_not_le _ _ Hb H).
  - unfold lowAttendance. rewrite filter_In, Hlow. reflexivity.
  - unfold page_status. rewrite Hpart, <- Hlow.
    destruct (below_75 r); simpl; split; congruence.
  - unfold status. rewrite Hpart, <- Hlow.
    destruct (below_75 r); simpl; split; congruence.
  - intro H75.
    assert (Hnb : below_75 r = false).
    { apply not_true_is_false. intro Hb. apply Hlow in Hb.
      rewrite H75 in Hb. exact (Qlt_irrefl _ Hb). }
    split; [|split].
    + unfold lowAttendance. rewrite filter_In. intros [_ Hb]. congruence.
    + unfold page_status. rewrite Hpart, Hnb. reflexivity.
    + unfold status. rewrite Hpart, Hnb. reflexivity.
Qed.

Lemma low_attendance_is_strictly_below_75_witness :
  ~ In scenario_C1 (lowAttendance scenario)
  /\ page_status scenario_C1 = Good
  /\ status scenario_C1 = "✅"%string.
Proof.
  apply (low_attendance_is_strictly_below_75 scenario scenario_C1).
  reflexivity.
Defined.



(** The two roundings of the ratio change the exact percentage by a
    factor between [(1 - u)^2] and [(1 + u)^2]. *)
Lemma ratio_error (a t : Z) :
  0 <= a -> 0 < t <= 2 ^ 53 ->
  (inject_Z (100 * a) / inject_Z t * ((1 - u) * (1 - u)) <= ratio a t)%Q
  /\ (ratio a t <= inject_Z (100 * a) / inject_Z t * ((1 + u) * (1 + u)))%Q.
Proof.
  intros Ha Ht. unfold ratio, mul64, div64.
  assert (He : (inject_Z (100 * a) / inject_Z t == inject_Z a / inject_Z t * 100)%Q).
  { destruct t as [|p|p]; try lia.
    unfold Qeq, Qdiv, Qmult, Qinv, inject_Z. cbn [Qnum Qden].
    rewrite ?Pos2Z.inj_mul. lia. }
  rewrite He. clear He.
  destruct u_range as [Hu0 Hu1].
  destruct (Z.eq_dec a 0) as [->|Hz].
  - assert (E : (inject_Z 0 / inject_Z t == 0)%Q) by (unfold Qdiv; ring).
    rewrite (fl_zero _ E).
    assert (E' : (0 * 100 == 0)%Q) by ring.
    rewrite (fl_zero _ E'). rewrite E. split; lra.
  - assert (Hq : (inject_Z 1 * pow2 (-53) <= inject_Z a / inject_Z t)%Q).
    { destruct t as [|p|p]; try lia.
      assert (Hp : Z.pos p <= 9007199254740992) by (change 9007199254740992 with (2 ^ 53); lia).
      unfold Qle, Qdiv, Qmult, Qinv, inject_Z, pow2. cbn.
      rewrite ?Pos2Z.inj_mul. lia. }
    assert (Hn : (pow2 (-1022) <= inject_Z a / inject_Z t)%Q).
    { eapply Qle_trans; [|exact Hq].
      apply Qle_trans with (pow2 (-53)); [apply pow2_le; lia|].
      change (inject_Z 1) with 1%Q. lra. }
    destruct (fl_error _ (or_intror Hn)) as [E1 E2].
    apply (fl_ge_dyadic _ 1 (-53)) in Hq; [|lia|lia].
    set (q := (inject_Z a / inject_Z t)%Q) in *.
    set (d := fl q) in *.
    assert (Hd : (pow2 (-1022) <= d * 100)%Q).
    { apply Qle_trans with (pow2 (-53)); [apply pow2_le; lia|].
      change (inject_Z 1) with 1%Q in Hq.
      assert (0 < pow2 (-53))%Q by apply pow2_pos. lra. }
    destruct (fl_error _ (or_intror Hd)) as [F1 F2].
    set (x := fl (d * 100)) in *.
    assert (Hq0 : (0 < q)%Q).
    { eapply Qlt_le_trans; [apply (pow2_pos (-1022))|exact Hn]. }
    split.
    + apply Qle_trans with (d * 100 * (1 - u))%Q; [|exact F1].
      setoid_replace (q * 100 * ((1 - u) * (1 - u)))%Q
        with (q * (1 - u) * (100 * (1 - u)))%Q by ring.
      setoid_replace (d * 100 * (1 - u))%Q with (d * (100 * (1 - u)))%Q by ring.
      apply Qmult_le_compat_r; [exact E1|lra].
    + apply Qle_trans with (d * 100 * (1 + u))%Q; [exact F2|].
      setoid_replace (q * 100 * ((1 + u) * (1 + u)))%Q
        with (q * (1 + u) * (100 * (1 + u)))%Q by ring.
      setoid_replace (d * 100 * (1 + u))%Q with (d * (100 * (1 + u)))%Q by ring.
      apply Qmult_le_compat_r; [exact E2|lra].
Qed.

Lemma reduce64_from (f : AttendanceRecord -> Z) (l : list AttendanceRecord)
    (acc : Q) (z : Z) :
  Forall (fun r => 0 <= f r) l -> 0 <= z -> z + Zsum (map f l) <= 2 ^ 53 ->
  (acc == inject_Z z)%Q ->
  (fold_left (fun sum r => add64 sum (inject_Z (f r))) l acc
   == inject_Z (z + Zsum (map f l)))%Q.
Proof.
  intros Hl. revert acc z.
  induction Hl as [|r l Hr Hl IH]; intros acc z Hz Hs E; cbn [fold_left map Zsum fold_right] in *.
  - rewrite E, Z.add_0_r. reflexivity.
  - assert (H0 : 0 <= Zsum (map f l)).
    { clear - Hl. induction Hl; cbn; [lia|]. unfold Zsum in *. lia. }
    unfold Zsum in *.
    rewrite (IH (add64 acc (inject_Z (f r))) (z + f r)); try lia.
    + rewrite Z.add_assoc. reflexivity.
    + unfold add64. apply fl_integer_eq; [lia|].
      rewrite E, inject_Z_plus. reflexivity.
Qed.

(** While the sum of the counts does not exceed [2^53], no addition of
    the reduce rounds. *)
Lemma reduce64_exact (f : AttendanceRecord -> Z) (l : list AttendanceRecord) :
  Forall (fun r => 0 <= f r) l -> Zsum (map f l) <= 2 ^ 53 ->
  (reduce64 f l == inject_Z (Zsum (map f l)))%Q.
Proof.
  intros Hl Hs. unfold reduce64.
  rewrite (reduce64_from f l 0 0 Hl); [reflexivity|lia|lia|reflexivity].
Qed.

(** C4 as stated fails.  The quotient and the product are rounded to
    binary64 before [toFixed] rounds to one decimal place: for 11269107890290
    classes attended out of 15749976087058 the exact percentage is above
    71.55 and the report prints 71.5, which is not within half a tenth of
    it; for 41 out of 80 (51.25 exactly) the report prints 51.2. *)
Lemma overall_is_not_the_rounded_quotient :
  overallPercentage [tight] = VStr "71.5"
  /\ (7155 # 100 < inject_Z (100 * totalAttended [tight])
                   / inject_Z (totalClasses [tight]))%Q
  /\ ~ (exists (n : Z) (v : Q),
          toNumber (overallPercentage [tight]) = Some v
          /\ (v == inject_Z n / inject_Z 10)%Q
          /\ (inject_Z (100 * totalAttended [tight])
                / inject_Z (totalClasses [tight]) - (1 # 20) <= v)%Q
          /\ (v <= inject_Z (100 * totalAttended [tight])
                   / inject_Z (totalClasses [tight]) + (1 # 20))%Q)
  /\ overallPercentage halves = VStr "51.2".
Proof.
  split; [vm_compute; reflexivity|]. split; [vm_compute; reflexivity|].
  split; [|vm_compute; reflexivity].
  intros (n & v & Hv & _ & Hlo & _).
  assert (E : toNumber (overallPercentage [tight]) = Some (71 + 5 / 10)%Q)
    by (vm_compute; reflexivity).
  rewrite E in Hv. injection Hv as <-.
  revert Hlo. vm_compute. intro H. apply H. reflexivity.
Qed.

(** C4, amended.  For every sequence of attendance records whose counts
    are not negative and whose totals do not exceed [2^53],
    [totalAttended] is the sum of [attended] and [totalClasses] the sum
    of [total_classes], and the binary64 reduce of the component gives
    these sums; when [totalClasses > 0] the overall percentage denotes a
    multiple of one tenth within half a tenth of the binary64 value of
    [(totalAttended / totalClasses) * 100], a value that differs from the
    exact [100 * totalAttended / totalClasses] by a factor between
    [(1 - u)^2] and [(1 + u)^2], [u = 2^-53]; it is the number 0 when
    [totalClasses = 0].  On the scenario [C1: 30/40 at 75, C2: 10/20 at
    50] the overall percentage reads 66.7, the totals are 40 and 60 and
    the low courses are [C2]. *)
Theorem aggregate_totals_and_overall (l : list AttendanceRecord) :
  Forall counts_ok l -> totalAttended l <= 2 ^ 53 -> totalClasses l <= 2 ^ 53 ->
  totalAttended l = Zsum (map attended l)
  /\ totalClasses l = Zsum (map total_classes l)
  /\ (reduce64 attended l == inject_Z (totalAttended l))%Q
  /\ (reduce64 total_classes l == inject_Z (totalClasses l))%Q
  /\ (0 < totalClasses l ->
      exists (n : Z) (v : Q),
        toNumber (overallPercentage l) = Some v
        /\ (v == inject_Z n / inject_Z 10)%Q
        /\ (ratio (totalAttended l) (totalClasses l) - (1 # 20) <= v)%Q
        /\ (v <= ratio (totalAttended l) (totalClasses l) + (1 # 20))%Q
        /\ (inject_Z (100 * totalAttended l) / inject_Z (totalClasses l)
              * ((1 - u) * (1 - u))
            <= ratio (totalAttended l) (totalClasses l))%Q
        /\ (ratio (totalAttended l) (totalClasses l)
            <= inject_Z (100 * totalAttended l) / inject_Z (totalClasses l)
               * ((1 + u) * (1 + u)))%Q)
  /\ (totalClasses l = 0 -> overallPercentage l = VNum 0)
  /\ overallPercentage scenario = VStr "66.7"
  /\ totalAttended scenario = 40
  /\ totalClasses scenario = 60
  /\ lowAttendance scenario = [scenario_C2].
Proof.
  intros Hok Ha Ht.
  assert (Sa : totalAttended l = Zsum (map attended l))
    by (unfold totalAttended; rewrite reduce_sum; reflexivity).
  assert (St : totalClasses l = Zsum (map total_classes l))
    by (unfold totalClasses; rewrite reduce_sum; reflexivity).
  assert (Hoa : Forall (fun r => 0 <= attended r) l)
    by (eapply Forall_impl; [|exact Hok]; intros r [H _]; exact H).
  assert (Hot : Forall (fun r => 0 <= total_classes r) l)
    by (eapply Forall_impl; [|exact Hok]; intros r [_ H]; exact H).
  split; [exact Sa|]. split; [exact St|].
  split; [rewrite Sa; apply reduce64_exact; [exact Hoa|rewrite <- Sa; exact Ha]|].
  split; [rewrite St; apply reduce64_exact; [exact Hot|rewrite <- St; exact Ht]|].
  split; [|split].
  - intro Hpos. unfold overallPercentage, gt0.
    apply Z.ltb_lt in Hpos as Hb. rewrite Hb.
    destruct (toFixed1_value (ratio (totalAttended l) (totalClasses l)))
      as [n [v [Hv [Hn [H1 H2]]]]].
    assert (H0 : 0 <= totalAttended l).
    { rewrite Sa. clear - Hoa. induction Hoa; cbn; [lia|]. unfold Zsum in *. lia. }
    destruct (ratio_error (totalAttended l) (totalClasses l) H0 (conj Hpos Ht))
      as [E1 E2].
    exists n, v. repeat split; assumption.
  - intro H0. unfold overallPercentage, gt0. rewrite H0. reflexivity.
  - repeat split; vm_compute; reflexivity.
Qed.

Lemma aggregate_totals_and_overall_witness :
  (exists (n : Z) (v : Q),
     toNumber (overallPercentage halves) = Some v
     /\ (v == inject_Z n / inject_Z 10)%Q
     /\ (ratio (totalAttended halves) (totalClasses halves) - (1 # 20) <= v)%Q
     /\ (v <= ratio (totalAttended halves) (totalClasses halves) + (1 # 20))%Q
     /\ (inject_Z (100 * totalAttended halves) / inject_Z (totalClasses halves)
           * ((1 - u) * (1 - u))
         <= ratio (totalAttended halves) (totalClasses halves))%Q
     /\ (ratio (totalAttended halves) (totalClasses halves)
         <= inject_Z (100 * totalAttended halves) / inject_Z (totalClasses halves)
            * ((1 + u) * (1 + u)))%Q)
  /\ (reduce64 total_classes [tight] == inject_Z (totalClasses [tight]))%Q
  /\ overallPercentage [not_started] = VNum 0.
Proof.
  split; [|split].
  - apply (aggregate_totals_and_overall halves).
    + repeat constructor; cbn; lia.
    + vm_compute. discriminate.
    + vm_compute. discriminate.
    + reflexivity.
  - apply (aggregate_totals_and_overall [tight]).
    + repeat constructor; cbn; lia.
    + vm_compute. discriminate.
    + vm_compute. discriminate.
  - apply (aggregate_totals_and_overall [not_started]).
    + repeat constructor; cbn; lia.
    + vm_compute. discriminate.
    + vm_compute. discriminate.
    + reflexivity.
Defined.



(** The rounding of the model is that of IEEE-754 binary64 as [SpecFloat]
    defines it: on the scenario and on the counts above both print the
    same text. *)
Remark ratio_on_binary64 :
  Binary64.overall_text (totalAttended scenario) (totalClasses scenario)
  = Some (show_overall scenario)
  /\ Binary64.overall_text (totalAttended [tight]) (totalClasses [tight])
     = Some (show_overall [tight])
  /\ Binary64.overall_text (totalAttended halves) (totalClasses halves)
     = Some (show_overall halves)
  /\ option_map Qred
       (Binary64.to_Q (Binary64.percent (totalAttended halves) (totalClasses halves)))
     = Some (Qred (ratio (totalAttended halves) (totalClasses halves))).
Proof. repeat split; vm_compute; reflexivity. Qed.

End AttendanceProps.

(** ** Chat component *)

Module ChatProps.

Import JS Http Chat.
Local Open Scope string_scope.

Lemma truthy_false_iff (s : string) : truthy s = false <-> s = "".
Proof.
  unfold truthy. rewrite negb_false_iff. apply String.eqb_eq.
Qed.

Lemma truthy_true_iff (s : string) : truthy s = true <-> s <> "".
Proof.
  unfold truthy. rewrite negb_true_iff. apply String.eqb_neq.
Qed.

Lemma trimStart_step (s : string) :
  trimStart s = match after_whitespace s with
                | Some r => trimStart r
                | None => s
                end.
Proof.
  destruct s as [|c1 s1]; [reflexivity|]. cbn [trimStart after_whitespace].
  destruct (is_whitespace1 c1); [reflexivity|].
  destruct s1 as [|c2 s2]; [reflexivity|].
  destruct (is_whitespace2 c1 c2); [reflexivity|].
  destruct s2 as [|c3 s3]; [reflexivity|].
  destruct (is_whitespace3 c1 c2 c3); reflexivity.
Qed.

Lemma after_whitespace_shorter (s r : string) :
  after_whitespace s = Some r -> (String.length r < String.length s)%nat.
Proof.
  destruct s as [|c1 [|c2 [|c3 s3]]]; cbn [after_whitespace];
    repeat match goal with
           | |- context [if ?b then _ else _] => destruct b
           end; intro H; try discriminate; injection H as <-; cbn; lia.
Qed.

Lemma trimStart_idempotent (s : string) : trimStart (trimStart s) = trimStart s.
Proof.
  remember (String.length s) as n eqn:Hn. revert s Hn.
  induction n as [n IH] using lt_wf_ind. intros s ->.
  rewrite (trimStart_step s).
  destruct (after_whitespace s) as [r|] eqn:E.
  - apply (IH (String.length r)); [|reflexivity].
    apply after_whitespace_shorter, E.
  - rewrite (trimStart_step s), E. reflexivity.
Qed.

(** The trimmed text is empty exactly when nothing is left after the
    leading white space. *)
Lemma trim_empty_iff (s : string) : trim s = "" <-> trimStart s = "".
Proof.
  unfold trim. split.
  - pose proof (trimStart_idempotent s) as Hi.
    destruct (trimStart s) as [|c t]; [reflexivity|].
    cbn [trimEnd]. rewrite Hi. cbn. discriminate.
  - intros ->. reflexivity.
Qed.

Lemma trimStart_white_space (w s : string) :
  In w white_space -> trimStart (w ++ s) = trimStart s.
Proof.
  unfold white_space. cbn [In]. intro H.
  repeat (destruct H as [<-|H]; [reflexivity|]). contradiction.
Qed.

(** A text made of white space only is empty once trimmed. *)
Lemma blank_trim (s : string) : blank s -> trim s = "".
Proof.
  intros [ws [Hws ->]]. apply trim_empty_iff.
  induction Hws as [|w ws Hw _ IH]; [reflexivity|].
  cbn [join fold_right]. rewrite (trimStart_white_space w _ Hw). exact IH.
Qed.

Ltac ws_member := cbn [In white_space]; repeat (first [left; reflexivity | right]).

Lemma after_whitespace_inv (s r : string) :
  after_whitespace s = Some r ->
  exists w, In w white_space /\ s = w ++ r.
Proof.
  intro H. destruct s as [|c1 s1]; [discriminate|].
  destruct c1 as [[] [] [] [] [] [] [] []]; cbn in H;
    try (injection H as <-;
         match goal with
         | |- exists w, _ /\ String ?c _ = _ => exists (String c "")
         end; split; [solve [ws_member]|reflexivity]);
    (destruct s1 as [|c2 [|c3 s3]]; try discriminate H);
    (destruct c2 as [[] [] [] [] [] [] [] []]; cbn in H; try discriminate H);
    try (injection H as <-;
         match goal with
         | |- exists w, _ /\ String ?c (String ?d _) = _ => exists (String c (String d ""))
         end; split; [solve [ws_member]|reflexivity]);
    (destruct c3 as [[] [] [] [] [] [] [] []]; cbn in H; try discriminate H);
    (injection H as <-;
     match goal with
     | |- exists w, _ /\ String ?c (String ?d (String ?e _)) = _ =>
         exists (String c (String d (String e "")))
     end; split; [solve [ws_member]|reflexivity]).
Qed.

(** ... and conversely. *)
Lemma trimStart_empty_blank (s : string) : trimStart s = "" -> blank s.
Proof.
  remember (String.length s) as n eqn:Hn. revert s Hn.
  induction n as [n IH] using lt_wf_ind. intros s -> H.
  rewrite trimStart_step in H.
  destruct (after_whitespace s) as [r|] eqn:E.
  - destruct (after_whitespace_inv s r E) as [w [Hw ->]].
    destruct (IH (String.length r) (after_whitespace_shorter _ _ E) r eq_refl H)
      as [ws [Hws ->]].
    exists (w :: ws). split; [constructor; assumption|reflexivity].
  - subst s. exists []. split; [constructor|reflexivity].
Qed.

Lemma sendMessage_settle_appends (o : outcome ChatData) (st st' : State) :
  sendMessage_settle o st = Some st' ->
  exists m,
    st' = {| messages := (messages st ++ [m])%list; input := input st;
             loading := false |}
    /\ role m = assistant.
Proof.
  destruct o as [|status [| |d]]; cbn; intro H; try discriminate;
    injection H as <-; eexists; split; reflexivity.
Qed.


Lemma fetchAttendance_settle_appends
    (o : outcome Attendance.AttendanceData) (st : State) :
  exists m,
    fetchAttendance_settle o st
    = {| messages := (messages st ++ [m])%list; input := input st;
         loading := false |}
    /\ role m = assistant.
Proof.
  destruct o as [|status [| |d]]; try (eexists; split; reflexivity).
  unfold fetchAttendance_settle.
  destruct (Attendance.attendance d) as [l|]; [|eexists; split; reflexivity].
  destruct (gt0 (Z.of_nat (List.length l))); eexists; split; reflexivity.
Qed.

Section WithToken.

Variable token : string.

Lemma sendMessage_start_empty (txt : string) (st : State) :
  trim txt = "" -> sendMessage_start token txt st = (st, None).
Proof.
  intro H. unfold sendMessage_start.
  apply truthy_false_iff in H. rewrite H. reflexivity.
Qed.

Lemma sendMessage_start_nonempty (txt : string) (st : State) :
  trim txt <> "" ->
  sendMessage_start token txt st =
    ({| messages := messages st ++ [plain user txt]; input := "";
        loading := true |},
     Some (PostChat token (messages st ++ [plain user txt]))).
Proof.
  intro H. unfold sendMessage_start.
  apply truthy_true_iff in H. rewrite H. reflexivity.
Qed.

Lemma app_not_nil {A : Type} (l : list A) (a : A) : (l ++ [a])%list <> [].
Proof. destruct l; discriminate. Qed.

Lemma sendMessage_start_consistent (txt : string) (st : State) :
  loading st = false ->
  consistent {| ui := fst (sendMessage_start token txt st);
                inflight := issued (snd (sendMessage_start token txt st)) |}.
Proof.
  intro Hl. destruct (string_dec (trim txt) "") as [H|H].
  - rewrite (sendMessage_start_empty _ _ H). right. split; [exact Hl|reflexivity].
  - rewrite (sendMessage_start_nonempty _ _ H). left. simpl.
    split; [reflexivity|]. split; [reflexivity|apply app_not_nil].
Qed.

Lemma busy_dispatch (e : Event) (st : State) :
  loading st = true -> messages st <> [] -> dispatch token e st = (st, None).
Proof.
  intros Hl Hm. destruct e as [|idx|s]; simpl.
  - unfold submit_disabled. rewrite Hl. reflexivity.
  - unfold prompts_rendered. destruct (messages st); [congruence|reflexivity].
  - unfold input_disabled. rewrite Hl. reflexivity.
Qed.

Lemma dispatch_consistent (e : Event) (st : State) :
  loading st = false ->
  consistent {| ui := fst (dispatch token e st);
                inflight := issued (snd (dispatch token e st)) |}.
Proof.
  intro Hl. destruct e as [|idx|s]; simpl.
  - destruct (submit_disabled st).
    + right. split; [exact Hl|reflexivity].
    + apply sendMessage_start_consistent; exact Hl.
  - destruct (prompts_rendered st); [|right; split; [exact Hl|reflexivity]].
    destruct (nth_error suggestedPrompts idx) as [p|];
      [|right; split; [exact Hl|reflexivity]].
    unfold handlePromptClick.
    destruct (String.eqb (action p) "attendance").
    + left. simpl. split; [reflexivity|]. split; [reflexivity|apply app_not_nil].
    + apply sendMessage_start_consistent; exact Hl.
  - unfold input_disabled. rewrite Hl. right. split; [exact Hl|reflexivity].
Qed.

Lemma singleton_split {A : Type} (before after : list A) (x : A) (l : list A) :
  l = (before ++ x :: after)%list -> List.length l = 1%nat ->
  (before ++ after)%list = [].
Proof.
  intros -> H. rewrite length_app in H. simpl in H.
  destruct before; destruct after; simpl in *; try lia; reflexivity.
Qed.

Lemma step_consistent (c c' : Config) :
  step token c c' -> consistent c -> consistent c'.
Proof.
  intros Hs Hc.
  destruct Hs as [c e|c before after b body o st' Hin Hst|c before after b o Hin].
  - destruct Hc as [[Hl [Hlen Hm]]|[Hl Hnil]].
    + rewrite (busy_dispatch e _ Hl Hm). simpl. rewrite app_nil_r.
      left. auto.
    + rewrite Hnil. simpl. apply dispatch_consistent; exact Hl.
  - destruct Hc as [[Hl [Hlen Hm]]|[Hl Hnil]].
    + destruct (sendMessage_settle_appends _ _ _ Hst) as [m [-> _]].
      right. simpl. split; [reflexivity|].
      eapply singleton_split; eassumption.
    + rewrite Hnil in Hin. destruct before; discriminate.
  - destruct Hc as [[Hl [Hlen Hm]]|[Hl Hnil]].
    + right. simpl. split; [reflexivity|].
      eapply singleton_split; eassumption.
    + rewrite Hnil in Hin. destruct before; discriminate.
Qed.

Lemma reachable_consistent (c : Config) : reachable token c -> consistent c.
Proof.
  induction 1 as [|c c' _ IH Hs].
  - right. split; reflexivity.
  - exact (step_consistent _ _ Hs IH).
Qed.

End WithToken.


(** The handlers themselves do not read [loading]: called on a busy
    state with a non-blank text, [sendMessage] appends and issues. *)
Remark sendMessage_does_not_read_loading (token txt : string) (st : State) :
  trim txt <> "" ->
  snd (sendMessage_start token txt (setLoading true st))
  = Some (PostChat token (messages st ++ [plain user txt])%list).
Proof.
  intro H. rewrite (sendMessage_start_nonempty _ _ _ H). reflexivity.
Qed.

(** C1.  In every state of the conversation that is reached from the
    start by events of the rendered controls and by completions of
    requests, and in which a chat or attendance request is in flight, a
    submission (the form, or a suggested prompt) is a no-op: the component
    state, and so the transcript, is unchanged and no request is issued;
    at most one request is in flight. *)
Theorem no_submission_while_sending (token : string) (c : Config) (e : Event) :
  reachable token c -> sending c -> is_submission e = true ->
  dispatch token e (ui c) = (ui c, None)
  /\ (List.length (inflight c) <= 1)%nat.
Proof.
  intros Hr Hs _. destruct (reachable_consistent token c Hr) as [[Hl [Hlen Hm]]|[_ Hnil]].
  - split; [apply busy_dispatch; assumption|lia].
  - contradiction.
Qed.

Lemma no_submission_while_sending_witness :
  dispatch "abc" Submit (ui (after_prompt "abc")) = (ui (after_prompt "abc"), None)
  /\ (List.length (inflight (after_prompt "abc")) <= 1)%nat.
Proof.
  apply (no_submission_while_sending "abc" (after_prompt "abc") Submit).
  - eapply reach_step; [apply reach_start|].
    apply (step_event "abc" start (ClickPrompt 0)).
  - discriminate.
  - reflexivity.
Defined.



(** C7 as stated fails.  A response with an error status and an object
    body takes the path of a success: the text of a 500 with a [reply] is
    appended as it is, and a 500 without one appends the placeholder, not
    the text of a network error; no single text is appended on every
    failed request. *)
Lemma failed_request_text_is_not_fixed :
  is_failure (Responded 500 (BodyObject error_body)) = true
  /\ is_failure (Responded 500 (BodyObject error_with_reply)) = true
  /\ option_map messages
       (sendMessage_settle (Responded 500 (BodyObject error_with_reply)) init)
     = Some [ {| role := assistant; content := "Internal Server Error";
                 sources := Some []; actions := Some [];
                 attendanceData := None |} ]
  /\ ~ (exists fixed : string,
          forall o : outcome ChatData, is_failure o = true ->
            exists m, option_map messages (sendMessage_settle o init) = Some [m]
                      /\ content m = fixed).
Proof.
  split; [reflexivity|]. split; [reflexivity|]. split; [reflexivity|].
  intros [fixed H].
  destruct (H Rejected eq_refl) as [m1 [H1 Hc1]].
  destruct (H (Responded 500 (BodyObject error_body)) eq_refl) as [m2 [H2 Hc2]].
  injection H1 as <-. injection H2 as <-.
  simpl in Hc1, Hc2. rewrite <- Hc1 in Hc2. discriminate.
Qed.

(** C7, amended.  For every failed chat request (no response, or a
    response with a status outside 2xx) whose body is not JSON [null],
    the continuation leaves a state: exactly one assistant message is
    appended and the busy flag is cleared.  When the request or the
    decoding of its response throws (no response, a body that is not
    JSON) the message is the fixed text [chat_error]; a response with an
    object body appends its reply or, without one, the fixed
    placeholder, with the sources and actions of the body. *)
Theorem failed_request_appends_one_message (o : outcome ChatData) (st : State) :
  is_failure o = true -> null_body o = false ->
  exists m,
    sendMessage_settle o st
    = Some {| messages := (messages st ++ [m])%list; input := input st;
              loading := false |}
    /\ role m = assistant
    /\ (throws o = true -> m = plain assistant chat_error)
    /\ (forall status d, o = Responded status (BodyObject d) ->
          m = {| role := assistant;
                 content := or_else_string (reply d) placeholder;
                 sources := Some (or_else_array (data_sources d) []);
                 actions := Some (or_else_array (data_actions d) []);
                 attendanceData := None |})
    /\ (throws o = true \/ exists status d, o = Responded status (BodyObject d)).
Proof.
  intros _ Hn.
  destruct o as [|status [| |d]]; try discriminate; eexists;
    (split; [reflexivity|]); (split; [reflexivity|]);
    (split; [|split]); try reflexivity; try discriminate.
  - left. reflexivity.
  - left. reflexivity.
  - intros status' d' H. injection H as _ <-. reflexivity.
  - right. exists status, d. reflexivity.
Qed.

Lemma failed_request_appends_one_message_witness :
  (exists m,
     sendMessage_settle Rejected init
     = Some {| messages := [m]; input := ""; loading := false |}
     /\ m = plain assistant chat_error)
  /\ (exists m,
        sendMessage_settle (Responded 500 (BodyObject error_body)) init
        = Some {| messages := [m]; input := ""; loading := false |}
        /\ content m = placeholder).
Proof.
  split.
  - destruct (failed_request_appends_one_message Rejected init eq_refl eq_refl)
      as [m [Hm [_ [Ht _]]]].
    exists m. split; [exact Hm|]. apply Ht. reflexivity.
  - destruct (failed_request_appends_one_message
                (Responded 500 (BodyObject error_body)) init eq_refl eq_refl)
      as [m [Hm [_ [_ [Hb _]]]]].
    exists m. split; [exact Hm|]. rewrite (Hb 500 error_body eq_refl). reflexivity.
Defined.

(** A [null] body is outside what the handler foresees: no state is
    left, whatever the status. *)
Remark null_body_unmounts (status : Z) (st : State) :
  sendMessage_settle (Responded status BodyNull) st = None.
Proof. reflexivity. Qed.

(** C8.  For every text whose trimmed form is empty, [sendMessage]
    returns the component state unchanged and issues no request (and the
    form, submitted with such an input, does the same); the trimmed form
    is empty exactly for the texts made of white space only (TAB, LF, VT,
    FF, CR, SP, U+00A0, U+1680, U+2000 to U+200A, U+2028, U+2029, U+202F,
    U+205F, U+3000, U+FEFF); whenever a chat request is issued the
    trimmed text is not empty, the user message has been appended, and
    the request carries the whole transcript with that message. *)
Theorem blank_text_is_not_submitted (token txt : string) (st : State) :
  (trim txt = "" -> sendMessage_start token txt st = (st, None))
  /\ (blank txt <-> trim txt = "")
  /\ (forall st' r, sendMessage_start token txt st = (st', Some r) ->
        trim txt <> ""
        /\ messages st' = (messages st ++ [plain user txt])%list
        /\ r = PostChat token (messages st')
        /\ loading st' = true)
  /\ (trim (input st) = "" -> dispatch token Submit st = (st, None)).
Proof.
  split; [apply sendMessage_start_empty|]. split; [|split].
  - split; [apply blank_trim|].
    intro H. apply trimStart_empty_blank, trim_empty_iff, H.
  - intros st' r H. destruct (string_dec (trim txt) "") as [He|Hne].
    + rewrite (sendMessage_start_empty _ _ _ He) in H. discriminate.
    + rewrite (sendMessage_start_nonempty _ _ _ Hne) in H.
      injection H as <- <-. repeat split; [exact Hne].
  - intro H. simpl. destruct (submit_disabled st); [reflexivity|].
    apply sendMessage_start_empty; exact H.
Qed.

Lemma blank_text_is_not_submitted_witness :
  sendMessage_start "abc" "   " init = (init, None)
  /\ sendMessage_start "abc" no_break_spaces init = (init, None)
  /\ trim wide_blank = ""
  /\ blank no_break_spaces
  /\ dispatch "abc" Submit init = (init, None)
  /\ (trim "hi" <> ""
      /\ messages (fst (sendMessage_start "abc" "hi" init))
         = ([] ++ [plain user "hi"])%list
      /\ PostChat "abc" [plain user "hi"]
         = PostChat "abc" (messages (fst (sendMessage_start "abc" "hi" init)))
      /\ loading (fst (sendMessage_start "abc" "hi" init)) = true).
Proof.
  split; [|split; [|split; [|split; [|split]]]].
  - apply (blank_text_is_not_submitted "abc" "   " init). reflexivity.
  - apply (blank_text_is_not_submitted "abc" no_break_spaces init). reflexivity.
  - apply (blank_text_is_not_submitted "abc" wide_blank init).
    exists [String "227" (String "128" (String "128" ""));
            String "239" (String "187" (String "191" ""));
            String "009" ""]%char.
    split; [|reflexivity].
    repeat constructor; cbn; tauto.
  - apply (blank_text_is_not_submitted "abc" no_break_spaces init). reflexivity.
  - apply (blank_text_is_not_submitted "abc" "   " init). reflexivity.
  - apply (blank_text_is_not_submitted "abc" "hi" init). reflexivity.
Defined.

End ChatProps.

(** ** Session *)

Module SessionProps.
Import JS Http Session.
Local Open Scope string_scope.




End SessionProps.

(** ** Pages *)

Module PagesProps.
Import JS JSFacts Attendance Pages.
Local Open Scope string_scope.

Lemma Qpower_succ (a : Q) (k : nat) :
  ~ (a == 0)%Q ->
  (Qpower a (Z.of_nat (S k)) == a * Qpower a (Z.of_nat k))%Q.
Proof.
  intro Ha. rewrite Nat2Z.inj_succ. unfold Z.succ.
  rewrite Qpower_plus by exact Ha. change (Qpower a 1) with a. ring.
Qed.

Lemma down_power (k : nat) :
  (0 < Qpower (1 - u) (Z.of_nat k))%Q /\ (Qpower (1 - u) (Z.of_nat k) <= 1)%Q.
Proof.
  destruct u_range as [H0 H1].
  induction k as [|k [I0 I1]].
  - split; [reflexivity|apply Qle_refl].
  - rewrite Qpower_succ by (intro E; lra).
    set (a := Qpower (1 - u) (Z.of_nat k)) in *. split; nra.
Qed.

Lemma up_power (k : nat) : (1 <= Qpower (1 + u) (Z.of_nat k))%Q.
Proof.
  destruct u_range as [H0 H1].
  induction k as [|k IH].
  - discriminate.
  - rewrite Qpower_succ by (intro E; lra).
    set (a := Qpower (1 + u) (Z.of_nat k)) in *. nra.
Qed.

Lemma ordinary_nonneg (p : Q) : ordinary p -> (0 <= p)%Q.
Proof.
  intros [E|[H _]]; [rewrite E; discriminate|].
  pose proof (pow2_pos (-990)). lra.
Qed.

(** One addition of the reduce: the running sum stays zero or of
    ordinary magnitude, and the relative error grows by one rounding. *)
Lemma add64_step (acc p S : Q) (k : nat) :
  ordinary p -> (0 <= S)%Q ->
  (acc == 0 \/ pow2 (-990) <= acc)%Q ->
  (S * Qpower (1 - u) (Z.of_nat k) <= acc)%Q ->
  (acc <= S * Qpower (1 + u) (Z.of_nat k))%Q ->
  (add64 acc p == 0 \/ pow2 (-990) <= add64 acc p)%Q
  /\ ((S + p) * Qpower (1 - u) (Z.of_nat (Datatypes.S k)) <= add64 acc p)%Q
  /\ (add64 acc p <= (S + p) * Qpower (1 + u) (Z.of_nat (Datatypes.S k)))%Q.
Proof.
  intros Hp HS Hacc Hlo Hhi.
  destruct u_range as [U0 U1].
  pose proof (ordinary_nonneg p Hp) as Hp0.
  pose proof (pow2_pos (-990)) as Hpos.
  destruct (down_power k) as [A0 A1]. pose proof (up_power k) as B1.
  rewrite !Qpower_succ by (intro E; lra).
  set (a := Qpower (1 - u) (Z.of_nat k)) in *.
  set (b := Qpower (1 + u) (Z.of_nat k)) in *.
  assert (Hacc0 : (0 <= acc)%Q) by (destruct Hacc as [E|E]; [rewrite E|]; lra).
  unfold add64.
  assert (Hq : (acc + p == 0 \/ inject_Z 1 * pow2 (-990) <= acc + p)%Q).
  { change (inject_Z 1) with 1%Q.
    destruct Hacc as [E|E]; [|right; lra].
    destruct Hp as [F|[F _]]; [left; rewrite E, F; reflexivity|right; lra]. }
  assert (Hn : (acc + p == 0 \/ pow2 (-1022) <= acc + p)%Q).
  { destruct Hq as [E|E]; [left; exact E|right].
    eapply Qle_trans; [|exact E]. change (inject_Z 1) with 1%Q.
    apply Qle_trans with (pow2 (-990)); [apply pow2_le; lia|lra]. }
  destruct (fl_error _ Hn) as [E1 E2].
  split; [|split].
  - destruct Hq as [E|E]; [left; rewrite (fl_zero _ E); reflexivity|right].
    apply (fl_ge_dyadic _ 1 (-990)) in E; [|lia|lia].
    change (inject_Z 1) with 1%Q in E. lra.
  - eapply Qle_trans; [|exact E1].
    setoid_replace ((S + p) * ((1 - u) * a))%Q with ((S * a + p * a) * (1 - u))%Q by ring.
    apply Qmult_le_compat_r; [|lra].
    assert (p * a <= p)%Q by nra. lra.
  - eapply Qle_trans; [exact E2|].
    setoid_replace ((S + p) * ((1 + u) * b))%Q with ((S * b + p * b) * (1 + u))%Q by ring.
    apply Qmult_le_compat_r; [|lra].
    assert (p <= p * b)%Q by nra. lra.
Qed.

Lemma sum_percentage_from (l : list AttendanceRecord) (acc S : Q) (k : nat) :
  Forall (fun r => ordinary (percentage r)) l ->
  (0 <= S)%Q ->
  (acc == 0 \/ pow2 (-990) <= acc)%Q ->
  (S * Qpower (1 - u) (Z.of_nat k) <= acc)%Q ->
  (acc <= S * Qpower (1 + u) (Z.of_nat k))%Q ->
  let s := fold_left (fun sum r => add64 sum (percentage r)) l acc in
  let n := (k + List.length l)%nat in
  (s == 0 \/ pow2 (-990) <= s)%Q
  /\ ((S + Qsum (map percentage l)) * Qpower (1 - u) (Z.of_nat n) <= s)%Q
  /\ (s <= (S + Qsum (map percentage l)) * Qpower (1 + u) (Z.of_nat n))%Q.
Proof.
  intro Hl. revert acc S k.
  induction Hl as [|r l Hr Hl IH]; intros acc S k HS Hacc Hlo Hhi;
    cbn [fold_left map Qsum fold_right List.length].
  - rewrite Nat.add_0_r, Qplus_0_r. auto.
  - destruct (add64_step acc (percentage r) S k Hr HS Hacc Hlo Hhi)
      as [H1 [H2 H3]].
    assert (HS' : (0 <= S + percentage r)%Q).
    { pose proof (ordinary_nonneg _ Hr). lra. }
    specialize (IH _ _ _ HS' H1 H2 H3). cbv zeta in IH.
    replace (k + Datatypes.S (List.length l))%nat
      with (Datatypes.S k + List.length l)%nat by lia.
    unfold Qsum in IH.
    destruct IH as [I1 [I2 I3]]. split; [exact I1|].
    split.
    + eapply Qle_trans; [|exact I2]. apply Qmult_le_compat_r.
      * ring_simplify. apply Qle_refl.
      * apply Qlt_le_weak, down_power.
    + eapply Qle_trans; [exact I3|]. apply Qmult_le_compat_r.
      * ring_simplify. apply Qle_refl.
      * pose proof (up_power (Datatypes.S k + List.length l)). lra.
Qed.

(** The average of the pages is the mean of the percentages up to the
    roundings of the additions and of the division. *)
Lemma average_error (l : list AttendanceRecord) :
  l <> [] -> Z.of_nat (List.length l) < 2 ^ 32 ->
  Forall (fun r => ordinary (percentage r)) l ->
  let n := List.length l in
  let mean := (Qsum (map percentage l) / inject_Z (Z.of_nat n))%Q in
  let avg := div64 (sum_percentage l) (inject_Z (Z.of_nat n)) in
  (mean * Qpower (1 - u) (Z.of_nat (S n)) <= avg)%Q
  /\ (avg <= mean * Qpower (1 + u) (Z.of_nat (S n)))%Q.
Proof.
  intros Hne Hlen Hl n mean avg.
  destruct u_range as [U0 U1].
  assert (Hs := sum_percentage_from l 0 0 0 Hl (Qle_refl 0) (or_introl (Qeq_refl 0))).
  cbv zeta in Hs. cbn [Nat.add] in Hs.
  destruct Hs as [S1 [S2 S3]]; [cbn; lra|cbn; lra|].
  fold (sum_percentage l) in S1, S2, S3. fold n in S2, S3.
  rewrite Qplus_0_l in S2, S3.
  assert (Hn1 : 1 <= Z.of_nat n) by (unfold n; destruct l; [congruence|cbn; lia]).
  set (N := inject_Z (Z.of_nat n)) in *.
  assert (HN1 : (1 <= N)%Q) by (unfold N; change 1%Q with (inject_Z 1); rewrite <- Zle_Qle; exact Hn1).
  assert (HN2 : (N <= inject_Z (2 ^ 32))%Q) by (unfold N; rewrite <- Zle_Qle; fold n in Hlen; lia).
  assert (Hi0 : (0 < / N)%Q) by (apply Qinv_lt_0_compat; lra).
  assert (HiN : (N * / N == 1)%Q) by (apply Qmult_inv_r; intro E; lra).
  destruct (down_power n) as [A0 A1]. pose proof (up_power n) as B1.
  rewrite !Qpower_succ by (intro E; lra).
  set (a := Qpower (1 - u) (Z.of_nat n)) in *.
  set (b := Qpower (1 + u) (Z.of_nat n)) in *.
  set (s := sum_percentage l) in *. set (T := Qsum (map percentage l)) in *.
  assert (Hq : (s / N == 0 \/ pow2 (-1022) <= s / N)%Q).
  { destruct S1 as [E|E]; [left; rewrite E; unfold Qdiv; ring|right].
    unfold Qdiv.
    assert (Hi : (pow2 (-32) <= / N)%Q).
    { apply (Qmult_le_l _ _ N); [lra|]. rewrite HiN.
      apply Qle_trans with (inject_Z (2 ^ 32) * pow2 (-32))%Q; [|discriminate].
      apply Qmult_le_compat_r; [exact HN2|apply Qlt_le_weak, pow2_pos]. }
    setoid_replace (pow2 (-1022)) with (pow2 (-990) * pow2 (-32))%Q
      by (rewrite <- pow2_add; reflexivity).
    pose proof (pow2_pos (-990)). pose proof (pow2_pos (-32)).
    apply Qle_trans with (s * pow2 (-32))%Q.
    - apply Qmult_le_compat_r; lra.
    - apply Qmult_le_l; lra. }
  destruct (fl_error _ Hq) as [E1 E2]. fold (div64 s N) in E1, E2. fold avg in E1, E2.
  unfold mean. unfold Qdiv in *. split.
  - eapply Qle_trans; [|exact E1].
    setoid_replace (T * / N * ((1 - u) * a))%Q with ((T * a) * (/ N * (1 - u)))%Q by ring.
    setoid_replace (s * / N * (1 - u))%Q with (s * (/ N * (1 - u)))%Q by ring.
    apply Qmult_le_compat_r; [exact S2|]. nra.
  - eapply Qle_trans; [exact E2|].
    setoid_replace (T * / N * ((1 + u) * b))%Q with ((T * b) * (/ N * (1 + u)))%Q by ring.
    setoid_replace (s * / N * (1 + u))%Q with (s * (/ N * (1 + u)))%Q by ring.
    apply Qmult_le_compat_r; [exact S3|]. nra.
Qed.

Lemma records_of_nonempty (l : list AttendanceRecord) :
  l <> [] -> records_of (Some {| attendance := Some l |}) = Some l.
Proof.
  intro H. destruct l as [|r l]; [congruence|]. reflexivity.
Qed.

Lemma due_is_zero_iff (f : FeeStatus) :
  due_is_zero (Some f) = true <-> (due f == 0)%Q.
Proof. apply Qeq_bool_iff. Qed.

Lemma due_or_zero_nonzero (f : FeeStatus) :
  due_is_zero (Some f) = false -> due_or_zero (Some f) = due f.
Proof. simpl. intros ->. reflexivity. Qed.

(** C9.  For every fee status: the profile page (and the fee card of the
    dashboard) shows paid in full exactly when [due] is 0, the fee page
    exactly when [due] is 0 or the status label is ["Paid"]; otherwise
    the outstanding balance shown is [due].  Fees [{total: 1000, paid:
    1000, due: 0}] are paid in full, and [{total: 1000, paid: 600, due:
    400}] are an outstanding balance of 400 (in the fee page, under a
    label other than ["Paid"]). *)
Theorem fee_banner_classification (f : FeeStatus) (label : string) :
  (ProfilePage.fee_banner (Some f) = PaidInFull <-> (due f == 0)%Q)
  /\ (DashboardPage.fee_card (Some f) = PaidInFull <-> (due f == 0)%Q)
  /\ (FeesPage.fee_banner (Some f) = PaidInFull
      <-> (due f == 0)%Q \/ status f = "Paid")
  /\ (forall b, ProfilePage.fee_banner (Some f) = Outstanding b -> b = due f)
  /\ (forall b, FeesPage.fee_banner (Some f) = Outstanding b -> b = due f)
  /\ ProfilePage.fee_banner (Some (fees_settled label)) = PaidInFull
  /\ FeesPage.fee_banner (Some (fees_settled label)) = PaidInFull
  /\ ProfilePage.fee_banner (Some (fees_owing label)) = Outstanding 400
  /\ (label <> "Paid" ->
      FeesPage.fee_banner (Some (fees_owing label)) = Outstanding 400).
Proof.
  pose proof (due_is_zero_iff f) as Hz.
  split; [|split; [|split; [|split; [|split]]]].
  - unfold ProfilePage.fee_banner. rewrite <- Hz.
    destruct (due_is_zero (Some f)); split; congruence.
  - unfold DashboardPage.fee_card. rewrite <- Hz. simpl.
    destruct (Qeq_bool (due f) 0); split; congruence.
  - unfold FeesPage.fee_banner, FeesPage.isPaid.
    rewrite <- Hz, <- String.eqb_eq, <- orb_true_iff.
    destruct (due_is_zero (Some f) || (status f =? "Paid")); split; congruence.
  - unfold ProfilePage.fee_banner. intros b.
    destruct (due_is_zero (Some f)) eqn:H; [discriminate|].
    rewrite (due_or_zero_nonzero f H). congruence.
  - unfold FeesPage.fee_banner, FeesPage.isPaid. intros b.
    destruct (due_is_zero (Some f)) eqn:H; [discriminate|].
    rewrite (due_or_zero_nonzero f H).
    destruct (status f =? "Paid"); simpl; congruence.
  - split; [reflexivity|]. split; [reflexivity|]. split; [reflexivity|].
    intro Hl. unfold FeesPage.fee_banner, FeesPage.isPaid.
    apply String.eqb_neq in Hl. simpl. rewrite Hl. reflexivity.
Qed.

Lemma fee_banner_classification_witness :
  FeesPage.fee_banner (Some (fees_owing "Pending")) = Outstanding 400
  /\ 400%Q = due (fees_owing "Pending").
Proof.
  split.
  - apply (fee_banner_classification (fees_owing "Pending") "Pending").
    discriminate.
  - apply (fee_banner_classification (fees_owing "Pending") "Pending").
    reflexivity.
Defined.

(** C10 as stated fails.  The sum and the quotient are rounded to
    binary64: three courses at 60.3 percent average to less than 60.3,
    their mean, on both pages. *)
Lemma average_is_not_the_exact_mean :
  Forall (fun r => percentage r = fl (603 # 10)) sixty
  /\ (Qsum (map percentage sixty) / inject_Z (Z.of_nat (List.length sixty))
      == fl (603 # 10))%Q
  /\ (DashboardPage.avgAttendance (Some {| attendance := Some sixty |})
      < fl (603 # 10))%Q
  /\ ~ (DashboardPage.avgAttendance (Some {| attendance := Some sixty |})
        == Qsum (map percentage sixty)
           / inject_Z (Z.of_nat (List.length sixty)))%Q
  /\ ~ (ProfilePage.avgAttendance (Some {| attendance := Some sixty |})
        == Qsum (map percentage sixty)
           / inject_Z (Z.of_nat (List.length sixty)))%Q.
Proof.
  split; [repeat constructor|]. split; [vm_compute; reflexivity|].
  split; [vm_compute; reflexivity|].
  split; intro H; vm_compute in H; discriminate H.
Qed.

(** C10, amended.  For every non-empty sequence of attendance records
    (fewer than [2^32], with percentages that are zero or of ordinary
    magnitude) the dashboard and the profile page compute the average
    attendance as the binary64 sum of the [percentage] fields divided by
    their count [n]: the unweighted mean [(sum of percentage) / n] up to
    rounding, within the factors [(1 - u)^(n+1)] and [(1 + u)^(n+1)] of
    it, [u = 2^-53]; for an empty or absent sequence it is 0.  On the
    scenario it is 62.5, where the overall percentage of the chat report
    is 66.7: the two differ. *)
Theorem average_attendance_is_unweighted_mean (l : list AttendanceRecord) :
  (l <> [] -> Z.of_nat (List.length l) < 2 ^ 32 ->
   Forall (fun r => ordinary (percentage r)) l ->
   (Qsum (map percentage l) / inject_Z (Z.of_nat (List.length l))
      * Qpower (1 - u) (Z.of_nat (S (List.length l)))
    <= DashboardPage.avgAttendance (Some {| attendance := Some l |}))%Q
   /\ (DashboardPage.avgAttendance (Some {| attendance := Some l |})
       <= Qsum (map percentage l) / inject_Z (Z.of_nat (List.length l))
          * Qpower (1 + u) (Z.of_nat (S (List.length l))))%Q
   /\ ProfilePage.avgAttendance (Some {| attendance := Some l |})
      = DashboardPage.avgAttendance (Some {| attendance := Some l |}))
  /\ DashboardPage.avgAttendance (Some {| attendance := Some [] |}) = 0%Q
  /\ DashboardPage.avgAttendance (Some {| attendance := None |}) = 0%Q
  /\ DashboardPage.avgAttendance None = 0%Q
  /\ ProfilePage.avgAttendance (Some {| attendance := Some [] |}) = 0%Q
  /\ ProfilePage.avgAttendance (Some {| attendance := None |}) = 0%Q
  /\ ProfilePage.avgAttendance None = 0%Q
  /\ (DashboardPage.avgAttendance (Some {| attendance := Some scenario |})
      == 125 # 2)%Q
  /\ DashboardPage.average_card (Some {| attendance := Some scenario |}) = "62.5%"
  /\ ProfilePage.average_shown (Some {| attendance := Some scenario |}) = "62.5%"
  /\ overallPercentage scenario = VStr "66.7"
  /\ toNumber (overallPercentage scenario) = Some (66 + 7 / 10)%Q
  /\ ~ (DashboardPage.avgAttendance (Some {| attendance := Some scenario |})
        == 667 # 10)%Q
  /\ ~ (DashboardPage.avgAttendance (Some {| attendance := Some scenario |})
        == inject_Z (100 * totalAttended scenario)
           / inject_Z (totalClasses scenario))%Q.
Proof.
  split.
  - intros Hne Hlen Hl.
    unfold DashboardPage.avgAttendance, ProfilePage.avgAttendance.
    rewrite (records_of_nonempty l Hne).
    destruct (average_error l Hne Hlen Hl) as [H1 H2].
    split; [exact H1|]. split; [exact H2|reflexivity].
  - repeat split; try (vm_compute; reflexivity);
      intro H; vm_compute in H; discriminate H.
Qed.

Lemma average_attendance_is_unweighted_mean_witness :
  (Qsum (map percentage sixty) / inject_Z (Z.of_nat (List.length sixty))
     * Qpower (1 - u) (Z.of_nat (S (List.length sixty)))
   <= DashboardPage.avgAttendance (Some {| attendance := Some sixty |}))%Q
  /\ (DashboardPage.avgAttendance (Some {| attendance := Some sixty |})
      <= Qsum (map percentage sixty) / inject_Z (Z.of_nat (List.length sixty))
         * Qpower (1 + u) (Z.of_nat (S (List.length sixty))))%Q
  /\ ProfilePage.avgAttendance (Some {| attendance := Some sixty |})
     = DashboardPage.avgAttendance (Some {| attendance := Some sixty |}).
Proof.
  apply (average_attendance_is_unweighted_mean sixty).
  - discriminate.
  - reflexivity.
  - assert (H : ordinary (fl (603 # 10)))
      by (right; split; vm_compute; discriminate).
    repeat (apply Forall_cons; [exact H|]). apply Forall_nil.
Defined.

End PagesProps.

Module MarkupProps.
Import JS Markup.
Local Open Scope string_scope.

Lemma split_lines_not_nil (s : string) : split_lines s <> [].
Proof.
  induction s as [|c s IH]; simpl; [discriminate|].
  destruct (Ascii.eqb c "010"); [discriminate|].
  destruct (split_lines s); [congruence|discriminate].
Qed.

Lemma split_lines_join (s : string) : String.concat nl (split_lines s) = s.
Proof.
  induction s as [|c s IH]; [reflexivity|].
  simpl. destruct (Ascii.eqb_spec c "010") as [->|Hc].
  - pose proof (split_lines_not_nil s) as Hn.
    destruct (split_lines s) as [|l ls] eqn:E; [congruence|].
    cbn [String.concat]. rewrite <- IH. reflexivity.
  - pose proof (split_lines_not_nil s) as Hn.
    destruct (split_lines s) as [|l ls] eqn:E; [congruence|].
    rewrite <- IH. destruct ls; reflexivity.
Qed.

Lemma split_lines_length (s : string) :
  List.length (split_lines s) = S (line_feeds s).
Proof.
  induction s as [|c s IH]; [reflexivity|].
  simpl. destruct (Ascii.eqb c "010"); simpl.
  - rewrite IH. reflexivity.
  - pose proof (split_lines_not_nil s) as Hn.
    destruct (split_lines s) as [|l ls] eqn:E; [congruence|].
    simpl in *. exact IH.
Qed.

Lemma find_close_shorter (s g r : string) :
  find_close s = Some (g, r) -> (String.length r < String.length s)%nat.
Proof.
  revert g r. induction s as [|c s IH]; intros g r H; [discriminate|].
  cbn [find_close] in H.
  destruct (after_stars (String c s)) as [rest|] eqn:Ha.
  - injection H as <- <-. unfold after_stars in Ha.
    destruct s as [|c2 rest']; [discriminate|].
    destruct (is_star c && is_star c2); [|discriminate].
    injection Ha as <-. simpl. lia.
  - destruct (at_line_terminator (String c s)); [discriminate|].
    destruct (find_close s) as [[g' r']|] eqn:Hf; [|discriminate].
    injection H as <- <-. specialize (IH _ _ eq_refl). simpl. lia.
Qed.

Lemma after_stars_shorter (s rest : string) :
  after_stars s = Some rest -> String.length s = S (S (String.length rest)).
Proof.
  unfold after_stars. destruct s as [|c1 [|c2 r]]; try discriminate.
  destruct (is_star c1 && is_star c2); [|discriminate].
  intros [= <-]. reflexivity.
Qed.

(** More fuel than the length changes nothing. *)
Lemma replace_bold_aux_fuel (n : nat) (s : string) :
  (String.length s <= n)%nat ->
  replace_bold_aux n s = replace_bold s.
Proof.
  unfold replace_bold.
  remember (String.length s) as k eqn:Hk.
  revert n s Hk. induction k as [k IH] using lt_wf_ind.
  intros n s Hk Hn. destruct s as [|c s].
  - subst k. destruct n; reflexivity.
  - simpl in Hk. subst k. destruct n as [|n]; [simpl in Hn; lia|].
    cbn [replace_bold_aux].
    destruct (after_stars (String c s)) as [rest|] eqn:Ha.
    + destruct (find_close rest) as [[g r]|] eqn:Hf.
      * pose proof (find_close_shorter _ _ _ Hf) as H1.
        pose proof (after_stars_shorter _ _ Ha) as H2. simpl in H2.
        rewrite (IH (String.length r)) with (n := n) (s := r);
          [|lia|reflexivity|simpl in Hn; lia].
        rewrite (IH (String.length r)) with (n := String.length s) (s := r);
          [reflexivity|lia|reflexivity|lia].
      * rewrite (IH (String.length s)) with (n := n) (s := s);
          [reflexivity|lia|reflexivity|simpl in Hn; lia].
    + rewrite (IH (String.length s)) with (n := n) (s := s);
        [reflexivity|lia|reflexivity|simpl in Hn; lia].
Qed.

Lemma replace_bold_cons (c : ascii) (s : string) :
  replace_bold (String c s)
  = match after_stars (String c s) with
    | Some rest =>
        match find_close rest with
        | Some (g, r) => strong_open ++ g ++ strong_close ++ replace_bold r
        | None => String c (replace_bold s)
        end
    | None => String c (replace_bold s)
    end.
Proof.
  unfold replace_bold at 1. cbn [String.length replace_bold_aux].
  destruct (after_stars (String c s)) as [rest|] eqn:Ha.
  - destruct (find_close rest) as [[g r]|] eqn:Hf.
    + pose proof (find_close_shorter _ _ _ Hf) as H1.
      pose proof (after_stars_shorter _ _ Ha) as H2. simpl in H2.
      rewrite replace_bold_aux_fuel by lia. reflexivity.
    + rewrite replace_bold_aux_fuel by lia. reflexivity.
  - rewrite replace_bold_aux_fuel by lia. reflexivity.
Qed.

Lemma after_stars_not_star (c : ascii) (s : string) :
  is_star c = false -> after_stars (String c s) = None.
Proof.
  intro H. unfold after_stars. destruct s; [reflexivity|].
  rewrite H. reflexivity.
Qed.

Lemma replace_bold_star_free (s : string) :
  star_free s = true -> replace_bold s = s.
Proof.
  induction s as [|c s IH]; [reflexivity|].
  simpl. intro H. apply andb_true_iff in H as [Hc Hs].
  apply negb_true_iff in Hc.
  rewrite replace_bold_cons, (after_stars_not_star _ _ Hc), (IH Hs).
  reflexivity.
Qed.

Lemma split_lines_star_free (s : string) :
  star_free s = true -> Forall (fun l => star_free l = true) (split_lines s).
Proof.
  induction s as [|c s IH]; simpl.
  - intros _. repeat constructor.
  - intro H. apply andb_true_iff in H as [Hc Hs]. specialize (IH Hs).
    destruct (Ascii.eqb c "010").
    + constructor; [reflexivity|exact IH].
    + destruct (split_lines s) as [|l ls].
      * repeat constructor. simpl. rewrite Hc. reflexivity.
      * inversion IH as [|? ? Hl Hls]; subst.
        constructor; [simpl; rewrite Hc, Hl; reflexivity|exact Hls].
Qed.

Lemma at_line_terminator_extend (c : ascii) (g rest : string) :
  at_line_terminator (String c g) = false ->
  at_line_terminator (String c (g ++ String "*" (String "*" rest))) = false.
Proof.
  destruct g as [|c1 [|c2 g]]; cbn [at_line_terminator append];
    intro H; apply orb_false_iff in H as [H1 H2]; rewrite H1;
    cbn [orb].
  - destruct (Ascii.eqb c "226"); reflexivity.
  - destruct (Ascii.eqb c "226"); [|reflexivity].
    cbn [andb]. change (Ascii.eqb "*" "168") with false.
    change (Ascii.eqb "*" "169") with false. apply andb_false_r.
  - exact H2.
Qed.

Lemma find_close_group (g rest : string) :
  star_free g = true -> one_line g = true ->
  find_close (g ++ String "*" (String "*" rest)) = Some (g, rest).
Proof.
  induction g as [|c g IH]; [reflexivity|].
  cbn [star_free one_line]. intros Hs Hl.
  apply andb_true_iff in Hs as [Hc Hs]. apply negb_true_iff in Hc.
  apply andb_true_iff in Hl as [Ht Hl]. apply negb_true_iff in Ht.
  cbn [append find_close].
  rewrite (after_stars_not_star _ _ Hc).
  rewrite (at_line_terminator_extend _ _ rest Ht).
  rewrite (IH Hs Hl). reflexivity.
Qed.

(** X1.  [formatMessage] gives no span for an empty content and, for any
    other content, one span per line: one more than the number of line
    feeds.  The lines, joined by line feeds, are the content. *)
Theorem formatMessage_one_span_per_line (content : string) :
  formatMessage EmptyString = []
  /\ (content <> EmptyString ->
      List.length (formatMessage content) = S (line_feeds content))
  /\ String.concat nl (split_lines content) = content.
Proof.
  split; [reflexivity|]. split; [|apply split_lines_join].
  intro H. unfold formatMessage.
  destruct content as [|c s]; [congruence|].
  cbn [truthy String.eqb negb]. rewrite length_map.
  apply split_lines_length.
Qed.

Lemma formatMessage_one_span_per_line_witness :
  List.length (formatMessage ("a" ++ nl ++ "b")) = S (line_feeds ("a" ++ nl ++ "b")).
Proof.
  apply (formatMessage_one_span_per_line ("a" ++ nl ++ "b")). discriminate.
Defined.

(** X2.  For a content without an asterisk the markup of the spans,
    joined by line feeds, is the content itself: [formatMessage] escapes
    nothing, so markup in a message reaches [dangerouslySetInnerHTML] as
    it was received. *)
Theorem formatMessage_keeps_markup (content : string) :
  star_free content = true ->
  String.concat nl (formatMessage content) = content.
Proof.
  intro H. unfold formatMessage.
  destruct (truthy content) eqn:Ht; cbn [negb].
  - rewrite <- (split_lines_join content) at 2. f_equal.
    pose proof (split_lines_star_free content H) as Hl.
    induction Hl as [|l ls Hl _ IH]; [reflexivity|].
    cbn [map]. rewrite (replace_bold_star_free l Hl), IH. reflexivity.
  - unfold truthy in Ht. apply negb_false_iff, String.eqb_eq in Ht.
    subst. reflexivity.
Qed.

Lemma formatMessage_keeps_markup_witness :
  String.concat nl (formatMessage "<img src=x onerror=alert(1)>")
  = "<img src=x onerror=alert(1)>".
Proof.
  apply (formatMessage_keeps_markup "<img src=x onerror=alert(1)>").
  reflexivity.
Defined.

(** X3.  In a line [a**g**rest], where [a] and [g] have no asterisk and
    [g] has no line terminator, the bold replacement keeps [a], wraps
    [g] in the [strong] element, and goes on with [rest]. *)
Theorem replace_bold_span (a g rest : string) :
  star_free a = true -> star_free g = true -> one_line g = true ->
  replace_bold (a ++ String "*" (String "*" (g ++ String "*" (String "*" rest))))
  = a ++ strong_open ++ g ++ strong_close ++ replace_bold rest.
Proof.
  intros Ha Hg Hl. induction a as [|c a IH].
  - cbn [append]. rewrite replace_bold_cons.
    change (after_stars
              (String "*" (String "*" (g ++ String "*" (String "*" rest)))))
      with (Some (g ++ String "*" (String "*" rest))).
    cbv beta iota. rewrite (find_close_group g rest Hg Hl). reflexivity.
  - cbn [star_free] in Ha. apply andb_true_iff in Ha as [Hc Ha].
    apply negb_true_iff in Hc. cbn [append].
    rewrite replace_bold_cons, (after_stars_not_star _ _ Hc), (IH Ha).
    reflexivity.
Qed.

Lemma replace_bold_span_witness :
  replace_bold ("a " ++ String "*" (String "*" ("b" ++ String "*" (String "*" " c"))))
  = "a " ++ strong_open ++ "b" ++ strong_close ++ replace_bold " c".
Proof.
  apply (replace_bold_span "a " "b" " c"); reflexivity.
Defined.

End MarkupProps.

Module TranscriptProps.
Import JS Http Chat Transcript ChatProps.
Local Open Scope string_scope.

Lemma alternates_app (first : Role) (l : list Message) (m : Message) :
  alternates first (l ++ [m])%list
  = alternates first l
    && role_eqb (role m) (if Nat.even (List.length l) then first else other first).
Proof.
  revert first. induction l as [|a l IH]; intro first.
  - simpl. rewrite andb_true_r. reflexivity.
  - cbn [alternates app List.length]. rewrite IH, andb_assoc. f_equal.
    rewrite Nat.even_succ, <- Nat.negb_even.
    destruct (Nat.even (List.length l)), first; reflexivity.
Qed.

(** What an event of the controls does to an idle component. *)
Lemma dispatch_idle (token : string) (e : Event) (st : State) :
  (messages (fst (dispatch token e st)) = messages st
   /\ loading (fst (dispatch token e st)) = loading st
   /\ snd (dispatch token e st) = None)
  \/ (exists txt r,
        messages (fst (dispatch token e st))
        = (messages st ++ [plain user txt])%list
        /\ loading (fst (dispatch token e st)) = true
        /\ snd (dispatch token e st) = Some r
        /\ carries token (fst (dispatch token e st)) r).
Proof.
  assert (Hsend : forall txt,
    (messages (fst (sendMessage_start token txt st)) = messages st
     /\ loading (fst (sendMessage_start token txt st)) = loading st
     /\ snd (sendMessage_start token txt st) = None)
    \/ (exists txt' r,
          messages (fst (sendMessage_start token txt st))
          = (messages st ++ [plain user txt'])%list
          /\ loading (fst (sendMessage_start token txt st)) = true
          /\ snd (sendMessage_start token txt st) = Some r
          /\ carries token (fst (sendMessage_start token txt st)) r)).
  { intro txt. destruct (string_dec (trim txt) "") as [H|H].
    - left. rewrite (sendMessage_start_empty _ _ _ H). auto.
    - right. rewrite (sendMessage_start_nonempty _ _ _ H).
      exists txt. eexists. repeat split. right. reflexivity. }
  destruct e as [|idx|s]; cbn [dispatch].
  - destruct (submit_disabled st); [left; auto|apply Hsend].
  - destruct (prompts_rendered st); [|left; auto].
    destruct (nth_error suggestedPrompts idx) as [p|]; [|left; auto].
    unfold handlePromptClick.
    destruct (String.eqb (action p) "attendance"); [|apply Hsend].
    right. exists "Show my attendance". eexists. repeat split.
    left. reflexivity.
  - destruct (input_disabled st); left; auto.
Qed.

(** A step appends at most one message and changes none. *)
Lemma step_appends (token : string) (c c' : Config) :
  step token c c' ->
  exists suffix,
    messages (ui c') = (messages (ui c) ++ suffix)%list
    /\ (List.length suffix <= 1)%nat.
Proof.
  intros [c0 e|c0 before after b body o st' Hin Hst|c0 before after b o Hin];
    cbn [ui].
  - destruct (dispatch_idle token e (ui c0)) as [[Hm _]|[txt [r [Hm _]]]].
    + exists []. rewrite Hm, app_nil_r. split; [reflexivity|simpl; lia].
    + exists [plain user txt]. split; [exact Hm|simpl; lia].
  - destruct (sendMessage_settle_appends o (ui c0) st' Hst) as [m [Hm _]].
    exists [m]. rewrite Hm. split; [reflexivity|simpl; lia].
  - destruct (fetchAttendance_settle_appends o (ui c0)) as [m [Hm _]].
    exists [m]. rewrite Hm. split; [reflexivity|simpl; lia].
Qed.

(** X4.  Whatever the events and completions, the transcript only
    grows: after any number of steps the old transcript is a prefix of
    the new one. *)
Theorem transcript_is_append_only (token : string) (c c' : Config) :
  steps token c c' ->
  exists suffix, messages (ui c') = (messages (ui c) ++ suffix)%list.
Proof.
  induction 1 as [c|c c' c'' _ [s1 IH] Hs].
  - exists []. rewrite app_nil_r. reflexivity.
  - destruct (step_appends token c' c'' Hs) as [s2 [H2 _]].
    exists (s1 ++ s2)%list. rewrite H2, IH, app_assoc. reflexivity.
Qed.

Lemma transcript_is_append_only_witness :
  exists suffix,
    messages (ui (after_prompt "abc")) = (messages (ui start) ++ suffix)%list.
Proof.
  apply (transcript_is_append_only "abc" start (after_prompt "abc")).
  eapply steps_step; [apply steps_refl|].
  apply (step_event "abc" start (ClickPrompt 0)).
Defined.


Lemma settle_shaped_chat (o : outcome ChatData) (st st' : State) :
  sendMessage_settle o st = Some st' ->
  exists m,
    st' = {| messages := (messages st ++ [m])%list; input := input st;
             loading := false |}
    /\ role m = assistant /\ shaped m.
Proof.
  destruct o as [|status [| |d]]; cbn; intro H; try discriminate;
    injection H as <-; eexists; repeat split; exact I.
Qed.

Lemma settle_shaped_attendance
    (o : outcome Attendance.AttendanceData) (st : State) :
  exists m,
    fetchAttendance_settle o st
    = {| messages := (messages st ++ [m])%list; input := input st;
         loading := false |}
    /\ role m = assistant /\ shaped m.
Proof.
  destruct o as [|status [| |d]];
    try (eexists; repeat split; exact I).
  unfold fetchAttendance_settle.
  destruct (Attendance.attendance d) as [l|];
    [|eexists; repeat split; exact I].
  destruct l as [|r l]; [eexists; repeat split; exact I|].
  eexists. split; [reflexivity|]. split; [reflexivity|].
  unfold shaped. cbn. repeat split. discriminate.
Qed.


Lemma settle_well_formed (token : string) (c : Config) (st' : State) (m : Message) :
  well_formed token c -> loading (ui c) = true ->
  st' = {| messages := (messages (ui c) ++ [m])%list; input := input (ui c);
           loading := false |} ->
  role m = assistant -> shaped m ->
  well_formed token {| ui := st'; inflight := [] |}.
Proof.
  intros [Ha [Hp [Hs _]]] Hl -> Hr Hm. unfold well_formed. cbn [ui inflight messages loading].
  rewrite Hl in Hp. cbn [negb] in Hp.
  split; [|split; [|split]].
  - rewrite alternates_app, Ha, Hp, Hr. reflexivity.
  - rewrite length_app, Nat.add_1_r, Nat.even_succ, <- Nat.negb_even, Hp.
    reflexivity.
  - apply Forall_app. split; [exact Hs|]. constructor; [exact Hm|constructor].
  - constructor.
Qed.

Lemma step_well_formed (token : string) (c c' : Config) :
  step token c c' -> consistent c -> well_formed token c ->
  well_formed token c'.
Proof.
  intros Hstep Hc Hw.
  destruct Hstep
    as [c e|c before after b body o st' Hin Hst|c before after b o Hin].
  - destruct Hc as [[Hl [Hlen Hm]]|[Hl Hnil]].
    + rewrite (busy_dispatch token e _ Hl Hm). cbn [fst snd issued].
      rewrite app_nil_r. destruct c; exact Hw.
    + rewrite Hnil. cbn [app].
      destruct Hw as [Ha [Hp [Hs _]]].
      rewrite Hl in Hp. cbn [negb] in Hp.
      destruct (dispatch_idle token e (ui c))
        as [[Hm [Hl' Hr]]|[txt [r [Hm [Hl' [Hr Hcar]]]]]];
        unfold well_formed; cbn [ui inflight]; rewrite Hr, Hm, Hl'.
      * rewrite Hl. cbn [negb issued]. repeat split; auto.
      * cbn [issued negb]. split; [|split; [|split]].
        -- rewrite alternates_app, Ha, Hp. reflexivity.
        -- rewrite length_app, Nat.add_1_r, Nat.even_succ, <- Nat.negb_even, Hp.
           reflexivity.
        -- apply Forall_app. split; [exact Hs|].
           constructor; [|constructor]. unfold shaped. cbn. auto.
        -- constructor; [exact Hcar|constructor].
  - destruct Hc as [[Hl [Hlen Hm]]|[Hl Hnil]].
    + rewrite (singleton_split _ _ _ _ Hin Hlen).
      destruct (settle_shaped_chat o (ui c) st' Hst) as [m [He [Hr Hsh]]].
      exact (settle_well_formed token c _ m Hw Hl He Hr Hsh).
    + rewrite Hnil in Hin. destruct before; discriminate.
  - destruct Hc as [[Hl [Hlen Hm]]|[Hl Hnil]].
    + rewrite (singleton_split _ _ _ _ Hin Hlen).
      destruct (settle_shaped_attendance o (ui c)) as [m [He [Hr Hsh]]].
      exact (settle_well_formed token c _ m Hw Hl He Hr Hsh).
    + rewrite Hnil in Hin. destruct before; discriminate.
Qed.

Lemma reachable_well_formed (token : string) (c : Config) :
  reachable token c -> well_formed token c.
Proof.
  induction 1 as [|c c' Hr IH Hs].
  - repeat split; constructor.
  - exact (step_well_formed token c c' Hs (reachable_consistent token c Hr) IH).
Qed.

Lemma after_hi_reachable (token : string) : reachable token (after_hi token).
Proof.
  eapply reach_step; [eapply reach_step; [apply reach_start|]|].
  - apply (step_event token start (Change "hi")).
  - apply (step_event token (after_event token (Change "hi") start) Submit).
Qed.

Lemma last_of_odd_alternation (l : list Message) :
  alternates user l = true -> Nat.even (List.length l) = false ->
  exists earlier m, l = (earlier ++ [m])%list /\ role m = user.
Proof.
  intros Ha Hp. destruct l as [|a l] using rev_ind; [discriminate|].
  exists l, a. split; [reflexivity|].
  rewrite alternates_app in Ha. apply andb_true_iff in Ha as [_ Hr].
  rewrite length_app, Nat.add_1_r, Nat.even_succ, <- Nat.negb_even in Hp.
  apply negb_false_iff in Hp. rewrite Hp in Hr.
  destruct (role a); [reflexivity|discriminate].
Qed.

Lemma shaped_user (m : Message) :
  shaped m -> role m = user -> m = plain user (content m).
Proof.
  unfold shaped. intros H Hr. rewrite Hr in H. destruct H as [H1 [H2 H3]].
  destruct m; cbn in *. subst. reflexivity.
Qed.

(** X5.  In every reachable conversation the roles of the transcript
    alternate, starting with the user, and its length is odd exactly
    while the component is busy. *)
Theorem transcript_alternates (token : string) (c : Config) :
  reachable token c ->
  alternates user (messages (ui c)) = true
  /\ Nat.even (List.length (messages (ui c))) = negb (loading (ui c)).
Proof.
  intro H. destruct (reachable_well_formed token c H) as [Ha [Hp _]]. auto.
Qed.

Lemma transcript_alternates_witness :
  alternates user (messages (ui (after_hi "abc"))) = true
  /\ Nat.even (List.length (messages (ui (after_hi "abc"))))
     = negb (loading (ui (after_hi "abc"))).
Proof.
  apply (transcript_alternates "abc" (after_hi "abc")).
  apply after_hi_reachable.
Defined.

(** X6.  In every reachable conversation a chat request in flight
    carries the token of the component and the current transcript, which
    ends with a plain user message. *)
Theorem request_carries_transcript
    (token bearer : string) (body : list Message) (c : Config) :
  reachable token c -> In (PostChat bearer body) (inflight c) ->
  bearer = token
  /\ body = messages (ui c)
  /\ exists earlier txt, body = (earlier ++ [plain user txt])%list.
Proof.
  intros Hr Hin.
  destruct (reachable_well_formed token c Hr) as [Ha [Hp [Hs Hc]]].
  rewrite Forall_forall in Hc. specialize (Hc _ Hin).
  destruct Hc as [Hc|Hc]; [discriminate|]. injection Hc as -> ->.
  split; [reflexivity|]. split; [reflexivity|].
  destruct (reachable_consistent token c Hr) as [[Hl _]|[_ Hnil]];
    [|rewrite Hnil in Hin; contradiction].
  rewrite Hl in Hp. cbn [negb] in Hp.
  destruct (last_of_odd_alternation _ Ha Hp) as [earlier [m [He Hm]]].
  exists earlier, (content m). rewrite He. f_equal. f_equal.
  apply shaped_user; [|exact Hm].
  rewrite He in Hs. apply Forall_app in Hs as [_ Hs].
  inversion Hs; assumption.
Qed.

Lemma request_carries_transcript_witness :
  "abc" = "abc"
  /\ [plain user "hi"] = messages (ui (after_hi "abc"))
  /\ exists earlier txt, [plain user "hi"] = (earlier ++ [plain user txt])%list.
Proof.
  apply (request_carries_transcript "abc" "abc" [plain user "hi"] (after_hi "abc")).
  - apply after_hi_reachable.
  - left. reflexivity.
Defined.

(** X7.  Every message of a reachable transcript is shaped by its
    role: a user message has no sources, actions or attendance records;
    an assistant message with attendance records has a non-empty list of
    them, no sources or actions, and the report of that list as its
    content (for counts that are not negative, totals of at most [2^53]
    and percentages below [10^21] in magnitude); in the report the
    overall percentage is the one binary64 arithmetic gives. *)
Theorem transcript_messages_are_shaped (token : string) (c : Config) (m : Message) :
  reachable token c -> In m (messages (ui c)) -> shaped m.
Proof.
  intros Hr Hin. destruct (reachable_well_formed token c Hr) as [_ [_ [Hs _]]].
  rewrite Forall_forall in Hs. exact (Hs m Hin).
Qed.

Lemma transcript_messages_are_shaped_witness :
  shaped (plain user "hi")
  /\ content (report Attendance.halves)
     = Attendance.formattedContent Attendance.halves.
Proof.
  split.
  - apply (transcript_messages_are_shaped "abc" (after_hi "abc")).
    + apply after_hi_reachable.
    + left. reflexivity.
  - apply (transcript_messages_are_shaped "abc"
             (after_report "abc" Attendance.halves) (report Attendance.halves)).
    + eapply reach_step; [eapply reach_step; [apply reach_start|]|].
      * apply (step_event "abc" start (ClickPrompt 0)).
      * apply (step_attendance "abc" (after_prompt "abc") [] [] "abc"
                 (Responded 200
                    (BodyObject
                       {| Attendance.attendance := Some Attendance.halves |}))).
        reflexivity.
    + right. left. reflexivity.
    + split; [repeat constructor; cbn; lia|].
      split; [vm_compute; discriminate|].
      split; [vm_compute; discriminate|].
      repeat constructor; vm_compute; reflexivity.
Defined.

(** The overall line of that report carries the percentage as binary64
    arithmetic gives it. *)
Remark report_overall_line :
  Attendance.show_overall Attendance.halves = "51.2"%string
  /\ content (report Attendance.halves)
     = Attendance.formattedContent Attendance.halves.
Proof. split; [vm_compute; reflexivity|reflexivity]. Qed.

End TranscriptProps.

Module RouterProps.
Import JS Http Session Router ChatProps.
Local Open Scope string_scope.

Lemma truthy_token_iff (t : option string) :
  truthy_token t = true <-> exists s, t = Some s /\ s <> "".
Proof.
  destruct t as [s|]; simpl.
  - rewrite truthy_true_iff. split.
    + intro H. exists s. auto.
    + intros [s' [[= <-] H]]. exact H.
  - split; [discriminate|intros [s [H _]]; discriminate].
Qed.



Lemma sync_stored (a : App) :
  truthy_token (stored (sync a)) = truthy_token (token a).
Proof.
  unfold sync. cbn [stored]. destruct (truthy_token (token a)) eqn:H; [exact H|reflexivity].
Qed.

Lemma interceptor_some_iff (t : option string) :
  interceptor t <> None <-> truthy_token t = true.
Proof.
  destruct t as [s|]; simpl; [|split; [congruence|discriminate]].
  destruct (truthy s); split; congruence.
Qed.

(** X9.  After the effect of [App] has run, the interceptor sets the
    [Authorization] header exactly when the protected routes render, and
    the header is ["Bearer "] followed by the token.  The effect is
    idempotent; after a logout it changes nothing, no header is set and
    the protected routes go to the login page. *)
Theorem header_iff_protected_renders (a : App) (v : View) :
  (interceptor (stored (sync a)) <> None
   <-> ProtectedRoute (token (sync a)) v = Render v)
  /\ (forall t, interceptor (stored (sync a)) = Some t ->
        exists s, token a = Some s /\ t = "Bearer " ++ s)
  /\ sync (sync a) = sync a
  /\ sync (handleLogout a) = handleLogout a
  /\ interceptor (stored (handleLogout a)) = None
  /\ ProtectedRoute (token (handleLogout a)) v = Navigate Login.
Proof.
  split; [|split; [|split; [|repeat split]]].
  - rewrite interceptor_some_iff, sync_stored. unfold ProtectedRoute.
    cbn [sync token]. destruct (truthy_token (token a)); split; congruence.
  - intro t. unfold sync. cbn [stored].
    destruct (token a) as [s|] eqn:Ht; cbn [truthy_token].
    + destruct (truthy s) eqn:Hs; cbn [interceptor]; [|discriminate].
      rewrite Hs. intros [= <-]. exists s. auto.
    + discriminate.
  - unfold sync. cbn [token stored route].
    destruct (truthy_token (token a)); reflexivity.
Qed.

Lemma header_iff_protected_renders_witness :
  exists s, token logged_in = Some s /\ "Bearer abc" = "Bearer " ++ s.
Proof.
  apply (header_iff_protected_renders logged_in ChatView). reflexivity.
Defined.

End RouterProps.

Module LoginProps.
Import JS Http Session Router Login ChatProps.
Local Open Scope string_scope.

Lemma or_else_string_truthy (x : option string) (d : string) :
  d <> "" -> or_else_string x d <> "".
Proof.
  intro Hd. destruct x as [s|]; simpl; [|exact Hd].
  destruct (truthy s) eqn:Hs; [apply truthy_true_iff; exact Hs|exact Hd].
Qed.

(** X10.  When the login call is rejected, or resolves with a [null]
    body, the session and the user are unchanged, the typed credentials
    are kept, the busy flag is cleared and the error text is not empty:
    it is the [detail] of the response when there is a non-empty one,
    and the text "Login failed. Please check your credentials."
    otherwise. *)
Theorem refused_login_shows_an_error (o : outcome LoginBody) (w : World) :
  axios_resolves o = None \/ axios_resolves o = Some BodyNull ->
  app (handleSubmit_settle o w) = app w
  /\ user (handleSubmit_settle o w) = user w
  /\ error (form (handleSubmit_settle o w)) <> ""
  /\ loading (form (handleSubmit_settle o w)) = false
  /\ studentId (form (handleSubmit_settle o w)) = studentId (form w)
  /\ password (form (handleSubmit_settle o w)) = password (form w)
  /\ (forall status d text, o = Responded status (BodyObject d) ->
        detail d = Some text -> text <> "" ->
        error (form (handleSubmit_settle o w)) = text)
  /\ (detail_of o = None \/ detail_of o = Some "" ->
      error (form (handleSubmit_settle o w))
      = "Login failed. Please check your credentials.").
Proof.
  intros [H|H]; unfold handleSubmit_settle; rewrite H; cbn;
    repeat split; try discriminate.
  - apply or_else_string_truthy. discriminate.
  - intros status d text -> Hd Ht. cbn [detail_of]. rewrite Hd. cbn.
    apply truthy_true_iff in Ht. rewrite Ht. reflexivity.
  - intros [Hd|Hd]; rewrite Hd; reflexivity.
  - intros status d text ->. cbn in H.
    destruct ((200 <=? status)%Z && (status <? 300)%Z); discriminate.
Qed.

Lemma refused_login_shows_an_error_witness :
  app (handleSubmit_settle (Responded 401 (BodyObject denied)) logged_out)
  = app logged_out
  /\ error (form (handleSubmit_settle (Responded 401 (BodyObject denied))
                    logged_out))
     = "Invalid credentials"
  /\ error (form (handleSubmit_settle Rejected logged_out))
     = "Login failed. Please check your credentials."
  /\ error (form (handleSubmit_settle (Responded 200 BodyNull) logged_out))
     = "Login failed. Please check your credentials.".
Proof.
  destruct (refused_login_shows_an_error
              (Responded 401 (BodyObject denied)) logged_out)
    as [Ha [_ [_ [_ [_ [_ [Hd _]]]]]]]; [left; reflexivity|].
  split; [exact Ha|]. split; [|split].
  - apply (Hd 401 denied); [reflexivity|reflexivity|discriminate].
  - apply (refused_login_shows_an_error Rejected logged_out);
      left; reflexivity.
  - apply (refused_login_shows_an_error (Responded 200 BodyNull) logged_out);
      [right; reflexivity|left; reflexivity].
Defined.

(** X11.  A login that resolves with a non-empty token, followed by
    the effect of [App], sets and stores the token, makes the interceptor
    send it as bearer, keeps no error text, and goes to the chat route,
    which renders the chat page. *)
Theorem accepted_login_opens_chat
    (status : Z) (d : LoginBody) (t : string) (w : World) :
  (200 <= status < 300)%Z -> body_token d = Some t -> t <> "" ->
  let w' := after_effect
              (handleSubmit_settle (Responded status (BodyObject d))
                 (fst (handleSubmit_start w))) in
  token (app w') = Some t
  /\ stored (app w') = Some t
  /\ interceptor (stored (app w')) = Some ("Bearer " ++ t)
  /\ of_path (route (app w')) = Some ChatRoute
  /\ element (token (app w')) ChatRoute = Render ChatView
  /\ user w' = Some d
  /\ error (form w') = ""
  /\ loading (form w') = false.
Proof.
  intros Hs Hb Ht. unfold handleSubmit_settle, axios_resolves.
  replace ((200 <=? status)%Z && (status <? 300)%Z) with true
    by (symmetry; apply andb_true_iff; split;
        [apply Z.leb_le|apply Z.ltb_lt]; lia).
  apply truthy_true_iff in Ht. cbn. rewrite Hb. cbn. rewrite Ht.
  unfold ProtectedRoute. cbn. rewrite Ht. repeat split.
Qed.

Lemma accepted_login_opens_chat_witness :
  token (app (after_effect
                (handleSubmit_settle (Responded 200 (BodyObject granted))
                   (fst (handleSubmit_start logged_out))))) = Some "abc".
Proof.
  apply (accepted_login_opens_chat 200 granted "abc" logged_out);
    [lia|reflexivity|discriminate].
Defined.

(** X12.  A login that resolves without a token (a body that is not
    JSON, or no or an empty [token]) stores nothing and goes to the chat
    route, which redirects to the login page; no error text is shown. *)
Theorem tokenless_login_returns_to_login
    (status : Z) (b : body LoginBody) (w : World) :
  (200 <= status < 300)%Z ->
  (b = BodyInvalid
   \/ exists d, b = BodyObject d
                /\ (body_token d = None \/ body_token d = Some "")) ->
  let w' := after_effect
              (handleSubmit_settle (Responded status b)
                 (fst (handleSubmit_start w))) in
  stored (app w') = None
  /\ interceptor (stored (app w')) = None
  /\ of_path (route (app w')) = Some ChatRoute
  /\ settle 1 (token (app w')) ChatRoute = Some (Login, LoginView)
  /\ error (form w') = ""
  /\ loading (form w') = false.
Proof.
  intros Hs Hb. unfold handleSubmit_settle, axios_resolves.
  replace ((200 <=? status)%Z && (status <? 300)%Z) with true
    by (symmetry; apply andb_true_iff; split;
        [apply Z.leb_le|apply Z.ltb_lt]; lia).
  destruct Hb as [->|[d [-> [Hd|Hd]]]]; cbn; rewrite ?Hd; cbn; repeat split.
Qed.

Lemma tokenless_login_returns_to_login_witness :
  settle 1
    (token (app (after_effect
                   (handleSubmit_settle (Responded 200 (BodyObject tokenless))
                      (fst (handleSubmit_start logged_out))))))
    ChatRoute
  = Some (Login, LoginView).
Proof.
  apply (tokenless_login_returns_to_login 200 (BodyObject tokenless) logged_out);
    [lia|].
  right. exists tokenless. split; [reflexivity|left; reflexivity].
Defined.

End LoginProps.

Module BookingProps.
Import JS Http Booking ChatProps.
Local Open Scope string_scope.

Lemma booking_dispatch_consistent (e : Event) (c : Config) :
  consistent c -> consistent (after_event e c).
Proof.
  destruct c as [[f sc ld msg] inf]. unfold consistent, after_event.
  cbn [ui inflight showConfirm loading formData].
  intros [Hshow [Hall Hload]].
  destruct e as [name value| | |]; cbn [dispatch showConfirm loading formData].
  - destruct sc; cbn [fst snd issued handleChange showConfirm loading formData];
      rewrite app_nil_r; solve [split; [auto; discriminate|auto]].
  - destruct sc; [|destruct (complete f) eqn:Hc];
      cbn [fst snd issued handlePreview showConfirm loading formData];
      rewrite app_nil_r; solve [split; [auto; discriminate|auto]].
  - destruct sc, ld;
      cbn [andb negb fst snd issued handleConfirm_start showConfirm loading
           formData];
      rewrite ?app_nil_r; try solve [split; [auto; discriminate|auto]].
    destruct Hload as [[Hx _]|[_ ->]]; [discriminate|].
    cbn [app]. split; [exact Hshow|].
    split; [constructor; [apply Hshow; reflexivity|constructor]|].
    left. split; reflexivity.
  - destruct sc; cbn [fst snd issued handleCancel showConfirm loading formData];
      rewrite app_nil_r; solve [split; [auto; discriminate|auto]].
Qed.

Lemma booking_step_consistent (c c' : Config) :
  step c c' -> consistent c -> consistent c'.
Proof.
  intros [c0 e|c0 before after r o Hin] Hc.
  - exact (booking_dispatch_consistent e c0 Hc).
  - destruct Hc as [Hshow [Hall Hload]].
    destruct Hload as [[Hl Hlen]|[_ Hnil]];
      [|rewrite Hnil in Hin; destruct before; discriminate].
    rewrite (singleton_split _ _ _ _ Hin Hlen). unfold consistent.
    cbn [ui inflight]. unfold handleConfirm_settle.
    destruct (axios_resolves o); cbn [showConfirm formData loading].
    + split; [discriminate|]. split; [constructor|right; auto].
    + split; [exact Hshow|]. split; [constructor|right; auto].
Qed.

Lemma booking_reachable_consistent (c : Config) : reachable c -> consistent c.
Proof.
  induction 1 as [|c c' _ IH Hs].
  - unfold consistent. cbn. split; [discriminate|]. split; [constructor|right; auto].
  - exact (booking_step_consistent c c' Hs IH).
Qed.

(** X13.  In every reachable state of the appointment page a booking
    request in flight has its four fields non-empty, it is the only one
    in flight, and the page is busy. *)
Theorem booking_requests_are_complete (c : Config) (r : FormData) :
  reachable c -> In r (inflight c) ->
  faculty_id r <> "" /\ date r <> "" /\ time_slot r <> "" /\ purpose r <> ""
  /\ inflight c = [r] /\ loading (ui c) = true.
Proof.
  intros Hr Hin. destruct (booking_reachable_consistent c Hr) as [_ [Hall Hload]].
  rewrite Forall_forall in Hall. specialize (Hall r Hin).
  unfold complete in Hall.
  apply andb_true_iff in Hall as [Hall H4].
  apply andb_true_iff in Hall as [Hall H3].
  apply andb_true_iff in Hall as [H1 H2].
  rewrite truthy_true_iff in H1, H2, H3, H4.
  repeat (split; [assumption|]).
  destruct Hload as [[Hl Hlen]|[_ Hnil]]; [|rewrite Hnil in Hin; contradiction].
  split; [|exact Hl].
  destruct (inflight c) as [|a [|b l]]; try discriminate.
  destruct Hin as [->|[]]. reflexivity.
Qed.

Lemma confirming_reachable : reachable confirming.
Proof.
  unfold confirming, filled.
  repeat (eapply reach_step; [|apply step_event]).
  apply reach_start.
Qed.

Lemma booking_requests_are_complete_witness :
  faculty_id (formData (ui filled)) <> ""
  /\ date (formData (ui filled)) <> ""
  /\ time_slot (formData (ui filled)) <> ""
  /\ purpose (formData (ui filled)) <> ""
  /\ inflight confirming = [formData (ui filled)]
  /\ loading (ui confirming) = true.
Proof.
  apply (booking_requests_are_complete confirming (formData (ui filled))).
  - apply confirming_reachable.
  - left. reflexivity.
Defined.

(** X14.  A rejected booking keeps the form data and the confirmation
    view, clears the busy flag and shows an error notice with a non-empty
    text: the [detail] of the response when there is a non-empty one, and
    "Failed to book appointment" otherwise; a resolved booking empties
    the form, closes the confirmation and shows the success notice
    "Appointment booked successfully!". *)
Theorem booking_outcome (o : outcome ErrorBody) (st : State) :
  (axios_resolves o = None ->
   formData (handleConfirm_settle o st) = formData st
   /\ showConfirm (handleConfirm_settle o st) = showConfirm st
   /\ loading (handleConfirm_settle o st) = false
   /\ exists t,
        message (handleConfirm_settle o st) = Some {| type := error; text := t |}
        /\ t <> ""
        /\ (forall status d s, o = Responded status (BodyObject d) ->
              detail d = Some s -> s <> "" -> t = s)
        /\ (detail_of o = None \/ detail_of o = Some "" ->
            t = "Failed to book appointment"))
  /\ (axios_resolves o <> None ->
      handleConfirm_settle o st
      = {| formData := {| faculty_id := ""; date := ""; time_slot := "";
                          purpose := "" |};
           showConfirm := false; loading := false;
           message := Some {| type := success;
                              text := "Appointment booked successfully!" |} |}).
Proof.
  unfold handleConfirm_settle. split; intro H.
  - rewrite H. cbn. repeat split. eexists. split; [reflexivity|].
    split; [|split].
    + destruct (detail_of o) as [s|]; cbn; [|discriminate].
      destruct (truthy s) eqn:Hs; [apply truthy_true_iff; exact Hs|discriminate].
    + intros status d s -> Hd Hs. cbn. rewrite Hd. cbn.
      apply truthy_true_iff in Hs. rewrite Hs. reflexivity.
    + intros [Hd|Hd]; rewrite Hd; reflexivity.
  - destruct (axios_resolves o); [reflexivity|congruence].
Qed.

Lemma booking_outcome_witness :
  (exists t,
     message (handleConfirm_settle
                (Responded 409 (BodyObject {| detail := Some "Slot taken" |}))
                (ui confirming))
     = Some {| type := error; text := t |}
     /\ t = "Slot taken")
  /\ (exists t,
        message (handleConfirm_settle Rejected (ui confirming))
        = Some {| type := error; text := t |}
        /\ t = "Failed to book appointment")
  /\ handleConfirm_settle (Responded 200 BodyNull) (ui confirming)
     = {| formData := {| faculty_id := ""; date := ""; time_slot := "";
                         purpose := "" |};
          showConfirm := false; loading := false;
          message := Some {| type := success;
                             text := "Appointment booked successfully!" |} |}.
Proof.
  split; [|split].
  - destruct (booking_outcome
                (Responded 409 (BodyObject {| detail := Some "Slot taken" |}))
                (ui confirming)) as [H _].
    destruct (H eq_refl) as [_ [_ [_ [t [Hm [_ [Hd _]]]]]]].
    exists t. split; [exact Hm|].
    apply (Hd 409 {| detail := Some "Slot taken" |});
      [reflexivity|reflexivity|discriminate].
  - destruct (booking_outcome Rejected (ui confirming)) as [H _].
    destruct (H eq_refl) as [_ [_ [_ [t [Hm [_ [_ Hf]]]]]]].
    exists t. split; [exact Hm|]. apply Hf. left. reflexivity.
  - apply (booking_outcome (Responded 200 BodyNull) (ui confirming)).
    discriminate.
Defined.

(** X15.  Cancel is delivered while a booking is in flight: it closes
    the confirmation and shows the cancelled notice, the request stays in
    flight, and when it resolves the success notice replaces the
    cancelled one. *)
Theorem cancel_does_not_withdraw (c : Config) (o : outcome ErrorBody) :
  reachable c -> loading (ui c) = true -> showConfirm (ui c) = true ->
  inflight (after_event Cancel c) = inflight c
  /\ inflight (after_event Cancel c) <> []
  /\ showConfirm (ui (after_event Cancel c)) = false
  /\ formData (ui (after_event Cancel c)) = formData (ui c)
  /\ loading (ui (after_event Cancel c)) = true
  /\ message (ui (after_event Cancel c))
     = Some {| type := info; text := "Booking cancelled" |}
  /\ (axios_resolves o <> None ->
      message (handleConfirm_settle o (ui (after_event Cancel c)))
      = Some {| type := success; text := "Appointment booked successfully!" |}).
Proof.
  intros Hr Hl Hs. unfold after_event. cbn [dispatch ui inflight].
  rewrite Hs. cbn [fst snd issued]. rewrite app_nil_r.
  split; [reflexivity|]. split; [|split; [reflexivity|]].
  - destruct (booking_reachable_consistent c Hr) as [_ [_ [[_ Hlen]|[Hx _]]]];
      [|congruence].
    destruct (inflight c); [discriminate|discriminate].
  - split; [reflexivity|]. split; [exact Hl|]. split; [reflexivity|].
    intro Ho. unfold handleConfirm_settle.
    destruct (axios_resolves o); [reflexivity|congruence].
Qed.

Lemma cancel_does_not_withdraw_witness :
  inflight (after_event Cancel confirming) = inflight confirming
  /\ showConfirm (ui (after_event Cancel confirming)) = false
  /\ message (handleConfirm_settle (Responded 200 BodyNull)
                (ui (after_event Cancel confirming)))
     = Some {| type := success; text := "Appointment booked successfully!" |}.
Proof.
  destruct (cancel_does_not_withdraw confirming (Responded 200 BodyNull))
    as [H1 [_ [H3 [_ [_ [_ H4]]]]]].
  - apply confirming_reachable.
  - reflexivity.
  - reflexivity.
  - split; [exact H1|]. split; [exact H3|]. apply H4. discriminate.
Defined.

End BookingProps.

Module BoardProps.
Import JS Http Attendance Pages Board ChatProps AttendanceProps PagesProps JSFacts.
Local Open Scope string_scope.

Lemma fetchData_settle_rejected
    (op : outcome Profile) (oa : outcome AttendanceData)
    (os : outcome ScheduleData) (ofe : outcome FeeStatus) (st : State) :
  axios_resolves op = None \/ axios_resolves oa = None
  \/ axios_resolves os = None \/ axios_resolves ofe = None ->
  fetchData_settle op oa os ofe st
  = {| profile := profile st; attendance := attendance st;
       schedule := schedule st; fees := fees st; loading := false |}.
Proof.
  unfold fetchData_settle.
  destruct (axios_resolves op), (axios_resolves oa), (axios_resolves os),
    (axios_resolves ofe); intros [H|[H|[H|H]]]; try discriminate;
    reflexivity.
Qed.

(** X16.  The four cells of the dashboard are set together or not at
    all: when one of the four calls is rejected none changes, when the
    four resolve each gets its body; the loading flag is cleared either
    way. *)
Theorem dashboard_data_is_all_or_nothing
    (op : outcome Profile) (oa : outcome AttendanceData)
    (os : outcome ScheduleData) (ofe : outcome FeeStatus) (st : State) :
  loading (fetchData_settle op oa os ofe st) = false
  /\ (axios_resolves op = None \/ axios_resolves oa = None
      \/ axios_resolves os = None \/ axios_resolves ofe = None ->
      profile (fetchData_settle op oa os ofe st) = profile st
      /\ attendance (fetchData_settle op oa os ofe st) = attendance st
      /\ schedule (fetchData_settle op oa os ofe st) = schedule st
      /\ fees (fetchData_settle op oa os ofe st) = fees st)
  /\ (forall bp ba bs bf,
        axios_resolves op = Some bp -> axios_resolves oa = Some ba ->
        axios_resolves os = Some bs -> axios_resolves ofe = Some bf ->
        fetchData_settle op oa os ofe st
        = {| profile := cell bp; attendance := cell ba; schedule := cell bs;
             fees := cell bf; loading := false |}).
Proof.
  split; [|split].
  - unfold fetchData_settle.
    destruct (axios_resolves op), (axios_resolves oa), (axios_resolves os),
      (axios_resolves ofe); reflexivity.
  - intro H. rewrite (fetchData_settle_rejected _ _ _ _ _ H).
    repeat split.
  - intros bp ba bs bf Hp Ha Hs Hf. unfold fetchData_settle.
    rewrite Hp, Ha, Hs, Hf. reflexivity.
Qed.

(** X17.  After a first load in which one of the four calls is
    rejected, the dashboard greets "Student", shows an average attendance
    of 0.0% marked below 75% in red, and a fee status "N/A" marked paid in
    full in green. *)
Theorem failed_dashboard_reads_as_low_and_paid
    (op : outcome Profile) (oa : outcome AttendanceData)
    (os : outcome ScheduleData) (ofe : outcome FeeStatus) :
  axios_resolves op = None \/ axios_resolves oa = None
  \/ axios_resolves os = None \/ axios_resolves ofe = None ->
  let st := fetchData_settle op oa os ofe init in
  welcome st = "Student"
  /\ DashboardPage.average_card (attendance st) = "0.0%"
  /\ average_subtitle (attendance st) = "⚠️ Below 75%"
  /\ average_color (attendance st) = "red"
  /\ fee_value (fees st) = "N/A"
  /\ DashboardPage.fee_card (fees st) = PaidInFull
  /\ fee_color (fees st) = "green".
Proof.
  intro H. cbv zeta. rewrite (fetchData_settle_rejected _ _ _ _ _ H).
  repeat split.
Qed.

Lemma dashboard_data_is_all_or_nothing_witness :
  fees (fetchData_settle unreachable_profile some_attendance some_schedule
          some_fees init) = None
  /\ fees (fetchData_settle
             (Responded 200 BodyNull) some_attendance some_schedule
             some_fees init) = Some (fees_owing "Pending").
Proof.
  split.
  - apply (dashboard_data_is_all_or_nothing unreachable_profile
             some_attendance some_schedule some_fees init).
    left. reflexivity.
  - destruct (dashboard_data_is_all_or_nothing (Responded 200 BodyNull)
                some_attendance some_schedule some_fees init)
      as [_ [_ H]].
    rewrite (H BodyNull _ _ _ eq_refl eq_refl eq_refl eq_refl). reflexivity.
Defined.

Lemma failed_dashboard_reads_as_low_and_paid_witness :
  DashboardPage.average_card
    (attendance (fetchData_settle unreachable_profile some_attendance
                   some_schedule some_fees init)) = "0.0%"
  /\ DashboardPage.fee_card
       (fees (fetchData_settle unreachable_profile some_attendance
                some_schedule some_fees init)) = PaidInFull.
Proof.
  destruct (failed_dashboard_reads_as_low_and_paid unreachable_profile
              some_attendance some_schedule some_fees)
    as [_ [H1 [_ [_ [_ [H2 _]]]]]]; [left; reflexivity|].
  split; [exact H1|exact H2].
Defined.

Lemma Qltb_zero_iff (x : Q) : Qltb 0 x = true <-> ~ (x <= 0)%Q.
Proof.
  rewrite Qltb_lt. split.
  - intros H Hle. exact (Qlt_not_le _ _ H Hle).
  - apply Qnot_le_lt.
Qed.

(** X18.  For every fee status the fee card of the dashboard and the
    profile page agree on paid in full; the fee page and the profile page
    show the same banner unless the status is ["Paid"] with a non-zero
    [due].  Without fee data the profile and fee pages show an outstanding
    balance of 0 and the dashboard shows paid in full.  For [due >= 0]
    the card is yellow exactly when it shows the amount due, and its
    colour is always a key of [colorClasses]. *)
Theorem fee_views_compared (f : FeeStatus) :
  (DashboardPage.fee_card (Some f) = PaidInFull
   <-> ProfilePage.fee_banner (Some f) = PaidInFull)
  /\ (FeesPage.fee_banner (Some f) = ProfilePage.fee_banner (Some f)
      <-> ~ (status f = "Paid" /\ ~ (due f == 0)%Q))
  /\ ProfilePage.fee_banner None = Outstanding 0
  /\ FeesPage.fee_banner None = Outstanding 0
  /\ DashboardPage.fee_card None = PaidInFull
  /\ ((0 <= due f)%Q ->
      (fee_color (Some f) = "yellow"
       <-> DashboardPage.fee_card (Some f) = Outstanding (due f)))
  /\ lookup (fee_color (Some f)) colorClasses <> None.
Proof.
  split; [|split; [|split; [|split; [|split; [|split]]]]];
    try reflexivity.
  - unfold DashboardPage.fee_card, ProfilePage.fee_banner, due_is_zero.
    destruct (Qeq_bool (due f) 0); split; congruence.
  - unfold FeesPage.fee_banner, FeesPage.isPaid, ProfilePage.fee_banner,
      due_is_zero, due_or_zero.
    destruct (Qeq_bool (due f) 0) eqn:Hd; cbn [orb].
    + split; [|reflexivity]. intros _ [_ Hn]. apply Hn, Qeq_bool_iff. exact Hd.
    + destruct (String.eqb_spec (status f) "Paid") as [Hp|Hp].
      * split; [discriminate|]. intro Hn. exfalso. apply Hn.
        split; [exact Hp|]. intro H0. apply Qeq_bool_iff in H0. congruence.
      * split; [|reflexivity]. intros _ [Hs _]. contradiction.
  - intro Hpos. unfold fee_color, DashboardPage.fee_card.
    destruct (Qeq_bool (due f) 0) eqn:Hd.
    + apply Qeq_bool_iff in Hd.
      assert (Hf : Qltb 0 (due f) = false).
      { apply not_true_is_false. intro H. apply Qltb_zero_iff in H.
        apply H. rewrite Hd. apply Qle_refl. }
      rewrite Hf. split; discriminate.
    + assert (Ht : Qltb 0 (due f) = true).
      { apply Qltb_zero_iff. intro Hle. apply not_true_iff_false in Hd.
        apply Hd, Qeq_bool_iff. apply Qle_antisym; assumption. }
      rewrite Ht. split; reflexivity.
  - unfold fee_color. destruct (Qltb 0 (due f)); discriminate.
Qed.

Lemma fee_views_compared_witness :
  fee_color (Some (fees_owing "Pending")) = "yellow"
  <-> DashboardPage.fee_card (Some (fees_owing "Pending"))
      = Outstanding (due (fees_owing "Pending")).
Proof.
  apply (fee_views_compared (fees_owing "Pending")). discriminate.
Defined.

(** With a negative [due] the fee card says "Due" in green. *)
Remark overpaid_card :
  DashboardPage.fee_card (Some overpaid) = Outstanding (due overpaid)
  /\ fee_color (Some overpaid) = "green".
Proof. split; reflexivity. Qed.

End BoardProps.

Module FiguresProps.
Import JS Http Attendance Pages Figures ChatProps AttendanceProps PagesProps JSFacts.
Local Open Scope string_scope.

Lemma fl_ge_whole (q : Q) (n : Z) :
  0 <= n <= 2 ^ 53 -> (inject_Z n <= q)%Q -> (inject_Z n <= fl q)%Q.
Proof.
  intros Hn H. destruct (Z.eq_dec n 0) as [->|Hz].
  - apply fl_nonneg. exact H.
  - apply fl_ge_integer; [lia|exact H].
Qed.

Lemma fl_le_whole (q : Q) (n : Z) :
  0 <= n <= 2 ^ 53 -> (0 <= q)%Q -> (q <= inject_Z n)%Q -> (fl q <= inject_Z n)%Q.
Proof.
  intros Hn H0 H. destruct (Z.eq_dec n 0) as [->|Hz].
  - rewrite (fl_zero q); [apply Qle_refl|]. apply Qle_antisym; assumption.
  - apply fl_le_integer; [exact H0|lia|exact H].
Qed.

(** Whole-number bounds on the percentages bound the running sum of the
    reduce: rounding does not cross a whole number below [2^53]. *)
Lemma sum_percentage_bounds (l : list AttendanceRecord) (lo hi k : Z) (acc : Q) :
  0 <= lo <= hi -> 0 <= k -> hi * (k + Z.of_nat (List.length l)) <= 2 ^ 53 ->
  (forall r, In r l ->
     (inject_Z lo <= percentage r)%Q /\ (percentage r <= inject_Z hi)%Q) ->
  (inject_Z (lo * k) <= acc)%Q -> (acc <= inject_Z (hi * k))%Q ->
  (inject_Z (lo * (k + Z.of_nat (List.length l)))
   <= fold_left (fun sum r => add64 sum (percentage r)) l acc)%Q
  /\ (fold_left (fun sum r => add64 sum (percentage r)) l acc
      <= inject_Z (hi * (k + Z.of_nat (List.length l))))%Q.
Proof.
  intros Hb. revert k acc.
  induction l as [|r l IH]; intros k acc Hk Hs H Hlo Hhi.
  - cbn [fold_left List.length]. rewrite Z.add_0_r. split; assumption.
  - cbn [fold_left]. rewrite length_cons, Nat2Z.inj_succ in *.
    destruct (H r (or_introl eq_refl)) as [H1 H2].
    replace (k + Z.succ (Z.of_nat (List.length l)))
      with ((k + 1) + Z.of_nat (List.length l)) in * by lia.
    assert (Hq1 : (inject_Z (lo * (k + 1)) <= acc + percentage r)%Q).
    { rewrite Z.mul_add_distr_l, Z.mul_1_r, inject_Z_plus. lra. }
    assert (Hq2 : (acc + percentage r <= inject_Z (hi * (k + 1)))%Q).
    { rewrite Z.mul_add_distr_l, Z.mul_1_r, inject_Z_plus. lra. }
    assert (Hq0 : (0 <= acc + percentage r)%Q).
    { eapply Qle_trans; [|exact Hq1].
      change 0%Q with (inject_Z 0). rewrite <- Zle_Qle. nia. }
    apply IH.
    + lia.
    + exact Hs.
    + intros q Hq. apply H. right. exact Hq.
    + unfold add64. apply fl_ge_whole; [nia|exact Hq1].
    + unfold add64. apply fl_le_whole; [nia|exact Hq0|exact Hq2].
Qed.

Lemma average_bounds (l : list AttendanceRecord) (lo hi : Z) :
  l <> [] -> 0 <= lo -> hi * Z.of_nat (List.length l) <= 2 ^ 53 ->
  (forall r, In r l ->
     (inject_Z lo <= percentage r)%Q /\ (percentage r <= inject_Z hi)%Q) ->
  (inject_Z lo <= DashboardPage.avgAttendance (Some {| attendance := Some l |}))%Q
  /\ (DashboardPage.avgAttendance (Some {| attendance := Some l |})
      <= inject_Z hi)%Q.
Proof.
  intros Hne Hlo Hhi H.
  unfold DashboardPage.avgAttendance. rewrite (records_of_nonempty l Hne).
  assert (Hn : 1 <= Z.of_nat (List.length l))
    by (destruct l; [congruence|cbn [List.length]; lia]).
  assert (Hlh : lo <= hi).
  { destruct l as [|r l]; [congruence|].
    destruct (H r (or_introl eq_refl)) as [H1 H2].
    rewrite Zle_Qle. lra. }
  destruct (sum_percentage_bounds l lo hi 0 0 (conj Hlo Hlh) (Z.le_refl 0)) as [S1 S2];
    [rewrite Z.add_0_l; exact Hhi|exact H
    |rewrite Z.mul_0_r; apply Qle_refl|rewrite Z.mul_0_r; apply Qle_refl|].
  fold (sum_percentage l) in S1, S2. rewrite Z.add_0_l in S1, S2.
  rewrite inject_Z_mult in S1, S2.
  set (s := sum_percentage l) in *.
  set (N := inject_Z (Z.of_nat (List.length l))) in *.
  assert (HN : (0 < N)%Q)
    by (unfold N; change 0%Q with (inject_Z 0); rewrite <- Zlt_Qlt; lia).
  assert (Q1 : (inject_Z lo <= s / N)%Q) by (apply Qle_shift_div_l; assumption).
  assert (Q2 : (s / N <= inject_Z hi)%Q) by (apply Qle_shift_div_r; assumption).
  assert (Q0 : (0 <= s / N)%Q).
  { eapply Qle_trans; [|exact Q1].
    change 0%Q with (inject_Z 0). rewrite <- Zle_Qle. exact Hlo. }
  assert (Hh : 0 <= hi <= 2 ^ 53) by nia.
  unfold div64. split.
  - apply fl_ge_whole; [lia|exact Q1].
  - apply fl_le_whole; [exact Hh|exact Q0|exact Q2].
Qed.

(** X19.  For a non-empty record list whose percentages all lie
    between the whole numbers [lo] and [hi] ([0 <= lo], and [hi] times
    the number of courses at most [2^53]), the average attendance of the
    dashboard and of the profile page lies between [lo] and [hi]: no
    rounding of the sum or of the quotient takes it across a whole number.
    With every course at 75 or more the average card is green. *)
Theorem average_within_course_range (l : list AttendanceRecord) (lo hi : Z) :
  l <> [] -> 0 <= lo -> hi * Z.of_nat (List.length l) <= 2 ^ 53 ->
  (forall r, In r l ->
     (inject_Z lo <= percentage r)%Q /\ (percentage r <= inject_Z hi)%Q) ->
  (inject_Z lo <= DashboardPage.avgAttendance (Some {| attendance := Some l |})
   /\ DashboardPage.avgAttendance (Some {| attendance := Some l |})
      <= inject_Z hi)%Q
  /\ ProfilePage.avgAttendance (Some {| attendance := Some l |})
     = DashboardPage.avgAttendance (Some {| attendance := Some l |})
  /\ (75 <= lo ->
      Board.average_color (Some {| attendance := Some l |}) = "green"
      /\ Board.average_subtitle (Some {| attendance := Some l |})
         = "✅ Above 75%").
Proof.
  intros Hne Hlo Hhi H.
  destruct (average_bounds l lo hi Hne Hlo Hhi H) as [H1 H2].
  split; [split; assumption|]. split; [reflexivity|].
  intro H75. unfold Board.average_color, Board.average_subtitle.
  assert (Hb : Qle_bool 75 (DashboardPage.avgAttendance
                              (Some {| attendance := Some l |})) = true).
  { apply Qle_bool_iff. eapply Qle_trans; [|exact H1].
    change 75%Q with (inject_Z 75). rewrite <- Zle_Qle. exact H75. }
  rewrite Hb. split; reflexivity.
Qed.

Lemma average_within_course_range_witness :
  ((inject_Z 60 <= DashboardPage.avgAttendance (Some {| attendance := Some sixty |})
    /\ DashboardPage.avgAttendance (Some {| attendance := Some sixty |})
       <= inject_Z 61)%Q)
  /\ Board.average_color (Some {| attendance := Some [scenario_C1] |}) = "green".
Proof.
  split.
  - apply (average_within_course_range sixty 60 61).
    + discriminate.
    + lia.
    + vm_compute. discriminate.
    + intros r [<-|[<-|[<-|[]]]]; split; vm_compute; discriminate.
  - apply (average_within_course_range [scenario_C1] 75 75).
    + discriminate.
    + lia.
    + vm_compute. discriminate.
    + intros r [<-|[]]; split; vm_compute; discriminate.
    + lia.
Defined.

Lemma Zsum_perm (l l' : list Z) : Permutation l l' -> Zsum l = Zsum l'.
Proof.
  unfold Zsum. induction 1; cbn [fold_right] in *; lia.
Qed.

Lemma filter_perm {A : Type} (f : A -> bool) (l l' : list A) :
  Permutation l l' -> Permutation (filter f l) (filter f l').
Proof.
  induction 1 as [|x l l' _ IH|x y l|l l' l'' _ IH1 _ IH2]; cbn [filter].
  - constructor.
  - destruct (f x); [constructor|]; exact IH.
  - destruct (f x), (f y); try constructor; apply Permutation_refl.
  - eapply Permutation_trans; eassumption.
Qed.

(** X20.  Reordering the records (with counts that are not negative and
    totals of at most [2^53]) changes neither the totals, as whole
    numbers and as the binary64 reduce gives them, nor the overall
    percentage; the low courses are the same up to order.  The average of
    the dashboard does depend on the order: the courses at 64.6, 64.3 and
    96.1 percent average to less than 75, and to 75 with the last two
    exchanged, which changes the subtitle of the card. *)
Theorem figures_ignore_the_order (l l' : list AttendanceRecord) :
  Permutation l l' ->
  Forall counts_ok l -> totalAttended l <= 2 ^ 53 -> totalClasses l <= 2 ^ 53 ->
  totalAttended l = totalAttended l'
  /\ totalClasses l = totalClasses l'
  /\ (reduce64 attended l == reduce64 attended l')%Q
  /\ (reduce64 total_classes l == reduce64 total_classes l')%Q
  /\ overallPercentage l = overallPercentage l'
  /\ Permutation (lowAttendance l) (lowAttendance l')
  /\ Permutation mixed mixed_swapped
  /\ (DashboardPage.avgAttendance (Some {| attendance := Some mixed |}) < 75)%Q
  /\ (DashboardPage.avgAttendance (Some {| attendance := Some mixed_swapped |})
      == 75)%Q
  /\ Board.average_subtitle (Some {| attendance := Some mixed |})
     = "⚠️ Below 75%"
  /\ Board.average_subtitle (Some {| attendance := Some mixed_swapped |})
     = "✅ Above 75%".
Proof.
  intros Hp Hok Hsa Hsc.
  assert (Ea : Zsum (map attended l) = Zsum (map attended l'))
    by (apply Zsum_perm, Permutation_map, Hp).
  assert (Ec : Zsum (map total_classes l) = Zsum (map total_classes l'))
    by (apply Zsum_perm, Permutation_map, Hp).
  assert (Ha : totalAttended l = totalAttended l')
    by (unfold totalAttended; rewrite !reduce_sum; f_equal; exact Ea).
  assert (Hc : totalClasses l = totalClasses l')
    by (unfold totalClasses; rewrite !reduce_sum; f_equal; exact Ec).
  assert (Hok' : Forall counts_ok l').
  { rewrite Forall_forall in *. intros r Hr. apply Hok.
    apply (Permutation_in r (Permutation_sym Hp) Hr). }
  assert (Sa : totalAttended l = Zsum (map attended l))
    by (unfold totalAttended; rewrite reduce_sum; reflexivity).
  assert (Sc : totalClasses l = Zsum (map total_classes l))
    by (unfold totalClasses; rewrite reduce_sum; reflexivity).
  split; [exact Ha|]. split; [exact Hc|]. split; [|split; [|split; [|split]]].
  - rewrite !reduce64_exact.
    + rewrite Ea. reflexivity.
    + eapply Forall_impl; [|exact Hok']. intros r [H _]. exact H.
    + rewrite <- Ea, <- Sa. exact Hsa.
    + eapply Forall_impl; [|exact Hok]. intros r [H _]. exact H.
    + rewrite <- Sa. exact Hsa.
  - rewrite !reduce64_exact.
    + rewrite Ec. reflexivity.
    + eapply Forall_impl; [|exact Hok']. intros r [_ H]. exact H.
    + rewrite <- Ec, <- Sc. exact Hsc.
    + eapply Forall_impl; [|exact Hok]. intros r [_ H]. exact H.
    + rewrite <- Sc. exact Hsc.
  - unfold overallPercentage. rewrite Ha, Hc. reflexivity.
  - apply filter_perm, Hp.
  - split; [apply perm_skip, perm_swap|].
    repeat split; vm_compute; reflexivity.
Qed.

Lemma figures_ignore_the_order_witness :
  overallPercentage [scenario_C2; scenario_C1] = overallPercentage scenario.
Proof.
  apply (figures_ignore_the_order [scenario_C2; scenario_C1] scenario).
  - apply perm_swap.
  - repeat constructor; cbn; lia.
  - vm_compute. discriminate.
  - vm_compute. discriminate.
Defined.

Lemma toFixed1_n_750 (x : Q) :
  (7495 # 100 <= x)%Q -> (x < 75)%Q -> toFixed1_n x = 750.
Proof.
  intros H1 H2. unfold toFixed1_n.
  pose proof (Qfloor_le (x * 10 + (1 # 2))) as Hlo.
  pose proof (Qlt_floor (x * 10 + (1 # 2))) as Hhi.
  set (n := Qfloor (x * 10 + (1 # 2))) in *.
  assert (Ha : (inject_Z n < inject_Z 751)%Q).
  { eapply Qle_lt_trans; [exact Hlo|].
    apply Qlt_le_trans with (75 * 10 + (1 # 2))%Q; [|discriminate].
    apply Qplus_lt_l. apply Qmult_lt_r; [reflexivity|exact H2]. }
  assert (Hb : (inject_Z 750 < inject_Z (n + 1))%Q).
  { eapply Qle_lt_trans; [|exact Hhi].
    apply Qle_trans with ((7495 # 100) * 10 + (1 # 2))%Q; [discriminate|].
    apply Qplus_le_compat; [|apply Qle_refl].
    apply Qmult_le_compat_r; [exact H1|discriminate]. }
  rewrite <- Zlt_Qlt in Ha, Hb. lia.
Qed.

(** X21.  A course whose percentage is at least 74.95 and below 75 is
    printed as 75.0 by [toFixed(1)] and is still marked and listed as
    low: the mark is decided on the number, not on its printed form. *)
Theorem printed_75_can_be_low (r : AttendanceRecord) :
  (7495 # 100 <= percentage r)%Q -> (percentage r < 75)%Q ->
  toFixed1 (percentage r) = "75.0"
  /\ Attendance.status r = "⚠️"
  /\ page_status r = Low
  /\ lowAttendance [r] = [r].
Proof.
  intros H1 H2.
  assert (Hb : below_75 r = true) by (apply below_75_lt; exact H2).
  assert (Ha : at_least_75 r = false)
    by (rewrite at_least_75_not_below, Hb; reflexivity).
  assert (Hn : Qltb (percentage r) 0 = false).
  { apply not_true_is_false. intro H. apply Qltb_lt in H.
    apply (Qlt_not_le _ _ H). eapply Qle_trans; [|exact H1]. discriminate. }
  split; [|split; [|split]].
  - unfold toFixed1. rewrite Hn, (toFixed1_n_750 _ H1 H2). reflexivity.
  - unfold Attendance.status. rewrite Ha. reflexivity.
  - unfold page_status. rewrite Ha. reflexivity.
  - unfold lowAttendance. cbn [filter]. rewrite Hb. reflexivity.
Qed.

Lemma printed_75_can_be_low_witness :
  toFixed1 (percentage nearly) = "75.0"
  /\ Attendance.status nearly = "⚠️"
  /\ page_status nearly = Low
  /\ lowAttendance [nearly] = [nearly].
Proof.
  apply (printed_75_can_be_low nearly); [discriminate|reflexivity].
Defined.




(** The averages of these examples are those of [SpecFloat]'s
    binary64. *)
Remark average_on_binary64 :
  option_map Qred (Binary64.to_Q (Binary64.average (map Binary64.tenths [646; 643; 961])))
  = Some (Qred (DashboardPage.avgAttendance (Some {| attendance := Some mixed |})))
  /\ option_map Qred (Binary64.to_Q (Binary64.average (map Binary64.tenths [646; 961; 643])))
     = Some (Qred (DashboardPage.avgAttendance
                     (Some {| attendance := Some mixed_swapped |})))
  /\ option_map Qred (Binary64.to_Q (Binary64.average (map Binary64.tenths [603; 603; 603])))
     = Some (Qred (DashboardPage.avgAttendance (Some {| attendance := Some sixty |}))).
Proof. repeat split; vm_compute; reflexivity. Qed.

(** With two courses of 40 classes, attended 21 and 20 times, the
    dashboard prints 51.3% and the report of the chat 51.2%: the mean of
    the course percentages is 51.25 exactly, the quotient of the totals
    falls just below it. *)
Remark average_and_overall_print_differently :
  DashboardPage.average_card (Some {| attendance := Some halves |}) = "51.3%"
  /\ show_overall halves = "51.2".
Proof. split; vm_compute; reflexivity. Qed.

End FiguresProps.

Module PromptProps.
Import JS Http Chat ChatProps.
Local Open Scope string_scope.

(** X24.  Clicking any of the suggested prompts on an empty transcript
    appends one user message with the text of the prompt, makes the
    component busy, and issues one request: the attendance request for
    the attendance prompt, a chat request carrying that message
    otherwise. *)
Theorem prompt_click_shows_its_text
    (token : string) (idx : nat) (p : Prompt) (st : State) :
  nth_error suggestedPrompts idx = Some p -> messages st = [] ->
  messages (fst (dispatch token (ClickPrompt idx) st)) = [plain user (text p)]
  /\ loading (fst (dispatch token (ClickPrompt idx) st)) = true
  /\ snd (dispatch token (ClickPrompt idx) st)
     = Some (if String.eqb (action p) "attendance"
             then GetAttendance token
             else PostChat token [plain user (text p)]).
Proof.
  intros Hp Hm. destruct st as [ms inp ld]. cbn in Hm. subst ms.
  do 6 (destruct idx as [|idx]; [injection Hp as <-; repeat split|]).
  destruct idx; discriminate.
Qed.

Lemma prompt_click_shows_its_text_witness :
  messages (fst (dispatch "abc" (ClickPrompt 1) init))
  = [plain user "Today's schedule"].
Proof.
  apply (prompt_click_shows_its_text "abc" 1
           {| icon := "📅"; text := "Today's schedule";
              color := "from-teal-500 to-emerald-600"; action := "chat" |}
           init); reflexivity.
Defined.

End PromptProps.
